(** * Tag extraction and tag-based instance filtering of [awswrapper/ec2wrapper.py]

    The development embeds the functions of [ec2wrapper.py] that work on
    the responses of [describe_instances]: [get_tags_from_instance],
    [are_any_filter_tags_on_instance] and [list_instances_without_tag],
    then [get_instances_ids], [get_instances_data], [get_ec2_connection]
    and the [describe_instances] family.

    The first three are embedded twice.  The first embedding works on values: an
    instance is a record, a dictionary built by the code is a finite map, a
    raised exception is the [Raise] constructor of [PyResult].  It carries
    the properties of what the functions return.  The second embedding
    (module [Heap]) runs the same statements on references into a store of
    mutable dictionaries and lists; it carries the properties of what the
    functions do to their arguments, and is related to the first one by the
    lemmas [run_get_tags_from_instance],
    [run_are_any_filter_tags_on_instance] and
    [run_list_instances_without_tag].  Module [Proc] runs the other
    functions on the same store; the calls into [boto3] are parameters.

    The standard-library function [re.search] is not part of the repository:
    both embeddings take it as a parameter [re_search].  Module [Re] provides
    a reference engine for a small fragment of the pattern language, used to
    run the functions on concrete inputs. *)

From Stdlib Require Import String Ascii List Bool Lia.
From stdpp Require Import base option list strings gmap fin_maps.

Open Scope string_scope.
Open Scope list_scope.
Open Scope nat_scope.

(** ** Python values, exceptions and results *)

(** The values that occur as tag values and as filter patterns. *)
Inductive pyvalue : Type :=
| PyNone
| PyStr (s : string).

#[global] Instance pyvalue_eq_dec : EqDecision pyvalue.
Proof. solve_decision. Defined.

(** Truth value of a Python object: [None] and the empty string are falsy. *)
Definition truthy (v : pyvalue) : bool :=
  match v with
  | PyNone => false
  | PyStr s => negb (String.eqb s "")
  end.

(** The exceptions the embedded code can raise.  [NotImplementedError] is
    not raised by Python: it marks the boundary of the reference engine of
    module [Re] (a pattern outside the modelled fragment). *)
Inductive PyExc : Type :=
| KeyError (k : string)
| TypeError
| AttributeError
| ReError
| NotImplementedError.

Inductive PyResult (A : Type) : Type :=
| Ok (a : A)
| Raise (e : PyExc).
Arguments Ok {A} a.
Arguments Raise {A} e.

#[global] Instance PyResult_ret : MRet PyResult := fun A a => Ok a.
#[global] Instance PyResult_bind : MBind PyResult := fun A B k m =>
  match m with
  | Ok a => k a
  | Raise e => Raise e
  end.

(** ** Data model *)

(** One element of [instance['Tags']]: [{'Key': ..., 'Value': ...}]. *)
Record Tag : Type := { Key : string; Value : pyvalue }.

(** One instance of a reservation.  [Tags = None] is an instance dictionary
    without a ["Tags"] key. *)
Record Instance : Type := { InstanceId : string; Tags : option (list Tag) }.

Record Reservation : Type := { Instances : list Instance }.

(** The response of [describe_instances]: [{'Reservations': [...]}]. *)
Record Ec2Response : Type := { Reservations : list Reservation }.

(** The dictionaries appended to [instances_without_tags]. *)
Module Summary.
Record t : Type := { InstanceId : string; Name : pyvalue }.
End Summary.

(** [tags_filter]: a dictionary from tag names to patterns, as the list of
    its items in the order [tags_filter.keys()] lists them.  The order is
    visible: the loop over the keys returns at the first match and stops at
    the first exception. *)
Definition dict_keys {V : Type} (d : list (string * V)) : list string :=
  map fst d.

Fixpoint dict_get {V : Type} (d : list (string * V)) (k : string) : option V :=
  match d with
  | [] => None
  | (k', v) :: d' => if decide (k' = k) then Some v else dict_get d' k
  end.

(** ** [get_tags_from_instance] *)

(** The body of [for tag in instance['Tags']]. *)
Definition store_tag (instances_data_tags : gmap string pyvalue) (tag : Tag)
    : gmap string pyvalue :=
  let tag_name := Key tag in
  let tag_value := Value tag in
  if decide (tag_value ≠ PyNone)
  then <[tag_name := tag_value]> instances_data_tags
  else instances_data_tags.

Definition get_tags_from_instance (instance : Instance) : gmap string pyvalue :=
  match Tags instance with
  | None => ∅
  | Some tags => fold_left store_tag tags ∅
  end.

Section Filter.

(** [re_search pattern string] stands for [re.search(pattern, string)]:
    [Ok true] is a match object (always truthy), [Ok false] is [None]. *)
Variable re_search : pyvalue -> pyvalue -> PyResult bool.

(** ** [are_any_filter_tags_on_instance] *)

(** The body of [for filter_tag in tags_filter.keys()]. *)
Fixpoint are_any_filter_tags_loop (tags_filter : list (string * pyvalue))
    (instances_tags : gmap string pyvalue) (keys : list string)
    : PyResult bool :=
  match keys with
  | [] => Ok false
  | filter_tag :: keys' =>
      let filtered_tag_in_instance :=
        default (PyStr "") (instances_tags !! filter_tag) in
      let pattern := default PyNone (dict_get tags_filter filter_tag) in
      tags_values_match ← re_search pattern filtered_tag_in_instance;
      if truthy filtered_tag_in_instance && tags_values_match
      then Ok true
      else are_any_filter_tags_loop tags_filter instances_tags keys'
  end.

Definition are_any_filter_tags_on_instance
    (tags_filter : list (string * pyvalue))
    (instances_tags : gmap string pyvalue) : PyResult bool :=
  are_any_filter_tags_loop tags_filter instances_tags (dict_keys tags_filter).

(** ** [list_instances_without_tag] *)

(** The dictionary built for an instance that passes the test. *)
Definition instance_data (instance : Instance)
    (instance_tags : gmap string pyvalue) : Summary.t :=
  {| Summary.InstanceId := InstanceId instance;
     Summary.Name :=
       match instance_tags !! "Name" with
       | Some name => name
       | None => PyStr ""
       end |}.

(** The body of [for instance in reservation['Instances']]. *)
Fixpoint instances_loop (tags_filter : list (string * pyvalue))
    (instances : list Instance) (instances_without_tags : list Summary.t)
    : PyResult (list Summary.t) :=
  match instances with
  | [] => Ok instances_without_tags
  | instance :: instances' =>
      let instance_tags := get_tags_from_instance instance in
      tagged ← are_any_filter_tags_on_instance tags_filter instance_tags;
      if negb tagged
      then instances_loop tags_filter instances'
             (instances_without_tags ++ [instance_data instance instance_tags])
      else instances_loop tags_filter instances' instances_without_tags
  end.

(** The body of [for reservation in ec2_instances['Reservations']]. *)
Fixpoint reservations_loop (tags_filter : list (string * pyvalue))
    (reservations : list Reservation) (instances_without_tags : list Summary.t)
    : PyResult (list Summary.t) :=
  match reservations with
  | [] => Ok instances_without_tags
  | reservation :: reservations' =>
      acc ← instances_loop tags_filter (Instances reservation)
              instances_without_tags;
      reservations_loop tags_filter reservations' acc
  end.

Definition list_instances_without_tag (tags_filter : list (string * pyvalue))
    (ec2_instances : Ec2Response) : PyResult (list Summary.t) :=
  reservations_loop tags_filter (Reservations ec2_instances) [].

End Filter.

(** ** A reference engine for a fragment of [re] patterns *)

Module Re.

(** The fragment: literal characters, [.], [^], [$] and [*] applied to a
    literal or to [.].  No flags are passed by the code, so [.] excludes
    the newline, [^] holds at the start of the string only and [$] at its
    end or before a final newline. *)
Inductive atom : Type :=
| Lit (c : ascii)
| Dot.

Inductive item : Type :=
| Atom (a : atom)
| Star (a : atom)
| Bol
| Eol.

(** Outcome of compiling a pattern: [Malformed] is [re.error];
    [Unmodelled] is a pattern that uses syntax outside the fragment. *)
Inductive compiled : Type :=
| Pattern (p : list item)
| Malformed
| Unmodelled.

Definition newline : ascii := "010"%char.

Definition unmodelled_char (c : ascii) : bool :=
  existsb (Ascii.eqb c)
    ["\"; "["; "]"; "("; ")"; "{"; "}"; "+"; "?"; "|"]%char.

Definition cons_item (i : item) (r : compiled) : compiled :=
  match r with
  | Pattern p => Pattern (i :: p)
  | _ => r
  end.

(** A [*] met at the head of the remaining pattern has nothing before it
    that can be repeated (start of pattern, after an anchor: "nothing to
    repeat"; after another [*]: "multiple repeat"). *)
Fixpoint parse (cs : list ascii) : compiled :=
  match cs with
  | [] => Pattern []
  | c :: cs' =>
      if Ascii.eqb c "*" then Malformed
      else if unmodelled_char c then Unmodelled
      else if Ascii.eqb c "^" then cons_item Bol (parse cs')
      else if Ascii.eqb c "$" then cons_item Eol (parse cs')
      else
        let a := if Ascii.eqb c "." then Dot else Lit c in
        match cs' with
        | star :: cs'' =>
            if Ascii.eqb star "*" then cons_item (Star a) (parse cs'')
            else cons_item (Atom a) (parse cs')
        | [] => Pattern [Atom a]
        end
  end.

Definition compile (pattern : string) : compiled :=
  parse (list_ascii_of_string pattern).

Definition atom_accepts (a : atom) (c : ascii) : bool :=
  match a with
  | Lit x => Ascii.eqb x c
  | Dot => negb (Ascii.eqb c newline)
  end.

Definition at_end (s : list ascii) : bool :=
  match s with
  | [] => true
  | [c] => Ascii.eqb c newline
  | _ => false
  end.

(** Does [p] match a prefix of [s]?  [at_start] tells whether [s] is the
    whole subject string. *)
Fixpoint match_here (p : list item) (at_start : bool) (s : list ascii)
    : bool :=
  match p with
  | [] => true
  | Bol :: p' => at_start && match_here p' at_start s
  | Eol :: p' => at_end s && match_here p' at_start s
  | Atom a :: p' =>
      match s with
      | c :: s' => atom_accepts a c && match_here p' false s'
      | [] => false
      end
  | Star a :: p' =>
      (fix star (at_start : bool) (s : list ascii) : bool :=
         match_here p' at_start s
         || match s with
            | c :: s' => atom_accepts a c && star false s'
            | [] => false
            end) at_start s
  end.

(** [search]: the pattern matches at some position of the string. *)
Fixpoint search_from (p : list item) (at_start : bool) (s : list ascii)
    : bool :=
  match_here p at_start s
  || match s with
     | _ :: s' => search_from p false s'
     | [] => false
     end.

(** [re.search(pattern, string)] with both arguments type-checked the way
    [re] does it: the pattern is compiled first, then the subject is
    scanned. *)
Definition search (pattern subject : pyvalue) : PyResult bool :=
  match pattern with
  | PyNone => Raise TypeError
  | PyStr pat =>
      match compile pat with
      | Malformed => Raise ReError
      | Unmodelled => Raise NotImplementedError
      | Pattern p =>
          match subject with
          | PyNone => Raise TypeError
          | PyStr s => Ok (search_from p true (list_ascii_of_string s))
          end
      end
  end.

End Re.


(** ** The same functions over a store of Python objects

    The functions above work on values.  To speak about mutation, the
    functions are embedded a second time the way Python runs them: on
    references into a store of dictionaries and lists, [{}] and [[]]
    allocating a new object, item assignment and [append] updating an
    object in place. *)

Module Heap.

Abbreviation loc := nat.

(** A value: an immutable [None] or string, or a reference to an object. *)
Inductive val : Type :=
| VNone
| VStr (s : string)
| VRef (l : loc).

#[global] Instance val_eq_dec : EqDecision val.
Proof. solve_decision. Defined.

(** A mutable object: a dictionary (its items in insertion order) or a
    list. *)
Inductive obj : Type :=
| ODict (items : list (val * val))
| OList (elems : list val).

Abbreviation store := (list obj).

(** A computation reads and updates the store; the store survives a raised
    exception. *)
Definition M (A : Type) : Type := store → PyResult A * store.

#[global] Instance M_ret : MRet M := fun A a h => (Ok a, h).
#[global] Instance M_bind : MBind M := fun A B k m h =>
  match m h with
  | (Ok a, h') => k a h'
  | (Raise e, h') => (Raise e, h')
  end.

Definition raise {A : Type} (e : PyExc) : M A := fun h => (Raise e, h).

(** [{}] and [[]]: a new object at the next free location. *)
Definition new (o : obj) : M val := fun h => (Ok (VRef (length h)), h ++ [o]).

(** The object a reference points to.  References are never dangling in a
    store Python builds; the error case only makes [read] total. *)
Definition read (l : loc) : M obj := fun h =>
  match h !! l with
  | Some o => (Ok o, h)
  | None => (Raise TypeError, h)
  end.

Definition write (l : loc) (o : obj) : M unit := fun h => (Ok (), <[l := o]> h).

(** Dictionary items. *)
Fixpoint dict_lookup (items : list (val * val)) (k : val) : option val :=
  match items with
  | [] => None
  | (k', v) :: items' => if decide (k' = k) then Some v else dict_lookup items' k
  end.

Fixpoint dict_store (items : list (val * val)) (k v : val) : list (val * val) :=
  match items with
  | [] => [(k, v)]
  | (k', v') :: items' =>
      if decide (k' = k) then (k, v) :: items'
      else (k', v') :: dict_store items' k v
  end.

(** Dictionaries and lists are unhashable. *)
Definition hashable (k : val) : bool :=
  match k with
  | VRef _ => false
  | _ => true
  end.

Fixpoint occurs_in (sub s : string) : bool :=
  String.prefix sub s
  || match s with
     | String _ s' => occurs_in sub s'
     | EmptyString => false
     end.

(** [k in c] for a string literal [k]. *)
Definition contains (c : val) (k : string) : M bool :=
  match c with
  | VNone => raise TypeError
  | VStr s => mret (occurs_in k s)
  | VRef l =>
      o ← read l;
      match o with
      | ODict items => mret (bool_decide (is_Some (dict_lookup items (VStr k))))
      | OList elems => mret (bool_decide (VStr k ∈ elems))
      end
  end.

(** [c[k]] for a string literal [k]. *)
Definition getitem (c : val) (k : string) : M val :=
  match c with
  | VNone | VStr _ => raise TypeError
  | VRef l =>
      o ← read l;
      match o with
      | ODict items =>
          match dict_lookup items (VStr k) with
          | Some v => mret v
          | None => raise (KeyError k)
          end
      | OList _ => raise TypeError
      end
  end.

(** [c[k] = v]. *)
Definition setitem (c k v : val) : M unit :=
  match c with
  | VNone | VStr _ => raise TypeError
  | VRef l =>
      o ← read l;
      match o with
      | ODict items =>
          if hashable k then write l (ODict (dict_store items k v))
          else raise TypeError
      | OList _ => raise TypeError
      end
  end.

(** [c.get(k, d)]. *)
Definition get_method (c k d : val) : M val :=
  match c with
  | VNone | VStr _ => raise AttributeError
  | VRef l =>
      o ← read l;
      match o with
      | ODict items =>
          if hashable k then mret (default d (dict_lookup items k))
          else raise TypeError
      | OList _ => raise AttributeError
      end
  end.

(** [c.keys()]. *)
Definition keys_method (c : val) : M (list val) :=
  match c with
  | VNone | VStr _ => raise AttributeError
  | VRef l =>
      o ← read l;
      match o with
      | ODict items => mret (map fst items)
      | OList _ => raise AttributeError
      end
  end.

(** [c.append(v)]. *)
Definition append_method (c v : val) : M unit :=
  match c with
  | VNone | VStr _ => raise AttributeError
  | VRef l =>
      o ← read l;
      match o with
      | OList elems => write l (OList (elems ++ [v]))
      | ODict _ => raise AttributeError
      end
  end.

Fixpoint chars (s : string) : list val :=
  match s with
  | EmptyString => []
  | String c s' => VStr (String c EmptyString) :: chars s'
  end.

(** The elements [for x in c] visits.  The loops of the embedded functions
    never update the object they iterate over, so the elements are read
    once. *)
Definition iterate (c : val) : M (list val) :=
  match c with
  | VNone => raise TypeError
  | VStr s => mret (chars s)
  | VRef l =>
      o ← read l;
      match o with
      | ODict items => mret (map fst items)
      | OList elems => mret elems
      end
  end.

(** Truth value of an object. *)
Definition truthy (v : val) : M bool :=
  match v with
  | VNone => mret false
  | VStr s => mret (negb (String.eqb s ""))
  | VRef l =>
      o ← read l;
      match o with
      | ODict items => mret (negb (bool_decide (items = [])))
      | OList elems => mret (negb (bool_decide (elems = [])))
      end
  end.

(** [for x in xs: body]. *)
Fixpoint for_each (xs : list val) (body : val → M unit) : M unit :=
  match xs with
  | [] => mret ()
  | x :: xs' => body x;; for_each xs' body
  end.

(** [for x in xs: body] where [body] may [return]; [orelse] is what follows
    the loop. *)
Fixpoint for_return {A : Type} (xs : list val) (body : val → M (option A))
    (orelse : M A) : M A :=
  match xs with
  | [] => orelse
  | x :: xs' =>
      r ← body x;
      match r with
      | Some a => mret a
      | None => for_return xs' body orelse
      end
  end.

(** What [re] sees of a value: it treats every object that is not a string
    alike. *)
Definition to_pyvalue (v : val) : pyvalue :=
  match v with
  | VStr s => PyStr s
  | _ => PyNone
  end.

Definition of_pyvalue (v : pyvalue) : val :=
  match v with
  | PyStr s => VStr s
  | PyNone => VNone
  end.

Section Functions.

Variable re_search : pyvalue -> pyvalue -> PyResult bool.

Definition search (pattern subject : val) : M bool := fun h =>
  (re_search (to_pyvalue pattern) (to_pyvalue subject), h).

Definition get_tags_from_instance (instance : val) : M val :=
  instances_data_tags ← new (ODict []);
  present ← contains instance "Tags";
  (if present : bool then
     tags ← getitem instance "Tags";
     elems ← iterate tags;
     for_each elems (fun tag =>
       tag_name ← getitem tag "Key";
       tag_value ← getitem tag "Value";
       if decide (tag_value ≠ VNone)
       then setitem instances_data_tags tag_name tag_value
       else mret ())
   else mret ());;
  mret instances_data_tags.

Definition are_any_filter_tags_on_instance (tags_filter instances_tags : val)
    : M bool :=
  keys ← keys_method tags_filter;
  for_return keys (fun filter_tag =>
    filtered_tag_in_instance ← get_method instances_tags filter_tag (VStr "");
    pattern ← get_method tags_filter filter_tag VNone;
    tags_values_match ← search pattern filtered_tag_in_instance;
    nonempty ← truthy filtered_tag_in_instance;
    if nonempty && tags_values_match then mret (Some true) else mret None)
  (mret false).

Definition list_instances_without_tag (tags_filter ec2_instances : val)
    : M val :=
  instances_without_tags ← new (OList []);
  reservations ← getitem ec2_instances "Reservations";
  reservations ← iterate reservations;
  for_each reservations (fun reservation =>
    instances ← getitem reservation "Instances";
    instances ← iterate instances;
    for_each instances (fun instance =>
      instance_tags ← get_tags_from_instance instance;
      instance_data ← new (ODict []);
      tagged ← are_any_filter_tags_on_instance tags_filter instance_tags;
      if negb tagged then
        instance_id ← getitem instance "InstanceId";
        setitem instance_data (VStr "InstanceId") instance_id;;
        named ← contains instance_tags "Name";
        name ← (if named : bool then getitem instance_tags "Name"
                else mret (VStr ""));
        setitem instance_data (VStr "Name") name;;
        append_method instances_without_tags instance_data
      else mret ()));;
  mret instances_without_tags.

End Functions.

End Heap.

(** ** Records in the store *)

(** How the records of the data model lie in a store. *)
Module Repr.

Import Heap.

Definition dict_at (h : store) (v : val) : option (list (val * val)) :=
  match v with
  | VRef l =>
      match h !! l with
      | Some (ODict items) => Some items
      | _ => None
      end
  | _ => None
  end.

Definition list_at (h : store) (v : val) : option (list val) :=
  match v with
  | VRef l =>
      match h !! l with
      | Some (OList elems) => Some elems
      | _ => None
      end
  | _ => None
  end.

Definition field (items : list (val * val)) (k : string) : option val :=
  dict_lookup items (VStr k).

Definition tag (h : store) (v : val) (t : Tag) : Prop :=
  ∃ items, dict_at h v = Some items
    ∧ field items "Key" = Some (VStr (Key t))
    ∧ field items "Value" = Some (of_pyvalue (Value t)).

Definition instance (h : store) (v : val) (i : Instance) : Prop :=
  ∃ items, dict_at h v = Some items
    ∧ field items "InstanceId" = Some (VStr (InstanceId i))
    ∧ match Tags i with
      | None => field items "Tags" = None
      | Some tags =>
          ∃ tv elems, field items "Tags" = Some tv
            ∧ list_at h tv = Some elems
            ∧ Forall2 (tag h) elems tags
      end.

Definition reservation (h : store) (v : val) (r : Reservation) : Prop :=
  ∃ items iv elems, dict_at h v = Some items
    ∧ field items "Instances" = Some iv
    ∧ list_at h iv = Some elems
    ∧ Forall2 (instance h) elems (Instances r).

Definition response (h : store) (v : val) (e : Ec2Response) : Prop :=
  ∃ items rv elems, dict_at h v = Some items
    ∧ field items "Reservations" = Some rv
    ∧ list_at h rv = Some elems
    ∧ Forall2 (reservation h) elems (Reservations e).

Definition filter_items (tf : list (string * pyvalue)) : list (val * val) :=
  map (fun '(k, p) => (VStr k, of_pyvalue p)) tf.

Definition tags_filter (h : store) (v : val) (tf : list (string * pyvalue))
    : Prop :=
  dict_at h v = Some (filter_items tf).

Definition tag_map (h : store) (v : val) (m : gmap string pyvalue) : Prop :=
  ∃ items, dict_at h v = Some items
    ∧ ∀ k, field items k = of_pyvalue <$> (m !! k).

Definition summary (h : store) (v : val) (s : Summary.t) : Prop :=
  dict_at h v =
    Some [(VStr "InstanceId", VStr (Summary.InstanceId s));
          (VStr "Name", of_pyvalue (Summary.Name s))].

Definition summaries (h : store) (v : val) (res : list Summary.t) : Prop :=
  ∃ elems, list_at h v = Some elems ∧ Forall2 (summary h) elems res.

(** The items of the dictionary [get_tags_from_instance] builds from a tag
    list, in insertion order. *)
Definition store_item (items : list (val * val)) (t : Tag)
    : list (val * val) :=
  if decide (Value t ≠ PyNone)
  then dict_store items (VStr (Key t)) (of_pyvalue (Value t))
  else items.

Definition tag_items (tags : list Tag) : list (val * val) :=
  fold_left store_item tags [].

(** The state of [list_instances_without_tag] between two iterations, for
    a call started in [h0]: the objects of [h0] are as they were, and the
    list allocated first holds the summaries collected so far. *)
Definition collecting (h0 h : store) (acc : list Summary.t) : Prop :=
  h0 `prefix_of` h
  ∧ ∃ elems, h !! length h0 = Some (OList elems)
             ∧ Forall2 (summary h) elems acc.

End Repr.

(** ** Footprint of a computation *)

(** [frames n m Q]: run in a store that has at least [n] objects, [m] leaves
    the first [n] of them as they are, never shrinks the store, and a value
    it returns satisfies [Q]. *)
Definition frames {A : Type} (n : nat) (m : Heap.M A) (Q : A → Prop) : Prop :=
  ∀ h, n ≤ length h →
    take n (m h).2 = take n h
    ∧ length h ≤ length (m h).2
    ∧ ∀ a, (m h).1 = Ok a → Q a.

(** A reference to an object allocated at or after position [n]. *)
Definition fresh_ref (n : nat) (v : Heap.val) : Prop :=
  ∃ l, v = Heap.VRef l ∧ n ≤ l.

(** ** Specification-side definitions *)

(** The value the tag map is expected to hold for [k]: that of the last pair
    of the tag list named [k] whose value is set. *)
Fixpoint last_set_value (k : string) (tags : list Tag) : option pyvalue :=
  match tags with
  | [] => None
  | tag :: tags' =>
      match last_set_value k tags' with
      | Some v => Some v
      | None =>
          if decide (Key tag = k ∧ Value tag ≠ PyNone)
          then Some (Value tag) else None
      end
  end.

(** All instances of a response, in the order the two loops visit them. *)
Definition all_instances (ec2_instances : Ec2Response) : list Instance :=
  flat_map Instances (Reservations ec2_instances).

Section FilterSpec.

Variable re_search : pyvalue -> pyvalue -> PyResult bool.

(** A criterion [(tagName, pattern)] matches: the instance has a non-empty
    value for [tagName] and [re.search] finds [pattern] in it. *)
Definition criterion_matches (instances_tags : gmap string pyvalue)
    (tagName : string) (pattern : pyvalue) : Prop :=
  ∃ value, instances_tags !! tagName = Some (PyStr value)
           ∧ value ≠ ""
           ∧ re_search pattern (PyStr value) = Ok true.

(** Some criterion of the mapping matches (disjunction over criteria). *)
Definition some_criterion_matches (criteria : list (string * pyvalue))
    (instances_tags : gmap string pyvalue) : Prop :=
  ∃ tagName pattern, dict_get criteria tagName = Some pattern
                     ∧ criterion_matches instances_tags tagName pattern.

Definition is_match (r : PyResult bool) : bool :=
  match r with
  | Ok true => true
  | _ => false
  end.

(** The same test as a boolean, with no early exit and no exception. *)
Definition spec_criterion_matches (instances_tags : gmap string pyvalue)
    (tagName : string) (pattern : pyvalue) : bool :=
  match instances_tags !! tagName with
  | Some (PyStr value) =>
      negb (String.eqb value "") && is_match (re_search pattern (PyStr value))
  | _ => false
  end.

Definition spec_is_tagged (criteria : list (string * pyvalue))
    (instances_tags : gmap string pyvalue) : bool :=
  existsb
    (fun tagName =>
       spec_criterion_matches instances_tags tagName
         (default PyNone (dict_get criteria tagName)))
    (dict_keys criteria).

Definition summary_of (instance : Instance) : Summary.t :=
  instance_data instance (get_tags_from_instance instance).

(** [find_untagged] of the specification: the summaries of the instances
    no criterion matches, in input order. *)
Definition spec_find_untagged (criteria : list (string * pyvalue))
    (ec2_instances : Ec2Response) : list Summary.t :=
  map summary_of
    (List.filter
       (fun instance =>
          negb (spec_is_tagged criteria (get_tags_from_instance instance)))
       (all_instances ec2_instances)).

(** Every pattern of the mapping is a regular expression [re.search]
    accepts: searching any string with it returns. *)
Definition patterns_ok (criteria : list (string * pyvalue)) : Prop :=
  ∀ tagName pattern, dict_get criteria tagName = Some pattern →
    ∀ s, ∃ b, re_search pattern (PyStr s) = Ok b.

End FilterSpec.

(** A tag map holds no [None]. *)
Definition no_none (instances_tags : gmap string pyvalue) : Prop :=
  ∀ k, instances_tags !! k ≠ Some PyNone.

(** A response that holds one instance. *)
Definition single_instance (instance : Instance) : Ec2Response :=
  {| Reservations := [{| Instances := [instance] |}] |}.

(** ** Sample data *)

Module Sample.

Definition tag (k v : string) : Tag := {| Key := k; Value := PyStr v |}.
Definition unset (k : string) : Tag := {| Key := k; Value := PyNone |}.

Definition staging : Instance :=
  {| InstanceId := "i-staging";
     Tags := Some [tag "Environment" "staging"; tag "Name" "web-1"] |}.
Definition prod : Instance :=
  {| InstanceId := "i-prod";
     Tags := Some [tag "Environment" "prod"; tag "Name" "web-2"] |}.
Definition bare : Instance := {| InstanceId := "i-bare"; Tags := None |}.
Definition team : Instance :=
  {| InstanceId := "i-team"; Tags := Some [tag "Team" "infra"] |}.
Definition duplicated : Instance :=
  {| InstanceId := "i-dup";
     Tags := Some [tag "Env" "dev"; unset "Env"; tag "Env" "prod"] |}.
Definition blank_owner : Instance :=
  {| InstanceId := "i-blank"; Tags := Some [tag "Owner" ""] |}.

Definition response (groups : list (list Instance)) : Ec2Response :=
  {| Reservations := map (fun g => {| Instances := g |}) groups |}.

Definition env_prod : list (string * pyvalue) :=
  [("Environment", PyStr "^prod$")].
Definition owner_or_team : list (string * pyvalue) :=
  [("Owner", PyStr ".*"); ("Team", PyStr ".*")].
Definition owner_none : list (string * pyvalue) := [("Owner", PyNone)].
Definition owner_malformed : list (string * pyvalue) :=
  [("Owner", PyStr "*")].

(** A store that holds the response [[[staging]]] at location 7 and the
    criteria [env_prod] at location 8. *)
Definition store_staging : list Heap.obj :=
  let str := Heap.VStr in
  [ Heap.ODict [(str "Key", str "Environment"); (str "Value", str "staging")];
    Heap.ODict [(str "Key", str "Name"); (str "Value", str "web-1")];
    Heap.OList [Heap.VRef 0; Heap.VRef 1];
    Heap.ODict [(str "InstanceId", str "i-staging"); (str "Tags", Heap.VRef 2)];
    Heap.OList [Heap.VRef 3];
    Heap.ODict [(str "Instances", Heap.VRef 4)];
    Heap.OList [Heap.VRef 5];
    Heap.ODict [(str "Reservations", Heap.VRef 6)];
    Heap.ODict [(str "Environment", str "^prod$")] ].

End Sample.

(** ** [get_instances_ids] *)

(** The body of [for instance in reservation['Instances']]. *)
Fixpoint instance_ids_loop (instances : list Instance)
    (instance_ids : list string) : list string :=
  match instances with
  | [] => instance_ids
  | instance :: instances' =>
      instance_ids_loop instances' (instance_ids ++ [InstanceId instance])
  end.

(** The body of [for reservation in ec2_instances['Reservations']]. *)
Fixpoint reservation_ids_loop (reservations : list Reservation)
    (instance_ids : list string) : list string :=
  match reservations with
  | [] => instance_ids
  | reservation :: reservations' =>
      reservation_ids_loop reservations'
        (instance_ids_loop (Instances reservation) instance_ids)
  end.

Definition get_instances_ids (ec2_instances : Ec2Response) : list string :=
  reservation_ids_loop (Reservations ec2_instances) [].

(** More sample data. *)
Module Demo.

Definition team_then_malformed : list (string * pyvalue) :=
  [("Team", PyStr ".*"); ("Owner", PyStr "*")].

Definition team_or_owner : list (string * pyvalue) :=
  [("Team", PyStr ".*"); ("Owner", PyStr ".*")].

Definition everyone : Ec2Response :=
  Sample.response [[Sample.staging; Sample.prod]; [Sample.bare; Sample.team]].

Definition regrouped : Ec2Response :=
  Sample.response [[Sample.staging]; []; [Sample.prod; Sample.bare; Sample.team]].

Definition running : Instance :=
  {| InstanceId := "i-run"; Tags := Some [Sample.tag "State" "tagged"] |}.

Definition stopped : Instance := {| InstanceId := "i-stop"; Tags := None |}.

(** A store that holds, at location 9, a response with the instances
    [running] (at 3, with a tag named ["State"]) and [stopped] (at 5), each
    with a ["State"] field. *)
Definition store_states : list Heap.obj :=
  let str := Heap.VStr in
  [ Heap.ODict [(str "Key", str "State"); (str "Value", str "tagged")];
    Heap.OList [Heap.VRef 0];
    Heap.ODict [(str "Name", str "running")];
    Heap.ODict [(str "InstanceId", str "i-run"); (str "State", Heap.VRef 2);
                (str "Tags", Heap.VRef 1)];
    Heap.ODict [(str "Name", str "stopped")];
    Heap.ODict [(str "InstanceId", str "i-stop"); (str "State", Heap.VRef 4)];
    Heap.OList [Heap.VRef 3; Heap.VRef 5];
    Heap.ODict [(str "Instances", Heap.VRef 6)];
    Heap.OList [Heap.VRef 7];
    Heap.ODict [(str "Reservations", Heap.VRef 8)] ].

End Demo.

(** ** The other functions of the module, over the store

    [get_instances_ids], [get_instances_data] and the [describe_instances]
    family.  They need two things the functions above do not: exceptions
    outside [PyExc] ([ValueError] from [dict.update]; [SystemExit] from
    [sys.exit] and the other classes [except Exception] does not catch),
    and calls into [boto3], which are parameters. *)

Module Proc.

Import Heap.

(** [SystemExit], [KeyboardInterrupt] and [GeneratorExit] are the built-in
    classes that derive from [BaseException] and not from [Exception]. *)
Inductive exc : Type :=
| Exc (e : PyExc)
| ValueError
| SystemExit (message : string)
| KeyboardInterrupt
| GeneratorExit.

(** [isinstance(x, Exception)]. *)
Definition is_exception (x : exc) : bool :=
  match x with
  | Exc _ | ValueError => true
  | SystemExit _ | KeyboardInterrupt | GeneratorExit => false
  end.

Inductive outcome (A : Type) : Type :=
| Returned (a : A)
| Thrown (x : exc).
Arguments Returned {A} a.
Arguments Thrown {A} x.

Definition P (A : Type) : Type := store → outcome A * store.

#[global] Instance P_ret : MRet P := fun A a h => (Returned a, h).
#[global] Instance P_bind : MBind P := fun A B k m h =>
  match m h with
  | (Returned a, h') => k a h'
  | (Thrown x, h') => (Thrown x, h')
  end.

(** A computation of module [Heap], run here. *)
Definition lift {A : Type} (m : M A) : P A := fun h =>
  match m h with
  | (Ok a, h') => (Returned a, h')
  | (Raise e, h') => (Thrown (Exc e), h')
  end.

Definition throw {A : Type} (x : exc) : P A := fun h => (Thrown x, h).

(** [sys.exit(message)]. *)
Definition sys_exit {A : Type} (message : string) : P A :=
  throw (SystemExit message).

(** [try: body / except Exception as e: handler], for a handler that does
    not use [e]. *)
Definition try_except {A : Type} (body handler : P A) : P A := fun h =>
  match body h with
  | (Returned a, h') => (Returned a, h')
  | (Thrown x, h') => if is_exception x then handler h' else (Thrown x, h')
  end.

(** [for x in xs: body]. *)
Fixpoint for_each (xs : list val) (body : val → P unit) : P unit :=
  match xs with
  | [] => mret ()
  | x :: xs' => body x;; for_each xs' body
  end.

(** [for k in other: self[k] = other[k]], on the items of a dictionary. *)
Fixpoint store_items (self : val) (items : list (val * val)) : P unit :=
  match items with
  | [] => mret ()
  | (k, v) :: items' => lift (setitem self k v);; store_items self items'
  end.

(** An element of an update sequence: a sequence of two objects. *)
Definition as_pair (elem : val) : P (val * val) :=
  parts ← lift (iterate elem);
  match parts with
  | [k; v] => mret (k, v)
  | _ => throw ValueError
  end.

Definition update_from_pairs (self : val) (elems : list val) : P unit :=
  for_each elems (fun elem =>
    kv ← as_pair elem;
    lift (setitem self kv.1 kv.2)).

(** Only a dictionary has an [update] method. *)
Definition require_dict (self : val) : M unit :=
  match self with
  | VNone | VStr _ => raise AttributeError
  | VRef l =>
      o ← read l;
      match o with
      | ODict _ => mret ()
      | OList _ => raise AttributeError
      end
  end.

(** Only a list has an [append] method. *)
Definition require_list (self : val) : M unit :=
  match self with
  | VNone | VStr _ => raise AttributeError
  | VRef l =>
      o ← read l;
      match o with
      | OList _ => mret ()
      | ODict _ => raise AttributeError
      end
  end.

(** [self.update(other)]: the items of [other] when it is a dictionary,
    or else the pairs [other] is a sequence of. *)
Definition update_method (self other : val) : P unit :=
  lift (require_dict self);;
  match other with
  | VRef l =>
      o ← lift (read l);
      match o with
      | ODict items => store_items self items
      | OList elems => update_from_pairs self elems
      end
  | _ =>
      elems ← lift (iterate other);
      update_from_pairs self elems
  end.

(** [d[k]] for [d = defaultdict(list)]: a missing key is first bound to a
    new list.  The store keeps a [defaultdict] as a dictionary. *)
Definition defaultdict_getitem (d : val) (k : string) : M val :=
  present ← contains d k;
  if present : bool then getitem d k
  else
    fresh ← new (OList []);
    setitem d (VStr k) fresh;;
    mret fresh.

(** The display [{'Name': name, 'Values': [value]}]: the dictionary is
    allocated, then the list. *)
Definition name_values (name value : val) : M val :=
  d ← new (ODict []);
  setitem d (VStr "Name") name;;
  values ← new (OList [value]);
  setitem d (VStr "Values") values;;
  mret d.

(** ** [get_instances_ids] *)

Definition get_instances_ids (ec2_instances : val) : P val :=
  instance_ids ← lift (new (OList []));
  reservations ← lift (getitem ec2_instances "Reservations");
  reservations ← lift (iterate reservations);
  for_each reservations (fun reservation =>
    instances ← lift (getitem reservation "Instances");
    instances ← lift (iterate instances);
    for_each instances (fun instance =>
      instance_id ← lift (getitem instance "InstanceId");
      lift (append_method instance_ids instance_id)));;
  mret instance_ids.

(** ** [get_instances_data] *)

Definition get_instances_data (ec2_instances : val) (filter_by_state : bool)
    : P val :=
  instances ← lift (new (if filter_by_state then ODict [] else OList []));
  reservations ← lift (getitem ec2_instances "Reservations");
  reservations ← lift (iterate reservations);
  for_each reservations (fun reservation =>
    reservation_instances ← lift (getitem reservation "Instances");
    reservation_instances ← lift (iterate reservation_instances);
    for_each reservation_instances (fun instance =>
      instance_data ← lift (new (ODict []));
      instance_tags ← lift (Heap.get_tags_from_instance instance);
      update_method instance_data instance_tags;;
      update_method instance_data instance;;
      if filter_by_state then
        state ← lift (getitem instance_data "State");
        state_name ← lift (getitem state "Name");
        let instance_state :=
          if decide (state_name = VStr "running")
          then "running" else "not-running" in
        bucket ← lift (defaultdict_getitem instances instance_state);
        lift (append_method bucket instance_data)
      else lift (append_method instances instance_data)));;
  mret instances.

Section Boto3.

(** [boto3.client(service)]. *)
Variable boto3_client : string → P val.

(** [client.describe_instances(keyword=argument)]. *)
Variable client_describe_instances : val → string → val → P val.

(** ** [get_ec2_connection] *)

Definition get_ec2_connection : P val :=
  try_except (boto3_client "ec2")
    (sys_exit "Error connecting to EC2 check your AWS credentials!").

(** The statements the four [describe_instances] functions end with. *)
Definition send (keyword : string) (argument : val) : P val :=
  ec2 ← get_ec2_connection;
  ec2_response ← client_describe_instances ec2 keyword argument;
  present ← lift (contains ec2_response "Reservations");
  if negb present
  then sys_exit "Error talking with AWS - No 'Reservations' key in Response"
  else mret ec2_response.

(** [if state is not None: filters.append({...})]. *)
Definition append_state_filter (filters state : val) : P unit :=
  if decide (state ≠ VNone) then
    lift (require_list filters);;
    state_filter ← lift (name_values (VStr "instance-state-name") state);
    lift (append_method filters state_filter)
  else mret ().

(** ** [describe_instances] *)

Definition describe_instances (state : val) : P val :=
  filters ← lift (new (OList []));
  append_state_filter filters state;;
  send "Filters" filters.

(** ** [describe_instances_by_ids] *)

Definition describe_instances_by_ids (instance_ids : val) : P val :=
  send "InstanceIds" instance_ids.

(** ** [describe_instances_by_tag] *)

(** [tag] is the tag's name, a string: ["tag:{0}".format(tag)] is then
    ["tag:"] followed by the name. *)
Definition describe_instances_by_tag (tag : string) (value state : val)
    : P val :=
  let tag_key := "tag:" +:+ tag in
  given ← lift (Heap.truthy value);
  let tag_value := if given : bool then value else VStr "*" in
  tag_filter ← lift (name_values (VStr tag_key) tag_value);
  filters ← lift (new (OList [tag_filter]));
  append_state_filter filters state;;
  send "Filters" filters.

(** ** [describe_instances_by_tag_filters] *)

(** [filters = tag_filters] binds a second name to the caller's list. *)
Definition describe_instances_by_tag_filters (tag_filters state : val)
    : P val :=
  let filters := tag_filters in
  append_state_filter filters state;;
  send "Filters" filters.

End Boto3.

End Proc.

(** ** Footprint and shapes for module [Proc] *)

(** [frames] for the computations of module [Proc]. *)
Definition framesP {A : Type} (n : nat) (m : Proc.P A) (Q : A → Prop)
    : Prop :=
  ∀ h, n ≤ length h →
    take n (m h).2 = take n h
    ∧ length h ≤ length (m h).2
    ∧ ∀ a, (m h).1 = Proc.Returned a → Q a.

Module Shape.

Import Heap.

(** The references a response reaches: [vs] are the instances of the
    reservation at [rv], in order. *)
Definition reservation_refs (h : store) (rv : val) (vs : list val) : Prop :=
  ∃ items iv, Repr.dict_at h rv = Some items
    ∧ Repr.field items "Instances" = Some iv
    ∧ Repr.list_at h iv = Some vs.

(** [vs] are the instances of all the reservations of the response at
    [e], in order. *)
Definition response_refs (h : store) (e : val) (vs : list val) : Prop :=
  ∃ items rv rvs vss, Repr.dict_at h e = Some items
    ∧ Repr.field items "Reservations" = Some rv
    ∧ Repr.list_at h rv = Some rvs
    ∧ Forall2 (reservation_refs h) rvs vss
    ∧ vs = concat vss.

(** The items of a dictionary after [update] with the items [more]. *)
Definition updated (items more : list (val * val)) : list (val * val) :=
  fold_left (fun acc kv => dict_store acc kv.1 kv.2) more items.

(** The keys of a dictionary are hashable, and no key occurs twice. *)
Definition hashable_keys (items : list (val * val)) : Prop :=
  Forall (fun kv => hashable kv.1 = true) items.

Definition distinct_keys (items : list (val * val)) : Prop :=
  NoDup (map fst items).

(** The instance dictionary at [v] has the items [described.2] and holds
    the record [described.1]. *)
Definition described_instance (h : store) (v : val)
    (described : Instance * list (val * val)) : Prop :=
  Repr.dict_at h v = Some described.2
  ∧ hashable_keys described.2
  ∧ distinct_keys described.2
  ∧ Repr.instance h v described.1.

(** The dictionary [get_instances_data] builds for an instance: its tags,
    then its own items over them. *)
Definition data_items (described : Instance * list (val * val))
    : list (val * val) :=
  updated (updated [] (Repr.tag_items (default [] (Tags described.1))))
    described.2.

(** [d] is a dictionary allocated after [h0] with the data of an
    instance. *)
Definition data_at (h0 h : store) (d : val)
    (described : Instance * list (val * val)) : Prop :=
  ∃ l, d = VRef l ∧ length h0 < l
       ∧ h !! l = Some (ODict (data_items described)).

(** The state of [get_instances_data], called without [filter_by_state],
    between two iterations, for a call started in [h0]: the objects of [h0]
    are as they were and the list allocated first holds the dictionaries
    built so far, each allocated after [h0] and none of them twice. *)
Definition collecting_data (h0 h : store)
    (acc : list (Instance * list (val * val))) : Prop :=
  h0 `prefix_of` h
  ∧ ∃ ds, h !! length h0 = Some (OList ds)
          ∧ NoDup ds
          ∧ Forall2 (data_at h0 h) ds acc.

(** [instance['State']['Name'] == 'running']. *)
Definition is_running (state_name : val) : bool :=
  bool_decide (state_name = VStr "running").

(** A described instance whose ["State"] field is a dictionary with the
    name [stated.2]. *)
Definition stated_instance (h : store) (v : val)
    (stated : Instance * list (val * val) * val) : Prop :=
  described_instance h v stated.1
  ∧ ∃ sv sitems, Repr.field stated.1.2 "State" = Some sv
      ∧ Repr.dict_at h sv = Some sitems
      ∧ Repr.field sitems "Name" = Some stated.2.

(** What the result dictionary holds under [key]: nothing when no instance
    went there, or else, when some did, a list allocated after [h0] with
    the data of the instances [described], in order. *)
Definition slot (h0 h : store) (items : list (val * val)) (key : string)
    (described : list (Instance * list (val * val))) : Prop :=
  match Repr.field items key with
  | None => described = []
  | Some b =>
      described ≠ []
      ∧ ∃ lb ds, b = VRef lb ∧ length h0 < lb
          ∧ h !! lb = Some (OList ds)
          ∧ Forall2 (data_at h0 h) ds described
  end.

(** The instances whose state name is ['running'], and the others. *)
Definition running_of (stated : list (Instance * list (val * val) * val))
    : list (Instance * list (val * val)) :=
  flat_map (fun s => if is_running s.2 then [s.1] else []) stated.

Definition others_of (stated : list (Instance * list (val * val) * val))
    : list (Instance * list (val * val)) :=
  flat_map (fun s => if is_running s.2 then [] else [s.1]) stated.

(** The state of [get_instances_data], called with [filter_by_state],
    between two iterations, for a call started in [h0]. *)
Definition sorting (h0 h : store)
    (running others : list (Instance * list (val * val))) : Prop :=
  h0 `prefix_of` h
  ∧ ∃ items, h !! length h0 = Some (ODict items)
      ∧ slot h0 h items "running" running
      ∧ slot h0 h items "not-running" others
      ∧ (∀ b, Repr.field items "running" = Some b →
              Repr.field items "not-running" ≠ Some b)
      ∧ (∀ k v, dict_lookup items k = Some v →
                k = VStr "running" ∨ k = VStr "not-running").

End Shape.

(** Stand-ins for [boto3], to run the functions. *)
Module Stub.

Import Heap.

(** A client object. *)
Definition client (service : string) : Proc.P val :=
  Proc.lift (new (ODict [])).

(** [boto3.client] raising, for want of credentials for instance. *)
Definition no_client (service : string) : Proc.P val :=
  Proc.throw (Proc.Exc (KeyError "credentials")).

(** A response without instances. *)
Definition describe_instances (ec2 : val) (keyword : string) (argument : val)
    : Proc.P val :=
  reservations ← Proc.lift (new (OList []));
  Proc.lift (new (ODict [(VStr "Reservations", reservations)])).

(** A response without a ["Reservations"] key. *)
Definition describe_nothing (ec2 : val) (keyword : string) (argument : val)
    : Proc.P val :=
  Proc.lift (new (ODict [])).

End Stub.

(** * Properties of [get_tags_from_instance] *)

Lemma store_tag_lookup (m : gmap string pyvalue) (tag : Tag) (k : string) :
  store_tag m tag !! k =
    if decide (Key tag = k ∧ Value tag ≠ PyNone) then Some (Value tag)
    else m !! k.
Proof.
  unfold store_tag; cbn.
  destruct (decide (Value tag ≠ PyNone)) as [Hset|Hunset].
  - rewrite lookup_insert.
    destruct (decide (Key tag = k)) as [->|Hne].
    + rewrite decide_True by done. reflexivity.
    + rewrite decide_False by (intros [? _]; done). reflexivity.
  - rewrite decide_False by (intros [_ ?]; done). reflexivity.
Qed.

Lemma fold_store_tag_lookup (tags : list Tag) (m : gmap string pyvalue)
    (k : string) :
  fold_left store_tag tags m !! k =
    match last_set_value k tags with
    | Some v => Some v
    | None => m !! k
    end.
Proof.
  revert m. induction tags as [|tag tags IH]; intros m; cbn; [done|].
  rewrite IH. destruct (last_set_value k tags); [done|].
  rewrite store_tag_lookup. by case_decide.
Qed.

Lemma last_set_value_set (k : string) (tags : list Tag) (v : pyvalue) :
  last_set_value k tags = Some v → v ≠ PyNone.
Proof.
  induction tags as [|tag tags IH]; cbn; [done|].
  destruct (last_set_value k tags) as [w|].
  - intros [= <-]. by apply IH.
  - case_decide as Hd; [|done]. intros [= <-]. by destruct Hd.
Qed.

Lemma last_set_value_Some (k : string) (tags : list Tag) (v : pyvalue) :
  last_set_value k tags = Some v →
  ∃ tag, In tag tags ∧ Key tag = k ∧ Value tag = v.
Proof.
  induction tags as [|tag tags IH]; cbn; [done|].
  destruct (last_set_value k tags) as [w|].
  - intros [= <-]. destruct IH as (t & ? & ? & ?); [done|]. exists t. tauto.
  - case_decide as Hd; [|done]. intros [= <-]. exists tag. tauto.
Qed.

Lemma last_set_value_None (k : string) (tags : list Tag) :
  last_set_value k tags = None ↔
  ∀ tag, In tag tags → Key tag = k → Value tag = PyNone.
Proof.
  induction tags as [|tag tags IH]; cbn; [by split|].
  destruct (last_set_value k tags) as [w|] eqn:Hl.
  - split; [done|]. intros H. exfalso.
    destruct (last_set_value_Some _ _ _ Hl) as (t & Hin & Hk & Hv).
    apply (last_set_value_set _ _ _ Hl). rewrite <- Hv. apply H; auto.
  - case_decide as Hd.
    + split; [done|]. intros H. exfalso. destruct Hd as [Hk Hv].
      apply Hv, H; auto.
    + split; [|done]. intros _ t [Heq|Hin] Hk.
      * subst t. destruct (decide (Value tag = PyNone)); [done|].
        exfalso. by apply Hd.
      * by apply IH.
Qed.

Lemma last_set_value_app (k : string) (tags1 tags2 : list Tag) :
  last_set_value k (tags1 ++ tags2) =
    match last_set_value k tags2 with
    | Some v => Some v
    | None => last_set_value k tags1
    end.
Proof.
  induction tags1 as [|tag tags1 IH]; cbn.
  - by destruct (last_set_value k tags2).
  - rewrite IH. by destruct (last_set_value k tags2).
Qed.

Lemma get_tags_lookup (instance : Instance) (k : string) :
  get_tags_from_instance instance !! k =
    match Tags instance with
    | None => None
    | Some tags => last_set_value k tags
    end.
Proof.
  unfold get_tags_from_instance. destruct (Tags instance) as [tags|]; [|done].
  rewrite fold_store_tag_lookup, lookup_empty.
  by destruct (last_set_value k tags).
Qed.

Lemma get_tags_no_none (instance : Instance) :
  no_none (get_tags_from_instance instance).
Proof.
  intros k. rewrite get_tags_lookup.
  destruct (Tags instance) as [tags|]; [|done].
  intros H. by apply last_set_value_set in H.
Qed.

Lemma last_set_value_nodup (tags : list Tag) (tag : Tag) :
  NoDup (map Key tags) → In tag tags → Value tag ≠ PyNone →
  last_set_value (Key tag) tags = Some (Value tag).
Proof.
  induction tags as [|t tags IH]; cbn; [done|].
  intros Hnd Hin Hset. apply NoDup_cons in Hnd as [Hfresh Hnd].
  destruct Hin as [->|Hin].
  - replace (last_set_value (Key tag) tags) with (@None pyvalue).
    + by rewrite decide_True.
    + symmetry. apply last_set_value_None. intros t' Hin' Hk.
      exfalso. apply Hfresh. rewrite <- Hk.
      apply list_elem_of_In, in_map, Hin'.
  - by rewrite IH.
Qed.

(** * Properties of [are_any_filter_tags_on_instance] *)

Ltac unfold_bind := unfold mbind, PyResult_bind in *.

Section FilterFacts.

Variable re_search : pyvalue -> pyvalue -> PyResult bool.

Abbreviation are_any_loop := (are_any_filter_tags_loop re_search).
Abbreviation are_any := (are_any_filter_tags_on_instance re_search).

Lemma dict_get_keys {V : Type} (d : list (string * V)) (k : string) :
  In k (dict_keys d) ↔ is_Some (dict_get d k).
Proof.
  induction d as [|[k' v] d IH]; cbn.
  - split; [done|]. by intros [? ?].
  - case_decide as Hk.
    + split; [by eauto|]. auto.
    + rewrite <- IH. split; [|auto]. by intros [?|?].
Qed.

(** The test of one iteration is the specification's test. *)
Lemma spec_criterion_matches_test (tags : gmap string pyvalue)
    (k : string) (p : pyvalue) :
  let filtered := default (PyStr "") (tags !! k) in
  spec_criterion_matches re_search tags k p =
    truthy filtered && is_match (re_search p filtered).
Proof.
  unfold spec_criterion_matches.
  destruct (tags !! k) as [[|v]|]; cbn; try done.
Qed.

Lemma spec_criterion_matches_iff (tags : gmap string pyvalue)
    (k : string) (p : pyvalue) :
  spec_criterion_matches re_search tags k p = true ↔
  criterion_matches re_search tags k p.
Proof.
  unfold spec_criterion_matches, criterion_matches, is_match.
  destruct (tags !! k) as [[|v]|].
  - split; [done|]. by intros (? & ? & _).
  - rewrite andb_true_iff, negb_true_iff, String.eqb_neq. split.
    + intros [Hne Hm]. exists v.
      destruct (re_search p (PyStr v)) as [[|]|]; done.
    + intros (v' & [= <-] & Hne & ->). done.
  - split; [done|]. by intros (? & ? & _).
Qed.

Lemma are_any_loop_spec (tf : list (string * pyvalue))
    (tags : gmap string pyvalue) (keys : list string) (b : bool) :
  are_any_loop tf tags keys = Ok b →
  b = existsb
        (fun k => spec_criterion_matches re_search tags k
                    (default PyNone (dict_get tf k))) keys.
Proof.
  induction keys as [|k keys IH]; cbn.
  - by intros [= <-].
  - rewrite spec_criterion_matches_test. cbn. unfold_bind.
    destruct (re_search _ _) as [m|e]; [|done]. cbn.
    destruct (truthy _); cbn; [|apply IH].
    destruct m; cbn; [by intros [= <-]|apply IH].
Qed.

Lemma are_any_spec (tf : list (string * pyvalue))
    (tags : gmap string pyvalue) (b : bool) :
  are_any tf tags = Ok b → b = spec_is_tagged re_search tf tags.
Proof. apply are_any_loop_spec. Qed.

Lemma are_any_loop_total (tf : list (string * pyvalue))
    (tags : gmap string pyvalue) (keys : list string) :
  patterns_ok re_search tf →
  (∀ k, In k keys → tags !! k ≠ Some PyNone) →
  (∀ k, In k keys → In k (dict_keys tf)) →
  ∃ b, are_any_loop tf tags keys = Ok b.
Proof.
  intros Hok. induction keys as [|k keys IH]; intros Hnn Hsub; cbn.
  - by exists false.
  - destruct (proj1 (dict_get_keys tf k)) as [p Hp]; [apply Hsub; by left|].
    rewrite Hp. cbn.
    assert (∃ s, default (PyStr "") (tags !! k) = PyStr s) as [s ->].
    { destruct (tags !! k) as [[|s]|] eqn:Hk; cbn; eauto.
      by destruct (Hnn k); [left|]. }
    destruct (Hok k p Hp s) as [m ->]. unfold_bind.
    destruct (truthy _ && m); [by exists true|].
    apply IH; intros k' Hk'; [apply Hnn|apply Hsub]; by right.
Qed.

Lemma are_any_total (tf : list (string * pyvalue))
    (tags : gmap string pyvalue) :
  patterns_ok re_search tf → no_none tags → ∃ b, are_any tf tags = Ok b.
Proof. intros Hok Hnn. apply are_any_loop_total; auto. Qed.

Lemma spec_is_tagged_iff (tf : list (string * pyvalue))
    (tags : gmap string pyvalue) :
  spec_is_tagged re_search tf tags = true ↔
  some_criterion_matches re_search tf tags.
Proof.
  unfold spec_is_tagged, some_criterion_matches.
  rewrite existsb_exists. split.
  - intros (k & Hin & Hm). apply dict_get_keys in Hin as [p Hp].
    rewrite Hp in Hm. exists k, p. split; [done|].
    by apply spec_criterion_matches_iff.
  - intros (k & p & Hp & Hm). exists k. split.
    + apply dict_get_keys. by exists p.
    + rewrite Hp. by apply spec_criterion_matches_iff.
Qed.

Lemma are_any_loop_app (tf : list (string * pyvalue))
    (tags : gmap string pyvalue) (keys1 keys2 : list string) :
  are_any_loop tf tags (keys1 ++ keys2) =
    match are_any_loop tf tags keys1 with
    | Ok false => are_any_loop tf tags keys2
    | r => r
    end.
Proof.
  induction keys1 as [|k keys1 IH]; cbn; [done|]. unfold_bind.
  destruct (re_search _ _) as [m|e]; [|done].
  destruct (truthy _ && m); [done|apply IH].
Qed.

(** * Properties of [list_instances_without_tag] *)

Abbreviation untagged tf :=
  (fun instance =>
     negb (spec_is_tagged re_search tf (get_tags_from_instance instance))).

Lemma instances_loop_spec (tf : list (string * pyvalue))
    (instances : list Instance) (acc res : list Summary.t) :
  instances_loop re_search tf instances acc = Ok res →
  res = acc ++ map summary_of (List.filter (untagged tf) instances).
Proof.
  revert acc. induction instances as [|i instances IH]; intros acc; cbn.
  - intros [= <-]. by rewrite app_nil_r.
  - unfold_bind.
    destruct (are_any tf (get_tags_from_instance i)) as [b|e] eqn:Hb;
      [|done].
    apply are_any_spec in Hb as <-.
    destruct b; cbn; intros H; apply IH in H as ->; [done|].
    by rewrite <- app_assoc.
Qed.

Lemma instances_loop_total (tf : list (string * pyvalue))
    (instances : list Instance) (acc : list Summary.t) :
  patterns_ok re_search tf →
  ∃ res, instances_loop re_search tf instances acc = Ok res.
Proof.
  intros Hok. revert acc.
  induction instances as [|i instances IH]; intros acc; cbn; [by eauto|].
  destruct (are_any_total tf (get_tags_from_instance i) Hok
              (get_tags_no_none i)) as [b ->].
  unfold_bind. destruct b; cbn; apply IH.
Qed.

Lemma reservations_loop_spec (tf : list (string * pyvalue))
    (reservations : list Reservation) (acc res : list Summary.t) :
  reservations_loop re_search tf reservations acc = Ok res →
  res = acc ++ map summary_of
                 (List.filter (untagged tf) (flat_map Instances reservations)).
Proof.
  revert acc. induction reservations as [|r reservations IH]; intros acc; cbn.
  - intros [= <-]. by rewrite app_nil_r.
  - unfold_bind.
    destruct (instances_loop _ _ _ _) as [acc'|e] eqn:Hr; [|done].
    apply instances_loop_spec in Hr as ->.
    intros H. apply IH in H as ->.
    by rewrite List.filter_app, map_app, <- app_assoc.
Qed.

Lemma reservations_loop_total (tf : list (string * pyvalue))
    (reservations : list Reservation) (acc : list Summary.t) :
  patterns_ok re_search tf →
  ∃ res, reservations_loop re_search tf reservations acc = Ok res.
Proof.
  intros Hok. revert acc.
  induction reservations as [|r reservations IH]; intros acc; cbn;
    [by eauto|].
  destruct (instances_loop_total tf (Instances r) acc Hok) as [acc' ->].
  unfold_bind. apply IH.
Qed.

Lemma list_instances_without_tag_spec (tf : list (string * pyvalue))
    (resp : Ec2Response) (res : list Summary.t) :
  list_instances_without_tag re_search tf resp = Ok res →
  res = spec_find_untagged re_search tf resp.
Proof. intros H. by apply reservations_loop_spec in H. Qed.

Lemma list_instances_without_tag_total (tf : list (string * pyvalue))
    (resp : Ec2Response) :
  patterns_ok re_search tf →
  list_instances_without_tag re_search tf resp
    = Ok (spec_find_untagged re_search tf resp).
Proof.
  intros Hok.
  destruct (reservations_loop_total tf (Reservations resp) [] Hok)
    as [res Hres].
  unfold list_instances_without_tag. rewrite Hres. f_equal.
  by apply list_instances_without_tag_spec.
Qed.

End FilterFacts.

(** * The reference engine on patterns of the fragment *)

Lemma Re_search_compiled (pat : string) (items : list Re.item) (s : string) :
  Re.compile pat = Re.Pattern items →
  ∃ b, Re.search (PyStr pat) (PyStr s) = Ok b.
Proof. intros H. unfold Re.search. rewrite H. eauto. Qed.

Lemma Re_patterns_ok (criteria : list (string * pyvalue)) :
  forallb
    (fun '(_, pattern) =>
       match pattern with
       | PyStr pat =>
           match Re.compile pat with Re.Pattern _ => true | _ => false end
       | PyNone => false
       end) criteria = true →
  patterns_ok Re.search criteria.
Proof.
  induction criteria as [|[k p] criteria IH]; cbn; intros H k' p' Hget;
    [done|].
  apply andb_true_iff in H as [Hp H]. cbn in Hget.
  case_decide; [|by eapply IH].
  injection Hget as <-. destruct p as [|pat]; [done|].
  destruct (Re.compile pat) eqn:Hc; try done.
  intros s. by eapply Re_search_compiled.
Qed.

Example search_prod_exact : Re.search (PyStr "^prod$") (PyStr "prod") = Ok true.
Proof. reflexivity. Qed.

Example search_prod_staging :
  Re.search (PyStr "^prod$") (PyStr "staging") = Ok false.
Proof. reflexivity. Qed.

Example search_is_substring :
  Re.search (PyStr "prod") (PyStr "nonprod-eu") = Ok true.
Proof. reflexivity. Qed.

Example search_dotstar_empty : Re.search (PyStr ".*") (PyStr "") = Ok true.
Proof. reflexivity. Qed.

Example search_star_malformed :
  Re.search (PyStr "*") (PyStr "x") = Raise ReError.
Proof. reflexivity. Qed.

Example search_none_pattern : Re.search PyNone (PyStr "") = Raise TypeError.
Proof. reflexivity. Qed.

(** The examples of the specification. *)

Example staging_is_reported :
  list_instances_without_tag Re.search Sample.env_prod
    (Sample.response [[Sample.staging]])
  = Ok [{| Summary.InstanceId := "i-staging"; Summary.Name := PyStr "web-1" |}].
Proof. vm_compute. reflexivity. Qed.

Example prod_is_not_reported :
  list_instances_without_tag Re.search Sample.env_prod
    (Sample.response [[Sample.prod]]) = Ok [].
Proof. vm_compute. reflexivity. Qed.

Example one_criterion_suffices :
  list_instances_without_tag Re.search Sample.owner_or_team
    (Sample.response [[Sample.team]]) = Ok [].
Proof. vm_compute. reflexivity. Qed.

Example order_of_report :
  list_instances_without_tag Re.search Sample.env_prod
    (Sample.response [[Sample.staging; Sample.prod]; [Sample.bare]])
  = Ok [summary_of Sample.staging; summary_of Sample.bare].
Proof. vm_compute. reflexivity. Qed.

(** * The claims about the tag map *)

(** C3 (as amended): the tag map never maps a name to [None]; a name is
    absent exactly when every pair of that name is unset; a pair with a set
    value has its name in the map, bound to the value of the last set pair
    of that name, which is the pair's own value when names are not
    repeated. *)
Theorem get_tags_from_instance_entries (instance : Instance) :
  let tags := default [] (Tags instance) in
  let result := get_tags_from_instance instance in
  no_none result
  ∧ (∀ k, result !! k = last_set_value k tags)
  ∧ (∀ k, result !! k = None ↔
          ∀ tag, In tag tags → Key tag = k → Value tag = PyNone)
  ∧ (∀ tag, In tag tags → Value tag ≠ PyNone → is_Some (result !! Key tag))
  ∧ (NoDup (map Key tags) →
     ∀ tag, In tag tags → Value tag ≠ PyNone →
       result !! Key tag = Some (Value tag)).
Proof.
  cbn zeta.
  assert (∀ k, get_tags_from_instance instance !! k
               = last_set_value k (default [] (Tags instance))) as Hlookup.
  { intros k. rewrite get_tags_lookup. by destruct (Tags instance). }
  split; [apply get_tags_no_none|]. split; [done|]. split; [|split].
  - intros k. rewrite Hlookup. apply last_set_value_None.
  - intros tag Hin Hset. rewrite Hlookup.
    destruct (last_set_value (Key tag) _) eqn:Hl; [by eauto|].
    exfalso. apply Hset. by eapply last_set_value_None.
  - intros Hnd tag Hin Hset. rewrite Hlookup.
    by apply last_set_value_nodup.
Qed.

(** C3 as stated fails on a record that repeats a name: the name of an
    unset pair is present, and an overwritten set pair is not in the map. *)
Lemma repeated_name_breaks_pairwise_reading :
  let tags := default [] (Tags Sample.duplicated) in
  let result := get_tags_from_instance Sample.duplicated in
  ¬ (∀ tag, In tag tags → Value tag = PyNone → result !! Key tag = None)
  ∧ ¬ (∀ tag, In tag tags → Value tag ≠ PyNone →
         result !! Key tag = Some (Value tag)).
Proof.
  cbn zeta. split; intros H.
  - specialize (H (Sample.unset "Env")). vm_compute in H.
    discriminate H; auto.
  - specialize (H (Sample.tag "Env" "dev")). vm_compute in H.
    assert (Some (PyStr "prod") = Some (PyStr "dev")) as Heq; [|done].
    apply H; auto. discriminate.
Qed.

(** C4: an instance without a ["Tags"] field has an empty tag map. *)
Theorem get_tags_from_instance_no_tags_field (instance : Instance) :
  Tags instance = None → get_tags_from_instance instance = ∅.
Proof. unfold get_tags_from_instance. by intros ->. Qed.

Lemma get_tags_from_instance_no_tags_field_witness :
  Tags Sample.bare = None ∧ get_tags_from_instance Sample.bare = ∅.
Proof.
  split; [reflexivity|].
  apply (get_tags_from_instance_no_tags_field Sample.bare). reflexivity.
Defined.

(** C8: of two pairs with the same name and set values, the later one
    (the last set pair of that name) gives the value of the map. *)
Theorem get_tags_from_instance_last_write_wins (instance : Instance)
    (before between after : list Tag) (earlier later : Tag) :
  Tags instance = Some (before ++ earlier :: between ++ later :: after) →
  Key earlier = Key later →
  Value earlier ≠ PyNone →
  Value later ≠ PyNone →
  (∀ tag, In tag after → Key tag = Key later → Value tag = PyNone) →
  get_tags_from_instance instance !! Key later = Some (Value later).
Proof.
  intros Htags _ _ Hset Hlast. rewrite get_tags_lookup, Htags.
  rewrite last_set_value_app. cbn. rewrite last_set_value_app. cbn.
  apply last_set_value_None in Hlast. rewrite Hlast.
  by rewrite decide_True.
Qed.

Lemma get_tags_from_instance_last_write_wins_witness :
  get_tags_from_instance Sample.duplicated !! "Env" = Some (PyStr "prod").
Proof.
  apply (get_tags_from_instance_last_write_wins Sample.duplicated
           [] [Sample.unset "Env"] [] (Sample.tag "Env" "dev")
           (Sample.tag "Env" "prod")).
  - reflexivity.
  - reflexivity.
  - discriminate.
  - discriminate.
  - intros tag [].
Defined.

(** * The claims about the filter *)

Lemma filter_sublist {A : Type} (f : A → bool) (l : list A) :
  List.filter f l `sublist_of` l.
Proof.
  induction l as [|x l IH]; cbn; [constructor|].
  destruct (f x); by constructor.
Qed.

Lemma filter_all {A : Type} (f : A → bool) (l : list A) :
  (∀ x, In x l → f x = true) → List.filter f l = l.
Proof.
  induction l as [|x l IH]; cbn; intros H; [done|].
  rewrite H by auto. f_equal. apply IH. auto.
Qed.

(** C1: the result holds the summaries of exactly the instances for which
    no criterion matches; an instance is left out if and only if some
    criterion [(tagName, pattern)] of the mapping finds a non-empty value
    under [tagName] in which [re.search] finds [pattern]. *)
Theorem list_instances_without_tag_or_semantics
    (re_search : pyvalue → pyvalue → PyResult bool)
    (tags_filter : list (string * pyvalue)) (ec2_instances : Ec2Response) :
  (patterns_ok re_search tags_filter →
   list_instances_without_tag re_search tags_filter ec2_instances
     = Ok (spec_find_untagged re_search tags_filter ec2_instances))
  ∧ (∀ res,
       list_instances_without_tag re_search tags_filter ec2_instances = Ok res →
       res = spec_find_untagged re_search tags_filter ec2_instances)
  ∧ (∀ instance,
       spec_is_tagged re_search tags_filter (get_tags_from_instance instance)
         = true
       ↔ some_criterion_matches re_search tags_filter
           (get_tags_from_instance instance))
  ∧ (∀ instance res,
       list_instances_without_tag re_search tags_filter
         (single_instance instance) = Ok res →
       (res = [] ∨ res = [summary_of instance])
       ∧ (res = [] ↔ some_criterion_matches re_search tags_filter
                        (get_tags_from_instance instance))).
Proof.
  split; [apply list_instances_without_tag_total|].
  split; [apply list_instances_without_tag_spec|].
  split; [intros instance; apply spec_is_tagged_iff|].
  intros instance res Hres.
  apply list_instances_without_tag_spec in Hres as ->.
  rewrite <- spec_is_tagged_iff.
  unfold spec_find_untagged, all_instances, single_instance. cbn.
  destruct (spec_is_tagged _ _ _); cbn; split; auto; by split.
Qed.



(** C6: the summaries come out in input order: the result is the image of
    a subsequence of the visited instances, the one that keeps exactly the
    instances no criterion matches. *)
Theorem list_instances_without_tag_order
    (re_search : pyvalue → pyvalue → PyResult bool)
    (tags_filter : list (string * pyvalue)) (ec2_instances : Ec2Response) :
  (patterns_ok re_search tags_filter → ∃ res,
     list_instances_without_tag re_search tags_filter ec2_instances = Ok res)
  ∧ ∀ res,
      list_instances_without_tag re_search tags_filter ec2_instances = Ok res →
      ∃ kept,
        res = map summary_of kept
        ∧ kept `sublist_of` all_instances ec2_instances
        ∧ kept = List.filter
                   (fun instance =>
                      negb (spec_is_tagged re_search tags_filter
                              (get_tags_from_instance instance)))
                   (all_instances ec2_instances)
        ∧ ∀ instance,
            In instance kept ↔
            In instance (all_instances ec2_instances)
            ∧ ¬ some_criterion_matches re_search tags_filter
                  (get_tags_from_instance instance).
Proof.
  split.
  { intros Hok. eexists. by apply list_instances_without_tag_total. }
  intros res Hres. apply list_instances_without_tag_spec in Hres as ->.
  eexists. split; [reflexivity|]. split; [apply filter_sublist|].
  split; [reflexivity|].
  intros instance. rewrite filter_In, negb_true_iff, <- spec_is_tagged_iff.
  by rewrite not_true_iff_false.
Qed.

(** C9: with an empty mapping the test is false for every instance and
    every instance is reported, in input order. *)
Theorem empty_criteria_report_every_instance
    (re_search : pyvalue → pyvalue → PyResult bool) :
  (∀ instances_tags,
     are_any_filter_tags_on_instance re_search [] instances_tags = Ok false)
  ∧ (∀ ec2_instances,
       list_instances_without_tag re_search [] ec2_instances
         = Ok (map summary_of (all_instances ec2_instances))).
Proof.
  split; [done|]. intros resp.
  rewrite list_instances_without_tag_total by (intros ? ? [=]).
  unfold spec_find_untagged. by rewrite filter_all.
Qed.

Lemma blank_values_not_tagged
    (re_search : pyvalue → pyvalue → PyResult bool)
    (tf : list (string * pyvalue)) (tags : gmap string pyvalue) :
  (∀ k, In k (dict_keys tf) → tags !! k = Some (PyStr "") ∨ tags !! k = None) →
  spec_is_tagged re_search tf tags = false.
Proof.
  intros Hblank. apply not_true_is_false. unfold spec_is_tagged.
  rewrite existsb_exists. intros (k & Hin & Hm).
  unfold spec_criterion_matches in Hm.
  by destruct (Hblank k Hin) as [Hk|Hk]; rewrite Hk in Hm.
Qed.

(** C10: a tag whose value is the empty string is stored in the tag map,
    but it satisfies no criterion, whatever [re.search] answers on the empty
    string, so an instance whose tags named by the criteria are all empty
    strings is reported. *)
Theorem empty_string_tag_never_matches
    (re_search : pyvalue → pyvalue → PyResult bool) :
  (∀ instance before tag after,
     Tags instance = Some (before ++ tag :: after) →
     Value tag = PyStr "" →
     (∀ t, In t after → Key t = Key tag → Value t = PyNone) →
     get_tags_from_instance instance !! Key tag = Some (PyStr ""))
  ∧ (∀ tags_filter instances_tags,
       (∀ k, In k (dict_keys tags_filter) →
             instances_tags !! k = Some (PyStr "")
             ∨ instances_tags !! k = None) →
       ¬ some_criterion_matches re_search tags_filter instances_tags
       ∧ (∀ b, are_any_filter_tags_on_instance re_search tags_filter
                 instances_tags = Ok b → b = false)
       ∧ (patterns_ok re_search tags_filter →
          are_any_filter_tags_on_instance re_search tags_filter
            instances_tags = Ok false))
  ∧ (∀ tags_filter ec2_instances instance,
       In instance (all_instances ec2_instances) →
       (∀ k, In k (dict_keys tags_filter) →
             get_tags_from_instance instance !! k = Some (PyStr "")
             ∨ get_tags_from_instance instance !! k = None) →
       (patterns_ok re_search tags_filter → ∃ res,
          list_instances_without_tag re_search tags_filter ec2_instances
            = Ok res)
       ∧ ∀ res,
           list_instances_without_tag re_search tags_filter ec2_instances
             = Ok res →
           In (summary_of instance) res)
  ∧ (∀ k pattern,
       re_search pattern (PyStr "") = Ok true →
       are_any_filter_tags_on_instance re_search [(k, pattern)]
         {[k := PyStr ""]} = Ok false).
Proof.
  split; [|split; [|split]].
  - intros instance before tag after Htags Hblank Hlast.
    rewrite get_tags_lookup, Htags, last_set_value_app. cbn.
    apply last_set_value_None in Hlast. rewrite Hlast, Hblank.
    by rewrite decide_True.
  - intros tf tags Hblank.
    pose proof (blank_values_not_tagged re_search tf tags Hblank) as Hb.
    split; [|split].
    + rewrite <- spec_is_tagged_iff. by rewrite Hb.
    + intros b Hr. apply are_any_spec in Hr. congruence.
    + intros Hok.
      destruct (are_any_loop_total re_search tf tags (dict_keys tf) Hok)
        as [b Hr]; [|done|].
      { intros k Hin. destruct (Hblank k Hin); congruence. }
      change (are_any_filter_tags_on_instance re_search tf tags = Ok b) in Hr.
      rewrite Hr. f_equal. apply are_any_spec in Hr. congruence.
  - intros tf resp instance Hin Hblank. split.
    { intros Hok. eexists. by apply list_instances_without_tag_total. }
    intros res Hres. apply list_instances_without_tag_spec in Hres as ->.
    apply in_map, filter_In. split; [done|].
    by rewrite blank_values_not_tagged.
  - intros k pattern Hm.
    unfold are_any_filter_tags_on_instance. cbn.
    rewrite decide_True by done. rewrite lookup_singleton_eq. cbn.
    by rewrite Hm.
Qed.

(** * Footprint of the functions over the store *)

Section Footprint.

Import Heap.

Variable re_search : pyvalue -> pyvalue -> PyResult bool.

Ltac unfold_M := unfold mbind, mret, M_bind, M_ret, raise, read, write in *.

Ltac frames_trivial :=
  cbn; repeat split; try done; try lia; intros; simplify_eq; eauto.

Lemma frames_ret {A : Type} (n : nat) (a : A) (Q : A → Prop) :
  Q a → frames n (mret a) Q.
Proof. intros HQ h Hn. frames_trivial. Qed.

Lemma frames_raise {A : Type} (n : nat) (e : PyExc) (Q : A → Prop) :
  frames n (raise e) Q.
Proof. intros h Hn. frames_trivial. Qed.

Lemma frames_bind {A B : Type} (n : nat) (m : M A) (k : A → M B)
    (Q : A → Prop) (R : B → Prop) :
  frames n m Q → (∀ a, Q a → frames n (k a) R) → frames n (m ≫= k) R.
Proof.
  intros Hm Hk h Hn. destruct (Hm h Hn) as (Htake & Hlen & HQ).
  unfold_M. destruct (m h) as [[a|e] h']; cbn in *; [|frames_trivial].
  destruct (Hk a (HQ a eq_refl) h') as (Htake' & Hlen' & HR); [lia|].
  split; [congruence|]. split; [lia|done].
Qed.

Lemma frames_new (n : nat) (o : obj) : frames n (new o) (fresh_ref n).
Proof.
  intros h Hn. unfold new. cbn. split; [|split].
  - by rewrite take_app_le.
  - rewrite length_app. lia.
  - intros a [= <-]. by exists (length h).
Qed.

Lemma frames_read (n : nat) (l : loc) : frames n (read l) (fun _ => True).
Proof. intros h Hn. unfold read. destruct (h !! l); frames_trivial. Qed.

Lemma frames_write (n : nat) (l : loc) (o : obj) :
  n ≤ l → frames n (write l o) (fun _ => True).
Proof.
  intros Hl h Hn. unfold write. cbn.
  rewrite take_insert_ge, length_insert by done. frames_trivial.
Qed.

(** Operations that only read. *)
Ltac frames_reader :=
  repeat first
    [ apply frames_ret; done
    | apply frames_raise
    | eapply frames_bind; [apply frames_read|intros [?|?] _]
    | match goal with |- frames _ (match ?x with _ => _ end) _ => destruct x end
    | match goal with |- frames _ (if ?x then _ else _) _ => destruct x end ].

Lemma frames_contains (n : nat) (c : val) (k : string) :
  frames n (contains c k) (fun _ => True).
Proof. unfold contains. frames_reader. Qed.

Lemma frames_getitem (n : nat) (c : val) (k : string) :
  frames n (getitem c k) (fun _ => True).
Proof. unfold getitem. frames_reader. Qed.

Lemma frames_get_method (n : nat) (c k d : val) :
  frames n (get_method c k d) (fun _ => True).
Proof. unfold get_method. frames_reader. Qed.

Lemma frames_keys_method (n : nat) (c : val) :
  frames n (keys_method c) (fun _ => True).
Proof. unfold keys_method. frames_reader. Qed.

Lemma frames_iterate (n : nat) (c : val) :
  frames n (iterate c) (fun _ => True).
Proof. unfold iterate. frames_reader. Qed.

Lemma frames_truthy (n : nat) (v : val) :
  frames n (truthy v) (fun _ => True).
Proof. unfold truthy. frames_reader. Qed.

Lemma frames_search (n : nat) (pattern subject : val) :
  frames n (search re_search pattern subject) (fun _ => True).
Proof. intros h Hn. unfold search. frames_trivial. Qed.

(** Updates of an object allocated at or after position [n]. *)
Lemma frames_setitem (n : nat) (c k v : val) :
  fresh_ref n c → frames n (setitem c k v) (fun _ => True).
Proof.
  intros (l & -> & Hl). unfold setitem.
  eapply frames_bind; [apply frames_read|]. intros [items|elems] _.
  - destruct (hashable k); [by apply frames_write|apply frames_raise].
  - apply frames_raise.
Qed.

Lemma frames_append_method (n : nat) (c v : val) :
  fresh_ref n c → frames n (append_method c v) (fun _ => True).
Proof.
  intros (l & -> & Hl). unfold append_method.
  eapply frames_bind; [apply frames_read|]. intros [items|elems] _.
  - apply frames_raise.
  - by apply frames_write.
Qed.

Lemma frames_for_each (n : nat) (xs : list val) (body : val → M unit) :
  (∀ x, frames n (body x) (fun _ => True)) →
  frames n (for_each xs body) (fun _ => True).
Proof.
  intros Hbody. induction xs as [|x xs IH]; cbn.
  - by apply frames_ret.
  - eapply frames_bind; [apply Hbody|]. intros ? _. apply IH.
Qed.

Lemma frames_for_return {A : Type} (n : nat) (xs : list val)
    (body : val → M (option A)) (orelse : M A) :
  (∀ x, frames n (body x) (fun _ => True)) →
  frames n orelse (fun _ => True) →
  frames n (for_return xs body orelse) (fun _ => True).
Proof.
  intros Hbody Helse. induction xs as [|x xs IH]; cbn; [done|].
  eapply frames_bind; [apply Hbody|]. intros [a|] _; [by apply frames_ret|done].
Qed.

Ltac frames_step :=
  first
    [ apply frames_ret; done
    | apply frames_raise
    | apply frames_contains
    | apply frames_getitem
    | apply frames_get_method
    | apply frames_keys_method
    | apply frames_iterate
    | apply frames_truthy
    | apply frames_search
    | apply frames_setitem; done
    | apply frames_append_method; done
    | apply frames_new ].

Lemma frames_get_tags_from_instance (n : nat) (instance : val) :
  frames n (get_tags_from_instance instance) (fresh_ref n).
Proof.
  unfold get_tags_from_instance.
  eapply frames_bind; [apply frames_new|]. intros d Hd.
  eapply frames_bind; [frames_step|]. intros present _.
  eapply frames_bind with (Q := fun _ => True);
    [|intros ? _; by apply frames_ret].
  destruct present; [|frames_step].
  eapply frames_bind; [frames_step|]. intros tags _.
  eapply frames_bind; [frames_step|]. intros elems _.
  apply frames_for_each. intros tag.
  eapply frames_bind; [frames_step|]. intros tag_name _.
  eapply frames_bind; [frames_step|]. intros tag_value _.
  case_decide; frames_step.
Qed.

Lemma frames_are_any_filter_tags_on_instance (n : nat)
    (tags_filter instances_tags : val) :
  frames n (are_any_filter_tags_on_instance re_search tags_filter instances_tags)
    (fun _ => True).
Proof.
  unfold are_any_filter_tags_on_instance.
  eapply frames_bind; [frames_step|]. intros keys _.
  apply frames_for_return; [|frames_step]. intros filter_tag.
  eapply frames_bind; [frames_step|]. intros filtered _.
  eapply frames_bind; [frames_step|]. intros pattern _.
  eapply frames_bind; [frames_step|]. intros m _.
  eapply frames_bind; [frames_step|]. intros t _.
  destruct (t && m); frames_step.
Qed.

Lemma frames_list_instances_without_tag (n : nat)
    (tags_filter ec2_instances : val) :
  frames n (list_instances_without_tag re_search tags_filter ec2_instances)
    (fresh_ref n).
Proof.
  unfold list_instances_without_tag.
  eapply frames_bind; [apply frames_new|]. intros result Hresult.
  eapply frames_bind; [frames_step|]. intros reservations _.
  eapply frames_bind; [frames_step|]. intros rs _.
  eapply frames_bind with (Q := fun _ => True);
    [|intros ? _; by apply frames_ret].
  apply frames_for_each. intros reservation.
  eapply frames_bind; [frames_step|]. intros instances _.
  eapply frames_bind; [frames_step|]. intros elems _.
  apply frames_for_each. intros instance.
  eapply frames_bind; [apply frames_get_tags_from_instance|].
  intros instance_tags _.
  eapply frames_bind; [apply frames_new|]. intros data Hdata.
  eapply frames_bind; [apply frames_are_any_filter_tags_on_instance|].
  intros tagged _. destruct tagged; cbn; [frames_step|].
  eapply frames_bind; [frames_step|]. intros instance_id _.
  eapply frames_bind; [frames_step|]. intros ? _.
  eapply frames_bind; [frames_step|]. intros named _.
  eapply frames_bind with (Q := fun _ => True).
  { destruct named; frames_step. }
  intros name _.
  eapply frames_bind; [frames_step|]. intros ? _. frames_step.
Qed.

(** The store a call leaves extends the store it started in: no object
    that existed before the call is changed. *)
Lemma frames_prefix {A : Type} (m : M A) (Q : A → Prop) (h : store) :
  frames (length h) m Q → h `prefix_of` (m h).2.
Proof.
  intros Hm. destruct (Hm h) as (Htake & _); [done|].
  rewrite firstn_all in Htake.
  pose proof (prefix_take (m h).2 (length h)) as Hp. by rewrite Htake in Hp.
Qed.

End Footprint.

(** * The functions over the store compute what the functions on values do *)

Section Refinement.

(** Inside this section the unqualified names are those of module [Heap];
    the functions on values are reached through these names. *)
Local Abbreviation value_get_tags_from_instance := get_tags_from_instance.
Local Abbreviation value_are_any_filter_tags_loop := are_any_filter_tags_loop.
Local Abbreviation value_are_any_filter_tags_on_instance :=
  are_any_filter_tags_on_instance.
Local Abbreviation value_instances_loop := instances_loop.
Local Abbreviation value_reservations_loop := reservations_loop.
Local Abbreviation value_list_instances_without_tag :=
  list_instances_without_tag.
Local Abbreviation value_truthy := truthy.

Import Heap.

Variable re_search : pyvalue -> pyvalue -> PyResult bool.

(** Reading the store. *)

Lemma dict_at_prefix (h h' : store) (v : val) (items : list (val * val)) :
  h `prefix_of` h' → Repr.dict_at h v = Some items →
  Repr.dict_at h' v = Some items.
Proof.
  intros [k ->]. unfold Repr.dict_at. destruct v as [| |l]; try done.
  destruct (h !! l) as [o|] eqn:Hl; [|done].
  by rewrite (lookup_app_l_Some _ _ _ _ Hl).
Qed.

Lemma list_at_prefix (h h' : store) (v : val) (elems : list val) :
  h `prefix_of` h' → Repr.list_at h v = Some elems →
  Repr.list_at h' v = Some elems.
Proof.
  intros [k ->]. unfold Repr.list_at. destruct v as [| |l]; try done.
  destruct (h !! l) as [o|] eqn:Hl; [|done].
  by rewrite (lookup_app_l_Some _ _ _ _ Hl).
Qed.

Lemma tag_prefix (h h' : store) (v : val) (t : Tag) :
  h `prefix_of` h' → Repr.tag h v t → Repr.tag h' v t.
Proof.
  intros Hp (items & Hd & ?). exists items. eauto using dict_at_prefix.
Qed.

Lemma instance_prefix (h h' : store) (v : val) (i : Instance) :
  h `prefix_of` h' → Repr.instance h v i → Repr.instance h' v i.
Proof.
  intros Hp (items & Hd & Hid & Htags). exists items.
  split; [by eapply dict_at_prefix|]. split; [done|].
  destruct (Tags i) as [tags|]; [|done].
  destruct Htags as (tv & elems & ? & ? & Hall). exists tv, elems.
  split; [done|]. split; [by eapply list_at_prefix|].
  eapply Forall2_impl; [done|]. eauto using tag_prefix.
Qed.

Lemma reservation_prefix (h h' : store) (v : val) (r : Reservation) :
  h `prefix_of` h' → Repr.reservation h v r → Repr.reservation h' v r.
Proof.
  intros Hp (items & iv & elems & ? & ? & ? & Hall). exists items, iv, elems.
  split; [by eapply dict_at_prefix|]. split; [done|].
  split; [by eapply list_at_prefix|].
  eapply Forall2_impl; [done|]. eauto using instance_prefix.
Qed.

Lemma response_prefix (h h' : store) (v : val) (e : Ec2Response) :
  h `prefix_of` h' → Repr.response h v e → Repr.response h' v e.
Proof.
  intros Hp (items & rv & elems & ? & ? & ? & Hall). exists items, rv, elems.
  split; [by eapply dict_at_prefix|]. split; [done|].
  split; [by eapply list_at_prefix|].
  eapply Forall2_impl; [done|]. eauto using reservation_prefix.
Qed.

Lemma summaries_prefix (h h' : store) (v : val) (res : list Summary.t) :
  h `prefix_of` h' → Repr.summaries h v res → Repr.summaries h' v res.
Proof.
  intros Hp (elems & ? & Hall). exists elems.
  split; [by eapply list_at_prefix|].
  eapply Forall2_impl; [done|]. intros. by eapply dict_at_prefix.
Qed.

(** Running the operations on objects of a known kind. *)

Lemma run_bind {A B : Type} (m : M A) (k : A → M B) (h : store) :
  (m ≫= k) h =
    match m h with
    | (Ok a, h') => k a h'
    | (Raise e, h') => (Raise e, h')
    end.
Proof. reflexivity. Qed.

Lemma run_ret {A : Type} (a : A) (h : store) : (mret a : M A) h = (Ok a, h).
Proof. reflexivity. Qed.

Lemma run_new (o : obj) (h : store) :
  new o h = (Ok (VRef (length h)), h ++ [o]).
Proof. reflexivity. Qed.

Lemma for_each_cons (x : val) (xs : list val) (body : val → M unit) :
  for_each (x :: xs) body = (body x;; for_each xs body).
Proof. reflexivity. Qed.

(** One step of a run: expose the computation at the head, rewrite it with
    its equation, and pass the result on. *)
Ltac run_head := repeat (rewrite run_bind; cbn beta).
Ltac run_next := cbn beta iota.
Ltac run_step lem := run_head; rewrite lem; run_next.

Lemma run_getitem (h : store) (c : val) (k : string) (items : list (val * val))
    (v : val) :
  Repr.dict_at h c = Some items → Repr.field items k = Some v →
  getitem c k h = (Ok v, h).
Proof.
  unfold Repr.dict_at, Repr.field, getitem. intros Hd Hk.
  destruct c as [| |l]; try done. unfold mbind, M_bind, read.
  destruct (h !! l) as [[its|]|]; try done. injection Hd as ->.
  by rewrite Hk.
Qed.

Lemma run_contains (h : store) (c : val) (k : string)
    (items : list (val * val)) :
  Repr.dict_at h c = Some items →
  contains c k h = (Ok (bool_decide (is_Some (Repr.field items k))), h).
Proof.
  unfold Repr.dict_at, Repr.field, contains. intros Hd.
  destruct c as [| |l]; try done. unfold mbind, M_bind, read.
  destruct (h !! l) as [[its|]|]; try done. by injection Hd as ->.
Qed.

Lemma run_iterate (h : store) (c : val) (elems : list val) :
  Repr.list_at h c = Some elems → iterate c h = (Ok elems, h).
Proof.
  unfold Repr.list_at, iterate. intros Hd.
  destruct c as [| |l]; try done. unfold mbind, M_bind, read.
  destruct (h !! l) as [[|els]|]; try done. by injection Hd as ->.
Qed.

Lemma run_setitem (h : store) (l : loc) (k v : val)
    (items : list (val * val)) :
  h !! l = Some (ODict items) → hashable k = true →
  setitem (VRef l) k v h = (Ok (), <[l := ODict (dict_store items k v)]> h).
Proof.
  intros Hl Hk. unfold setitem, mbind, M_bind, read. by rewrite Hl, Hk.
Qed.

Lemma run_append_method (h : store) (l : loc) (v : val) (elems : list val) :
  h !! l = Some (OList elems) →
  append_method (VRef l) v h = (Ok (), <[l := OList (elems ++ [v])]> h).
Proof. intros Hl. unfold append_method, mbind, M_bind, read. by rewrite Hl. Qed.

Lemma run_get_method (h : store) (c : val) (k : string) (d : val)
    (items : list (val * val)) :
  Repr.dict_at h c = Some items →
  get_method c (VStr k) d h = (Ok (default d (Repr.field items k)), h).
Proof.
  unfold Repr.dict_at, Repr.field, get_method. intros Hd.
  destruct c as [| |l]; try done. unfold mbind, M_bind, read.
  destruct (h !! l) as [[its|]|]; try done. by injection Hd as ->.
Qed.

Lemma run_keys_method (h : store) (c : val) (items : list (val * val)) :
  Repr.dict_at h c = Some items → keys_method c h = (Ok (map fst items), h).
Proof.
  unfold Repr.dict_at, keys_method. intros Hd.
  destruct c as [| |l]; try done. unfold mbind, M_bind, read.
  destruct (h !! l) as [[its|]|]; try done. by injection Hd as ->.
Qed.

Lemma dict_lookup_store (items : list (val * val)) (k v k' : val) :
  dict_lookup (dict_store items k v) k' =
    if decide (k = k') then Some v else dict_lookup items k'.
Proof.
  induction items as [|[k0 v0] items IH]; cbn.
  - by repeat case_decide.
  - destruct (decide (k0 = k)) as [->|Hne]; cbn.
    + by repeat case_decide.
    + rewrite IH. repeat case_decide; congruence.
Qed.

Lemma to_of_pyvalue (v : pyvalue) : to_pyvalue (of_pyvalue v) = v.
Proof. by destruct v. Qed.

(** While [get_tags_from_instance] runs, the store is the store of the
    call followed by the dictionary under construction. *)
Lemma run_get_tags_loop (h : store) (elems : list val) (tags : list Tag)
    (items : list (val * val)) :
  Forall2 (Repr.tag h) elems tags →
  for_each elems
    (fun tag =>
       tag_name ← getitem tag "Key";
       tag_value ← getitem tag "Value";
       if decide (tag_value ≠ VNone)
       then setitem (VRef (length h)) tag_name tag_value
       else mret ())
    (h ++ [ODict items])
  = (Ok (), h ++ [ODict (fold_left Repr.store_item tags items)]).
Proof.
  intros Hall. revert items.
  induction Hall as [|x t elems tags Hx Hall IH]; intros items; [done|].
  destruct Hx as (titems & Hd & Hkey & Hvalue).
  eapply dict_at_prefix in Hd; [|by apply (prefix_app_r h h [ODict items])].
  rewrite for_each_cons. cbn [fold_left].
  run_step (run_getitem _ _ _ _ _ Hd Hkey).
  run_step (run_getitem _ _ _ _ _ Hd Hvalue).
  unfold Repr.store_item at 2.
  destruct (Value t) as [|s] eqn:Hv; cbn [of_pyvalue];
    repeat case_decide; try done.
  - rewrite run_ret. run_next. apply IH.
  - erewrite run_setitem; [|by apply list_lookup_middle|reflexivity]. run_next.
    rewrite insert_app_r_alt by done. rewrite Nat.sub_diag.
    cbn [insert list_insert]. apply IH.
Qed.

(** The items built from a tag list are the entries of the tag map. *)
Lemma field_store_items (tags : list Tag) (items : list (val * val))
    (m : gmap string pyvalue) :
  (∀ k, Repr.field items k = of_pyvalue <$> (m !! k)) →
  ∀ k, Repr.field (fold_left Repr.store_item tags items) k
       = of_pyvalue <$> (fold_left store_tag tags m !! k).
Proof.
  revert items m. induction tags as [|t tags IH]; intros items m Hm; [done|].
  cbn [fold_left]. apply IH. intros k.
  unfold Repr.store_item, store_tag. cbn zeta. case_decide; [|done].
  unfold Repr.field. rewrite dict_lookup_store, lookup_insert.
  repeat case_decide; try congruence; [done|apply Hm].
Qed.

Lemma field_tag_items (i : Instance) (k : string) :
  Repr.field (Repr.tag_items (default [] (Tags i))) k
  = of_pyvalue <$> (value_get_tags_from_instance i !! k).
Proof.
  unfold Repr.tag_items, value_get_tags_from_instance.
  destruct (Tags i) as [tags|]; cbn [default].
  - apply field_store_items. intros k'. by rewrite lookup_empty.
  - by rewrite lookup_empty.
Qed.

Lemma run_get_tags_from_instance (h : store) (v : val) (i : Instance) :
  Repr.instance h v i →
  Heap.get_tags_from_instance v h
  = (Ok (VRef (length h)),
     h ++ [ODict (Repr.tag_items (default [] (Tags i)))]).
Proof.
  intros (iitems & Hd & _ & Htags).
  eapply dict_at_prefix in Hd; [|by apply (prefix_app_r h h [ODict []])].
  unfold Heap.get_tags_from_instance.
  run_step run_new. run_step (run_contains _ _ "Tags" _ Hd).
  destruct (Tags i) as [tags|]; cbn [default].
  - destruct Htags as (tv & elems & Hfield & Hlist & Hall).
    rewrite bool_decide_eq_true_2 by (rewrite Hfield; eauto).
    eapply list_at_prefix in Hlist;
      [|by apply (prefix_app_r h h [ODict []])].
    run_step (run_getitem _ _ _ _ _ Hd Hfield).
    run_step (run_iterate _ _ _ Hlist).
    rewrite (run_get_tags_loop h elems tags [] Hall). run_next.
    by rewrite run_ret.
  - rewrite bool_decide_eq_false_2 by (rewrite Htags; by intros [? ?]).
    run_head. rewrite run_ret. run_next. by rewrite run_ret.
Qed.

Lemma field_filter_items (tf : list (string * pyvalue)) (k : string) :
  Repr.field (Repr.filter_items tf) k = of_pyvalue <$> dict_get tf k.
Proof.
  unfold Repr.field. induction tf as [|[k' p] tf IH]; cbn; [done|].
  repeat case_decide; try congruence; done.
Qed.

Lemma keys_filter_items (tf : list (string * pyvalue)) :
  map fst (Repr.filter_items tf) = map VStr (dict_keys tf).
Proof.
  unfold Repr.filter_items, dict_keys. rewrite !map_map.
  apply map_ext. by intros [k p].
Qed.

Lemma run_truthy (v : pyvalue) (h : store) :
  truthy (of_pyvalue v) h = (Ok (value_truthy v), h).
Proof. by destruct v. Qed.

Lemma run_search (p v : pyvalue) (h : store) :
  search re_search (of_pyvalue p) (of_pyvalue v) h = (re_search p v, h).
Proof. unfold search. by rewrite !to_of_pyvalue. Qed.

Lemma for_return_cons {A : Type} (x : val) (xs : list val)
    (body : val → M (option A)) (orelse : M A) :
  for_return (x :: xs) body orelse =
    (r ← body x;
     match r with
     | Some a => mret a
     | None => for_return xs body orelse
     end).
Proof. reflexivity. Qed.

(** [are_any_filter_tags_on_instance] allocates nothing: it returns what
    the function on values returns and leaves the store as it is. *)
Lemma run_are_any_loop (h : store) (f t : val) (tf : list (string * pyvalue))
    (tags : gmap string pyvalue) (keys : list string) :
  Repr.tags_filter h f tf → Repr.tag_map h t tags →
  for_return (map VStr keys)
    (fun filter_tag =>
       filtered_tag_in_instance ← get_method t filter_tag (VStr "");
       pattern ← get_method f filter_tag VNone;
       tags_values_match ← search re_search pattern filtered_tag_in_instance;
       nonempty ← truthy filtered_tag_in_instance;
       if nonempty && tags_values_match then mret (Some true) else mret None)
    (mret false) h
  = (value_are_any_filter_tags_loop re_search tf tags keys, h).
Proof.
  intros Hf (titems & Ht & Hfield).
  induction keys as [|k keys IH]; [done|].
  cbn [map]. rewrite for_return_cons.
  run_step (run_get_method _ _ k (VStr "") _ Ht).
  run_step (run_get_method _ _ k VNone _ Hf).
  rewrite Hfield, field_filter_items.
  replace (default (VStr "") (of_pyvalue <$> tags !! k))
    with (of_pyvalue (default (PyStr "") (tags !! k)))
    by (by destruct (tags !! k)).
  replace (default VNone (of_pyvalue <$> dict_get tf k))
    with (of_pyvalue (default PyNone (dict_get tf k)))
    by (by destruct (dict_get tf k)).
  run_step run_search. cbn [are_any_filter_tags_loop].
  destruct (re_search _ _) as [m|e]; [|done]. run_next.
  run_step run_truthy. cbn [mbind PyResult_bind].
  destruct (value_truthy _ && m); [done|]. rewrite run_ret. run_next. apply IH.
Qed.

Lemma run_are_any_filter_tags_on_instance (h : store) (f t : val)
    (tf : list (string * pyvalue)) (tags : gmap string pyvalue) :
  Repr.tags_filter h f tf → Repr.tag_map h t tags →
  Heap.are_any_filter_tags_on_instance re_search f t h
  = (value_are_any_filter_tags_on_instance re_search tf tags, h).
Proof.
  intros Hf Ht. unfold Heap.are_any_filter_tags_on_instance.
  run_step (run_keys_method _ _ _ Hf). rewrite keys_filter_items.
  by apply run_are_any_loop.
Qed.

Lemma lookup_second_new (h : store) (o1 o2 : obj) :
  (h ++ [o1; o2]) !! S (length h) = Some o2.
Proof.
  rewrite lookup_app_r by lia.
  by replace (S (length h) - length h) with 1 by lia.
Qed.

Lemma insert_second_new (h : store) (o1 o2 o : obj) :
  <[S (length h) := o]> (h ++ [o1; o2]) = h ++ [o1; o].
Proof.
  rewrite insert_app_r_alt by lia.
  by replace (S (length h) - length h) with 1 by lia.
Qed.

Lemma prefix_insert_at_length (h0 h : store) (o : obj) :
  h0 `prefix_of` h → h0 `prefix_of` <[length h0 := o]> h.
Proof.
  intros [k ->]. rewrite insert_app_r_alt by lia. by apply prefix_app_r.
Qed.

(** Updating a list object leaves the dictionaries where they are. *)
Lemma dict_at_insert_list (h h' : store) (l : loc) (elems elems' : list val)
    (v : val) (items : list (val * val)) :
  h `prefix_of` h' → h !! l = Some (OList elems) →
  Repr.dict_at h v = Some items →
  Repr.dict_at (<[l := OList elems']> h') v = Some items.
Proof.
  intros Hp Hl Hd. unfold Repr.dict_at in *. destruct v as [| |lv]; try done.
  destruct (decide (l = lv)) as [->|Hne]; [by rewrite Hl in Hd|].
  rewrite list_lookup_insert_ne by done.
  destruct (h !! lv) as [o|] eqn:Hlv; [|done].
  by rewrite (prefix_lookup_Some _ _ _ _ Hlv Hp).
Qed.

(** The body of the inner loop, for the result list of a call started in
    [h0]. *)
Local Abbreviation instance_body h0 f :=
  (fun instance : val =>
     instance_tags ← Heap.get_tags_from_instance instance;
     instance_data ← new (ODict []);
     tagged ← Heap.are_any_filter_tags_on_instance re_search f instance_tags;
     if negb tagged then
       instance_id ← getitem instance "InstanceId";
       setitem instance_data (VStr "InstanceId") instance_id;;
       named ← contains instance_tags "Name";
       name ← (if named : bool then getitem instance_tags "Name"
               else mret (VStr ""));
       setitem instance_data (VStr "Name") name;;
       append_method (VRef (length h0)) instance_data
     else mret ()).

Lemma run_instance_body (h0 h : store) (f v : val)
    (tf : list (string * pyvalue)) (i : Instance) (acc : list Summary.t) :
  Repr.tags_filter h0 f tf → Repr.instance h0 v i → Repr.collecting h0 h acc →
  let out := instance_body h0 f v h in
  match value_are_any_filter_tags_on_instance re_search tf
          (value_get_tags_from_instance i) with
  | Raise ex => out.1 = Raise ex
  | Ok tagged =>
      out.1 = Ok ()
      ∧ Repr.collecting h0 out.2
          (if negb tagged
           then acc ++ [instance_data i (value_get_tags_from_instance i)]
           else acc)
  end.
Proof.
  intros Hf Hi (Hp & elems & Hres & Hacc). cbn zeta.
  pose proof (instance_prefix _ _ _ _ Hp Hi) as Hi'.
  pose proof (run_get_tags_from_instance h v i Hi') as Hrun.
  pose proof (field_tag_items i) as Hfield.
  set (titems := Repr.tag_items (default [] (Tags i))) in *.
  run_step Hrun. run_step run_new.
  rewrite <- app_assoc, length_app, Nat.add_1_r. cbn [app].
  assert (h `prefix_of` h ++ [ODict titems; ODict []]) as Hp2
    by apply prefix_app_r, reflexivity.
  assert (Repr.tag_map (h ++ [ODict titems; ODict []]) (VRef (length h))
            (value_get_tags_from_instance i)) as Htm.
  { exists titems. split; [|done]. unfold Repr.dict_at.
    by rewrite list_lookup_middle. }
  run_head.
  rewrite (run_are_any_filter_tags_on_instance _ f _ tf _ 
             (dict_at_prefix _ _ _ _ (transitivity Hp Hp2) Hf) Htm).
  destruct (value_are_any_filter_tags_on_instance _ _ _) as [tagged|ex];
    [|done].
  run_next. destruct tagged; cbn [negb].
  - rewrite run_ret. split; [done|]. split; [by etrans|].
    exists elems. split; [by eapply prefix_lookup_Some|].
    eapply Forall2_impl; [done|]. intros. by eapply dict_at_prefix.
  - destruct Hi' as (iitems & Hd & Hid & _).
    eapply dict_at_prefix in Hd; [|exact Hp2].
    run_step (run_getitem _ _ _ _ _ Hd Hid).
    run_head. erewrite run_setitem; [|apply lookup_second_new|done]. run_next.
    rewrite insert_second_new. cbn [dict_store].
    assert (Repr.dict_at
              (h ++ [ODict titems; ODict [(VStr "InstanceId", VStr (InstanceId i))]])
              (VRef (length h)) = Some titems) as Hd'.
    { unfold Repr.dict_at. by rewrite list_lookup_middle. }
    run_step (run_contains _ _ "Name" _ Hd').
    set (name := of_pyvalue (Summary.Name
                   (instance_data i (value_get_tags_from_instance i)))).
    assert ((if bool_decide (is_Some (Repr.field titems "Name"))
             then getitem (VRef (length h)) "Name"
             else mret (VStr ""))
              (h ++ [ODict titems; ODict [(VStr "InstanceId", VStr (InstanceId i))]])
            = (Ok name,
               h ++ [ODict titems; ODict [(VStr "InstanceId", VStr (InstanceId i))]]))
      as Hname.
    { subst name. unfold instance_data. cbn [Summary.Name].
      pose proof (Hfield "Name") as HN.
      destruct (value_get_tags_from_instance i !! "Name") as [n|]; cbn in HN.
      - rewrite bool_decide_eq_true_2 by (rewrite HN; eauto).
        by eapply run_getitem.
      - rewrite bool_decide_eq_false_2 by (rewrite HN; by intros [? ?]).
        reflexivity. }
    run_step Hname.
    run_head. erewrite run_setitem; [|apply lookup_second_new|done]. run_next.
    rewrite insert_second_new. cbn [dict_store].
    rewrite decide_False by done.
    set (h' := h ++ [ODict titems; ODict [_; _]]).
    assert (h `prefix_of` h') as Hp' by apply prefix_app_r, reflexivity.
    erewrite run_append_method; [|by eapply prefix_lookup_Some].
    split; [done|]. cbn [snd]. split.
    { apply prefix_insert_at_length. by etrans. }
    exists (elems ++ [VRef (S (length h))]). split.
    { apply list_lookup_insert_eq. apply lookup_lt_Some in Hres.
      apply prefix_length in Hp'. lia. }
    apply Forall2_app.
    { eapply Forall2_impl; [done|]. intros w s Hw.
      by eapply dict_at_insert_list. }
    constructor; [|constructor]. unfold Repr.summary, Repr.dict_at.
    apply lookup_lt_Some in Hres.
    rewrite list_lookup_insert_ne by lia. subst h'.
    by rewrite lookup_second_new.
Qed.

Lemma run_instances_loop (h0 : store) (f : val)
    (tf : list (string * pyvalue)) (elems : list val)
    (instances : list Instance) :
  Repr.tags_filter h0 f tf → Forall2 (Repr.instance h0) elems instances →
  ∀ h acc, Repr.collecting h0 h acc →
    let out := for_each elems (instance_body h0 f) h in
    match value_instances_loop re_search tf instances acc with
    | Raise ex => out.1 = Raise ex
    | Ok acc' => out.1 = Ok () ∧ Repr.collecting h0 out.2 acc'
    end.
Proof.
  intros Hf Hall.
  induction Hall as [|x i elems instances Hx Hall IH]; intros h acc Hc;
    cbn zeta; [done|].
  rewrite for_each_cons, run_bind. cbn [instances_loop].
  pose proof (run_instance_body h0 h f x tf i acc Hf Hx Hc) as Hbody.
  cbn zeta beta in Hbody. cbn beta.
  match type of Hbody with
  | context [fst ?m] => destruct m as [r h1]
  end.
  destruct (value_are_any_filter_tags_on_instance _ _ _) as [tagged|ex];
    cbn [fst snd mbind PyResult_bind] in *; [|by subst r].
  destruct Hbody as [-> Hc1]. by destruct tagged; apply IH.
Qed.

Lemma run_reservations_loop (h0 : store) (f : val)
    (tf : list (string * pyvalue)) (elems : list val)
    (reservations : list Reservation) :
  Repr.tags_filter h0 f tf → Forall2 (Repr.reservation h0) elems reservations →
  ∀ h acc, Repr.collecting h0 h acc →
    let out :=
      for_each elems
        (fun reservation =>
           instances ← getitem reservation "Instances";
           instances ← iterate instances;
           for_each instances (instance_body h0 f)) h in
    match value_reservations_loop re_search tf reservations acc with
    | Raise ex => out.1 = Raise ex
    | Ok acc' => out.1 = Ok () ∧ Repr.collecting h0 out.2 acc'
    end.
Proof.
  intros Hf Hall.
  induction Hall as [|x r elems reservations Hx Hall IH]; intros h acc Hc;
    cbn zeta; [done|].
  rewrite for_each_cons. cbn [reservations_loop].
  destruct Hx as (items & iv & ielems & Hd & Hfield & Hlist & Hinstances).
  destruct Hc as [Hp Hc].
  eapply dict_at_prefix in Hd; [|exact Hp].
  eapply list_at_prefix in Hlist; [|exact Hp].
  run_step (run_getitem _ _ _ _ _ Hd Hfield).
  run_step (run_iterate _ _ _ Hlist).
  pose proof (run_instances_loop h0 f tf ielems (Instances r) Hf Hinstances
                h acc (conj Hp Hc)) as Hloop.
  cbn zeta in Hloop.
  match type of Hloop with
  | context [fst ?m] => destruct m as [res h1]
  end.
  destruct (value_instances_loop _ _ _ _) as [acc1|ex];
    cbn [fst snd mbind PyResult_bind] in *; [|by subst res].
  destruct Hloop as [-> Hc1]. by apply IH.
Qed.

(** [list_instances_without_tag] over the store returns what the function
    on values returns: the same exception, or a new list of new
    dictionaries that holds the same summaries. *)
Lemma run_list_instances_without_tag (h : store) (f e : val)
    (tf : list (string * pyvalue)) (resp : Ec2Response) :
  Repr.tags_filter h f tf → Repr.response h e resp →
  let out := Heap.list_instances_without_tag re_search f e h in
  match value_list_instances_without_tag re_search tf resp with
  | Raise ex => out.1 = Raise ex
  | Ok res => ∃ v, out.1 = Ok v ∧ Repr.summaries out.2 v res
  end.
Proof.
  intros Hf (items & rv & elems & Hd & Hfield & Hlist & Hall). cbn zeta.
  unfold Heap.list_instances_without_tag, value_list_instances_without_tag.
  assert (h `prefix_of` h ++ [OList []]) as Hp by apply prefix_app_r, reflexivity.
  eapply dict_at_prefix in Hd; [|exact Hp].
  eapply list_at_prefix in Hlist; [|exact Hp].
  run_step run_new.
  run_step (run_getitem _ _ _ _ _ Hd Hfield).
  run_step (run_iterate _ _ _ Hlist).
  pose proof (run_reservations_loop h f tf elems (Reservations resp) Hf Hall
                (h ++ [OList []]) []) as Hloop.
  cbn zeta in Hloop. run_head.
  assert (Repr.collecting h (h ++ [OList []]) []) as Hc.
  { split; [done|]. exists []. split; [by apply list_lookup_middle|constructor]. }
  specialize (Hloop Hc).
  match type of Hloop with
  | context [fst ?m] => destruct m as [r h1]
  end.
  destruct (value_reservations_loop _ _ _ _) as [res|ex];
    cbn [fst snd] in *; [|by subst r].
  destruct Hloop as (-> & _ & velems & Hl & Hsum).
  run_next. rewrite run_ret. cbn [fst snd]. eexists. split; [done|].
  exists velems. split; [|done]. unfold Repr.list_at. by rewrite Hl.
Qed.

End Refinement.

(** * The claim about purity *)

Lemma sample_instance_in_store :
  Repr.instance Sample.store_staging (Heap.VRef 3) Sample.staging.
Proof.
  eexists. split; [reflexivity|]. split; [reflexivity|].
  eexists _, _. split; [reflexivity|]. split; [reflexivity|].
  repeat constructor; eexists; (split; [reflexivity|]); by split.
Qed.

Lemma sample_response_in_store :
  Repr.response Sample.store_staging (Heap.VRef 7)
    (Sample.response [[Sample.staging]]).
Proof.
  eexists _, _, _. repeat split; try reflexivity.
  constructor; [|constructor].
  eexists _, _, _. repeat split; try reflexivity.
  constructor; [|constructor]. apply sample_instance_in_store.
Qed.

(** C7: a call changes no object that existed before it, whatever its
    arguments and whether it returns or raises: the store it leaves is the
    store it found, followed by the objects it allocated.  Called twice on
    the same record, the functions return twice the same outcome, the one the
    functions on values compute: equal dictionaries, the same exception, or
    lists of equal summaries, and the record is still in the store. *)
Theorem calls_leave_their_input_unchanged
    (re_search : pyvalue → pyvalue → PyResult bool) :
  (∀ h instance,
     h `prefix_of` (Heap.get_tags_from_instance instance h).2)
  ∧ (∀ h tags_filter ec2_instances,
       h `prefix_of`
         (Heap.list_instances_without_tag re_search tags_filter ec2_instances
            h).2)
  ∧ (∀ h v i,
       Repr.instance h v i →
       ∃ d1 d2 h1 h2 items,
         Heap.get_tags_from_instance v h = (Ok d1, h1)
         ∧ Heap.get_tags_from_instance v h1 = (Ok d2, h2)
         ∧ Repr.dict_at h2 d1 = Some items
         ∧ Repr.dict_at h2 d2 = Some items
         ∧ (∀ k, Repr.field items k
                 = Heap.of_pyvalue <$> (get_tags_from_instance i !! k))
         ∧ Repr.instance h2 v i)
  ∧ (∀ h f e tf resp,
       Repr.tags_filter h f tf → Repr.response h e resp →
       ∃ r1 r2 h1 h2,
         Heap.list_instances_without_tag re_search f e h = (r1, h1)
         ∧ Heap.list_instances_without_tag re_search f e h1 = (r2, h2)
         ∧ Repr.tags_filter h2 f tf
         ∧ Repr.response h2 e resp
         ∧ match list_instances_without_tag re_search tf resp with
           | Raise ex => r1 = Raise ex ∧ r2 = Raise ex
           | Ok res =>
               ∃ v1 v2, r1 = Ok v1 ∧ r2 = Ok v2
                 ∧ Repr.summaries h2 v1 res ∧ Repr.summaries h2 v2 res
           end).
Proof.
  split; [|split; [|split]].
  - intros h instance.
    eapply frames_prefix, frames_get_tags_from_instance.
  - intros h f e.
    eapply frames_prefix, frames_list_instances_without_tag.
  - intros h v i Hi.
    pose proof (run_get_tags_from_instance h v i Hi) as Hrun1.
    assert (Repr.instance (h ++ [Heap.ODict (Repr.tag_items (default [] (Tags i)))])
              v i) as Hi1.
    { eapply instance_prefix; [|done]. by apply prefix_app_r. }
    pose proof (run_get_tags_from_instance _ v i Hi1) as Hrun2.
    eexists _, _, _, _, _. split; [exact Hrun1|]. split; [exact Hrun2|].
    split; [|split; [|split]].
    + unfold Repr.dict_at.
      by rewrite (lookup_app_l_Some _ _ _ _
                    (list_lookup_middle h [] _ _ eq_refl)).
    + unfold Repr.dict_at. by rewrite list_lookup_middle.
    + apply field_tag_items.
    + eapply instance_prefix; [|done]. by apply prefix_app_r.
  - intros h f e tf resp Hf He.
    pose proof (run_list_instances_without_tag re_search h f e tf resp Hf He)
      as Hrun1.
    pose proof (frames_prefix _ _ h
                  (frames_list_instances_without_tag re_search _ f e)) as Hp1.
    cbn zeta in Hrun1.
    destruct (Heap.list_instances_without_tag re_search f e h) as [r1 h1]
      eqn:Hcall1.
    cbn [fst snd] in *.
    pose proof (dict_at_prefix _ _ _ _ Hp1 Hf) as Hf1.
    pose proof (response_prefix _ _ _ _ Hp1 He) as He1.
    pose proof (run_list_instances_without_tag re_search h1 f e tf resp Hf1 He1)
      as Hrun2.
    pose proof (frames_prefix _ _ h1
                  (frames_list_instances_without_tag re_search _ f e)) as Hp2.
    cbn zeta in Hrun2.
    destruct (Heap.list_instances_without_tag re_search f e h1) as [r2 h2]
      eqn:Hcall2.
    cbn [fst snd] in *.
    exists r1, r2, h1, h2. split; [done|]. split; [done|].
    split; [by eapply dict_at_prefix|]. split; [by eapply response_prefix|].
    destruct (list_instances_without_tag re_search tf resp) as [res|ex];
      [|done].
    destruct Hrun1 as (v1 & -> & Hs1). destruct Hrun2 as (v2 & -> & Hs2).
    exists v1, v2. split; [done|]. split; [done|].
    split; [by eapply summaries_prefix|done].
Qed.

Lemma calls_leave_their_input_unchanged_witness :
  ∃ r1 r2 h1 h2,
    Heap.list_instances_without_tag Re.search (Heap.VRef 8) (Heap.VRef 7)
      Sample.store_staging = (r1, h1)
    ∧ Heap.list_instances_without_tag Re.search (Heap.VRef 8) (Heap.VRef 7) h1
      = (r2, h2)
    ∧ Repr.tags_filter h2 (Heap.VRef 8) Sample.env_prod
    ∧ Repr.response h2 (Heap.VRef 7) (Sample.response [[Sample.staging]])
    ∧ ∃ v1 v2, r1 = Ok v1 ∧ r2 = Ok v2
        ∧ Repr.summaries h2 v1 [summary_of Sample.staging]
        ∧ Repr.summaries h2 v2 [summary_of Sample.staging].
Proof.
  apply (proj2 (proj2 (proj2 (calls_leave_their_input_unchanged Re.search)))
           Sample.store_staging (Heap.VRef 8) (Heap.VRef 7) Sample.env_prod
           (Sample.response [[Sample.staging]])).
  - reflexivity.
  - apply sample_response_in_store.
Defined.

Example run_in_store :
  Heap.list_instances_without_tag Re.search (Heap.VRef 8) (Heap.VRef 7)
    Sample.store_staging
  = (Ok (Heap.VRef 9),
     Sample.store_staging
     ++ [ Heap.OList [Heap.VRef 11];
          Heap.ODict [(Heap.VStr "Environment", Heap.VStr "staging");
                      (Heap.VStr "Name", Heap.VStr "web-1")];
          Heap.ODict [(Heap.VStr "InstanceId", Heap.VStr "i-staging");
                      (Heap.VStr "Name", Heap.VStr "web-1")] ]).
Proof. vm_compute. reflexivity. Qed.

(** * Further properties of the functions on values *)

Section MoreFilterFacts.

Variable re_search : pyvalue -> pyvalue -> PyResult bool.

Lemma instance_ids_loop_spec (instances : list Instance) (acc : list string) :
  instance_ids_loop instances acc = acc ++ map InstanceId instances.
Proof.
  revert acc. induction instances as [|i instances IH]; intros acc; cbn.
  - by rewrite app_nil_r.
  - by rewrite IH, <- app_assoc.
Qed.

Lemma reservation_ids_loop_spec (reservations : list Reservation)
    (acc : list string) :
  reservation_ids_loop reservations acc
  = acc ++ map InstanceId (flat_map Instances reservations).
Proof.
  revert acc. induction reservations as [|r reservations IH]; intros acc; cbn.
  - by rewrite app_nil_r.
  - by rewrite IH, instance_ids_loop_spec, map_app, <- app_assoc.
Qed.

Lemma get_instances_ids_spec (resp : Ec2Response) :
  get_instances_ids resp = map InstanceId (all_instances resp).
Proof. apply reservation_ids_loop_spec. Qed.

Lemma instances_loop_app (tf : list (string * pyvalue))
    (instances1 instances2 : list Instance) (acc : list Summary.t) :
  instances_loop re_search tf (instances1 ++ instances2) acc
  = acc' ← instances_loop re_search tf instances1 acc;
    instances_loop re_search tf instances2 acc'.
Proof.
  revert acc. induction instances1 as [|i instances1 IH]; intros acc; cbn;
    [done|].
  unfold_bind. destruct (are_any_filter_tags_on_instance _ _ _) as [b|e];
    [|done].
  destruct (negb b); apply IH.
Qed.

(** The two nested loops are one loop over all the instances. *)
Lemma reservations_loop_flat (tf : list (string * pyvalue))
    (reservations : list Reservation) (acc : list Summary.t) :
  reservations_loop re_search tf reservations acc
  = instances_loop re_search tf (flat_map Instances reservations) acc.
Proof.
  revert acc. induction reservations as [|r reservations IH]; intros acc; cbn;
    [done|].
  rewrite instances_loop_app. unfold_bind.
  destruct (instances_loop _ _ (Instances r) acc); [apply IH|done].
Qed.

Lemma dict_get_app_l {V : Type} (d1 d2 : list (string * V)) (k : string) :
  In k (dict_keys d1) → dict_get (d1 ++ d2) k = dict_get d1 k.
Proof.
  induction d1 as [|[k' v] d1 IH]; intros Hin; [done|].
  cbn [dict_get app]. destruct (decide (k' = k)) as [|Hne]; [done|].
  apply IH. by destruct Hin as [?|?].
Qed.

Lemma are_any_loop_ext (tf tf' : list (string * pyvalue))
    (tags : gmap string pyvalue) (keys : list string) :
  (∀ k, In k keys → dict_get tf' k = dict_get tf k) →
  are_any_filter_tags_loop re_search tf' tags keys
  = are_any_filter_tags_loop re_search tf tags keys.
Proof.
  induction keys as [|k keys IH]; intros Hext; cbn; [done|].
  rewrite Hext by (by left). unfold_bind.
  destruct (re_search _ _); [|done].
  destruct (_ && _); [done|]. apply IH. intros k' Hk'. apply Hext. by right.
Qed.

Lemma are_any_app (tf1 tf2 : list (string * pyvalue))
    (tags : gmap string pyvalue) :
  are_any_filter_tags_on_instance re_search (tf1 ++ tf2) tags
  = match are_any_filter_tags_on_instance re_search tf1 tags with
    | Ok false =>
        are_any_filter_tags_loop re_search (tf1 ++ tf2) tags (dict_keys tf2)
    | r => r
    end.
Proof.
  unfold are_any_filter_tags_on_instance, dict_keys.
  rewrite map_app, are_any_loop_app.
  rewrite (are_any_loop_ext tf1 (tf1 ++ tf2)); [done|].
  intros k Hk. by apply dict_get_app_l.
Qed.

Lemma spec_is_tagged_app_l (tf1 tf2 : list (string * pyvalue))
    (tags : gmap string pyvalue) :
  spec_is_tagged re_search tf1 tags = true →
  spec_is_tagged re_search (tf1 ++ tf2) tags = true.
Proof.
  rewrite !spec_is_tagged_iff. intros (k & p & Hget & Hm).
  exists k, p. split; [|done]. rewrite dict_get_app_l; [done|].
  apply dict_get_keys. by exists p.
Qed.

Lemma filter_sublist_weaker {A : Type} (f g : A → bool) (l : list A) :
  (∀ x, f x = true → g x = true) → List.filter f l `sublist_of` List.filter g l.
Proof.
  intros Hfg. induction l as [|x l IH]; cbn; [constructor|].
  destruct (f x) eqn:Hf.
  - rewrite (Hfg x Hf). by constructor.
  - destruct (g x); [by constructor|done].
Qed.

Lemma sublist_map {A B : Type} (f : A → B) (l1 l2 : list A) :
  l1 `sublist_of` l2 → map f l1 `sublist_of` map f l2.
Proof. induction 1; cbn; by constructor. Qed.

End MoreFilterFacts.

(** * The claim about errors in the filter *)

Section FilterErrors.

Variable re_search : pyvalue -> pyvalue -> PyResult bool.

(** The loop over the instances stops at the first instance for which the
    test raises. *)
Lemma instances_loop_raises (tf : list (string * pyvalue))
    (before : list Instance) (instance : Instance) (after : list Instance)
    (acc : list Summary.t) (e : PyExc) :
  (∀ i, In i before → ∃ b,
     are_any_filter_tags_on_instance re_search tf (get_tags_from_instance i)
       = Ok b) →
  are_any_filter_tags_on_instance re_search tf
    (get_tags_from_instance instance) = Raise e →
  instances_loop re_search tf (before ++ instance :: after) acc = Raise e.
Proof.
  intros Hbefore Hraise. revert acc.
  induction before as [|i before IH]; intros acc; cbn.
  - by rewrite Hraise.
  - destruct (Hbefore i) as [b ->]; [by left|]. unfold_bind.
    destruct (negb b); apply IH; intros i' Hi'; apply Hbefore; by right.
Qed.

Lemma instances_loop_never_returns (tf : list (string * pyvalue))
    (instances : list Instance) (instance : Instance)
    (acc : list Summary.t) (e : PyExc) :
  In instance instances →
  are_any_filter_tags_on_instance re_search tf
    (get_tags_from_instance instance) = Raise e →
  ∃ e', instances_loop re_search tf instances acc = Raise e'.
Proof.
  intros Hin Hraise. revert acc.
  induction instances as [|i instances IH]; intros acc; [done|]. cbn.
  destruct (are_any_filter_tags_on_instance re_search tf
              (get_tags_from_instance i)) as [b|e0] eqn:Hi; unfold_bind.
  - destruct Hin as [->|Hin]; [congruence|].
    destruct (negb b); by apply IH.
  - by exists e0.
Qed.

End FilterErrors.

Section MalformedRecord.

Import Heap.

Variable re_search : pyvalue -> pyvalue -> PyResult bool.

Ltac run_head := repeat (rewrite run_bind; cbn beta).
Ltac run_next := cbn beta iota.
Ltac run_step lem := run_head; rewrite lem; run_next.

(** [for tag in instance['Tags']] with ['Tags'] bound to [None]. *)
Lemma run_get_tags_of_none (h : store) (l : loc) (items : list (val * val)) :
  h !! l = Some (ODict items) →
  Repr.field items "Tags" = Some VNone →
  Heap.get_tags_from_instance (VRef l) h = (Raise TypeError, h ++ [ODict []]).
Proof.
  intros Hl Hfield. unfold Heap.get_tags_from_instance.
  assert (Repr.dict_at (h ++ [ODict []]) (VRef l) = Some items) as Hat.
  { unfold Repr.dict_at. by rewrite (lookup_app_l_Some _ _ _ _ Hl). }
  run_step run_new.
  run_step (run_contains _ _ "Tags" _ Hat).
  rewrite bool_decide_eq_true_2 by (rewrite Hfield; eauto).
  run_step (run_getitem _ _ _ _ _ Hat Hfield).
  reflexivity.
Qed.

Lemma run_list_instances_of_none (h : store) (f e r : val)
    (items ritems iitems : list (val * val)) (rv iv : val)
    (rvs ivs : list val) (li : loc) :
  Repr.dict_at h e = Some items →
  Repr.field items "Reservations" = Some rv →
  Repr.list_at h rv = Some (r :: rvs) →
  Repr.dict_at h r = Some ritems →
  Repr.field ritems "Instances" = Some iv →
  Repr.list_at h iv = Some (VRef li :: ivs) →
  h !! li = Some (ODict iitems) →
  Repr.field iitems "Tags" = Some VNone →
  (Heap.list_instances_without_tag re_search f e h).1 = Raise TypeError.
Proof.
  intros He Hres Hrv Hr Hinst Hiv Hli Htags.
  assert (h `prefix_of` h ++ [OList []]) as Hp
    by apply prefix_app_r, reflexivity.
  eapply dict_at_prefix in He; [|exact Hp].
  eapply list_at_prefix in Hrv; [|exact Hp].
  eapply dict_at_prefix in Hr; [|exact Hp].
  eapply list_at_prefix in Hiv; [|exact Hp].
  unfold Heap.list_instances_without_tag.
  run_step run_new.
  run_step (run_getitem _ _ _ _ _ He Hres).
  run_step (run_iterate _ _ _ Hrv).
  rewrite for_each_cons.
  run_step (run_getitem _ _ _ _ _ Hr Hinst).
  run_step (run_iterate _ _ _ Hiv).
  rewrite for_each_cons.
  run_head.
  erewrite run_get_tags_of_none;
    [reflexivity|by apply lookup_app_l_Some|exact Htags].
Qed.

End MalformedRecord.

(** C2 (as amended): when every pattern of the mapping is accepted by
    [re.search] the filter returns, on every response made of records of
    the data model, also run on the store that holds them; a pattern
    [re.search] rejects is not turned into "no match": the exception leaves
    [are_any_filter_tags_on_instance] as soon as the loop reaches that
    criterion, and it leaves [list_instances_without_tag], on a response of
    any number of instances, at the first instance for which the test
    raises.  A record whose ['Tags'] is [None] instead of a list is no
    record of the data model: the filter raises [TypeError] on it. *)
Theorem filter_raises_what_re_search_raises
    (re_search : pyvalue → pyvalue → PyResult bool)
    (tags_filter : list (string * pyvalue)) :
  (patterns_ok re_search tags_filter →
   (∀ ec2_instances, ∃ res,
      list_instances_without_tag re_search tags_filter ec2_instances = Ok res)
   ∧ (∀ instances_tags, no_none instances_tags → ∃ b,
        are_any_filter_tags_on_instance re_search tags_filter instances_tags
          = Ok b)
   ∧ (∀ h f e ec2_instances,
        Repr.tags_filter h f tags_filter →
        Repr.response h e ec2_instances →
        ∃ v, (Heap.list_instances_without_tag re_search f e h).1 = Ok v))
  ∧ (∀ instances_tags keys1 k keys2 e,
       dict_keys tags_filter = keys1 ++ k :: keys2 →
       are_any_filter_tags_loop re_search tags_filter instances_tags keys1
         = Ok false →
       re_search (default PyNone (dict_get tags_filter k))
                 (default (PyStr "") (instances_tags !! k)) = Raise e →
       are_any_filter_tags_on_instance re_search tags_filter instances_tags
         = Raise e)
  ∧ (∀ ec2_instances before instance after e,
       all_instances ec2_instances = before ++ instance :: after →
       (∀ i, In i before → ∃ b,
          are_any_filter_tags_on_instance re_search tags_filter
            (get_tags_from_instance i) = Ok b) →
       are_any_filter_tags_on_instance re_search tags_filter
         (get_tags_from_instance instance) = Raise e →
       list_instances_without_tag re_search tags_filter ec2_instances
         = Raise e
       ∧ ∀ h f r,
           Repr.tags_filter h f tags_filter →
           Repr.response h r ec2_instances →
           (Heap.list_instances_without_tag re_search f r h).1 = Raise e)
  ∧ (∀ ec2_instances instance e,
       In instance (all_instances ec2_instances) →
       are_any_filter_tags_on_instance re_search tags_filter
         (get_tags_from_instance instance) = Raise e →
       ∃ e', list_instances_without_tag re_search tags_filter ec2_instances
             = Raise e')
  ∧ (∀ h f e items rv r rvs ritems iv li ivs iitems,
       Repr.dict_at h e = Some items →
       Repr.field items "Reservations" = Some rv →
       Repr.list_at h rv = Some (r :: rvs) →
       Repr.dict_at h r = Some ritems →
       Repr.field ritems "Instances" = Some iv →
       Repr.list_at h iv = Some (Heap.VRef li :: ivs) →
       h !! li = Some (Heap.ODict iitems) →
       Repr.field iitems "Tags" = Some Heap.VNone →
       (Heap.list_instances_without_tag re_search f e h).1
         = Raise TypeError).
Proof.
  split; [|split; [|split; [|split]]].
  - intros Hok. split; [|split].
    + intros resp. eexists. by apply list_instances_without_tag_total.
    + intros tags Hnn. by apply are_any_total.
    + intros h f e resp Hf He.
      pose proof (run_list_instances_without_tag re_search h f e tags_filter
                    resp Hf He) as Hrun. cbn zeta in Hrun.
      rewrite (list_instances_without_tag_total re_search tags_filter resp Hok)
        in Hrun.
      destruct Hrun as (v & Hv & _). by exists v.
  - intros tags keys1 k keys2 e Hkeys Hpre Hraise.
    unfold are_any_filter_tags_on_instance.
    rewrite Hkeys, are_any_loop_app, Hpre. cbn. by rewrite Hraise.
  - intros resp before instance after e Hall Hbefore Hraise.
    assert (list_instances_without_tag re_search tags_filter resp = Raise e)
      as Hvalue.
    { unfold list_instances_without_tag. rewrite reservations_loop_flat.
      unfold all_instances in Hall. rewrite Hall.
      by apply instances_loop_raises. }
    split; [done|]. intros h f r Hf Hr.
    pose proof (run_list_instances_without_tag re_search h f r tags_filter
                  resp Hf Hr) as Hrun. cbn zeta in Hrun.
    by rewrite Hvalue in Hrun.
  - intros resp instance e Hin Hraise.
    unfold list_instances_without_tag. rewrite reservations_loop_flat.
    by eapply instances_loop_never_returns.
  - intros h f e items rv r rvs ritems iv li ivs iitems.
    apply run_list_instances_of_none.
Qed.

Lemma filter_raises_what_re_search_raises_witness :
  (∃ res, list_instances_without_tag Re.search Sample.env_prod
            (Sample.response [[Sample.staging; Sample.prod]]) = Ok res)
  ∧ list_instances_without_tag Re.search Demo.team_then_malformed
      (Sample.response [[Sample.team; Sample.bare]]) = Raise ReError.
Proof.
  split.
  - apply (filter_raises_what_re_search_raises Re.search Sample.env_prod).
    apply Re_patterns_ok. reflexivity.
  - apply (proj1 (proj2 (proj2 (filter_raises_what_re_search_raises
                                  Re.search Demo.team_then_malformed)))
             (Sample.response [[Sample.team; Sample.bare]])
             [Sample.team] Sample.bare [] ReError).
    + reflexivity.
    + intros i [<-|[]]. exists true. vm_compute. reflexivity.
    + vm_compute. reflexivity.
Defined.

(** C2 as stated fails: a missing ([None]) pattern raises [TypeError] and a
    malformed one raises [re.error], also for an instance without tags. *)
Lemma rejected_pattern_raises :
  list_instances_without_tag Re.search Sample.owner_none
    (Sample.response [[Sample.bare]]) = Raise TypeError
  ∧ list_instances_without_tag Re.search Sample.owner_malformed
      (Sample.response [[Sample.bare]]) = Raise ReError.
Proof. split; vm_compute; reflexivity. Qed.

(** X1: the identifiers [list_instances_without_tag] reports are, in order,
    a subsequence of the identifiers [get_instances_ids] returns for the
    same response; without criteria they are all of them. *)
Theorem reported_ids_among_instance_ids
    (re_search : pyvalue → pyvalue → PyResult bool)
    (ec2_instances : Ec2Response) :
  get_instances_ids ec2_instances
    = map InstanceId (all_instances ec2_instances)
  ∧ (∀ tags_filter res,
       list_instances_without_tag re_search tags_filter ec2_instances = Ok res →
       map Summary.InstanceId res `sublist_of` get_instances_ids ec2_instances)
  ∧ (∃ res,
       list_instances_without_tag re_search [] ec2_instances = Ok res
       ∧ map Summary.InstanceId res = get_instances_ids ec2_instances).
Proof.
  split; [apply get_instances_ids_spec|]. split.
  - intros tf res Hres. apply list_instances_without_tag_spec in Hres as ->.
    rewrite get_instances_ids_spec. unfold spec_find_untagged.
    rewrite map_map. cbn. apply sublist_map, filter_sublist.
  - eexists. split.
    + apply list_instances_without_tag_total. by intros ? ? [=].
    + rewrite get_instances_ids_spec. unfold spec_find_untagged.
      rewrite filter_all by done. by rewrite map_map.
Qed.

(** X2: the report depends on the instances only, not on how the response
    groups them into reservations; this includes the exception raised, if
    any. *)
Theorem grouping_into_reservations_is_irrelevant
    (re_search : pyvalue → pyvalue → PyResult bool)
    (tags_filter : list (string * pyvalue)) (response1 response2 : Ec2Response) :
  all_instances response1 = all_instances response2 →
  list_instances_without_tag re_search tags_filter response1
  = list_instances_without_tag re_search tags_filter response2.
Proof.
  intros Hsame. unfold list_instances_without_tag.
  rewrite !reservations_loop_flat. unfold all_instances in Hsame.
  by rewrite Hsame.
Qed.

Lemma grouping_into_reservations_is_irrelevant_witness :
  list_instances_without_tag Re.search Sample.env_prod Demo.everyone
  = list_instances_without_tag Re.search Sample.env_prod Demo.regrouped.
Proof.
  apply (grouping_into_reservations_is_irrelevant Re.search Sample.env_prod
           Demo.everyone Demo.regrouped).
  reflexivity.
Defined.

(** X3: once a criterion has matched, the criteria that follow it are not
    evaluated: a pattern [re.search] would reject raises nothing when it
    comes after a criterion that matches. *)
Theorem match_hides_later_criteria
    (re_search : pyvalue → pyvalue → PyResult bool)
    (criteria1 criteria2 : list (string * pyvalue))
    (instances_tags : gmap string pyvalue) :
  are_any_filter_tags_on_instance re_search criteria1 instances_tags = Ok true →
  are_any_filter_tags_on_instance re_search (criteria1 ++ criteria2)
    instances_tags = Ok true.
Proof. intros H. by rewrite are_any_app, H. Qed.

Lemma match_hides_later_criteria_witness :
  are_any_filter_tags_on_instance Re.search Demo.team_then_malformed
    (get_tags_from_instance Sample.team) = Ok true.
Proof.
  apply (match_hides_later_criteria Re.search
           [("Team", PyStr ".*")] [("Owner", PyStr "*")]).
  vm_compute. reflexivity.
Defined.

(** X4: adding criteria never adds an instance to the report: the report
    for the longer mapping is a subsequence of the report for the shorter
    one. *)
Theorem more_criteria_fewer_reports
    (re_search : pyvalue → pyvalue → PyResult bool)
    (criteria1 criteria2 : list (string * pyvalue))
    (ec2_instances : Ec2Response) (res1 res12 : list Summary.t) :
  list_instances_without_tag re_search criteria1 ec2_instances = Ok res1 →
  list_instances_without_tag re_search (criteria1 ++ criteria2) ec2_instances
    = Ok res12 →
  res12 `sublist_of` res1.
Proof.
  intros H1 H12.
  apply list_instances_without_tag_spec in H1 as ->.
  apply list_instances_without_tag_spec in H12 as ->.
  unfold spec_find_untagged. apply sublist_map, filter_sublist_weaker.
  intros i. rewrite !negb_true_iff. intros Hno.
  apply not_true_is_false. intros Hyes.
  apply (spec_is_tagged_app_l _ _ criteria2) in Hyes. congruence.
Qed.

Lemma more_criteria_fewer_reports_witness :
  [summary_of Sample.staging; summary_of Sample.bare]
    `sublist_of`
  [summary_of Sample.staging; summary_of Sample.bare; summary_of Sample.team].
Proof.
  apply (more_criteria_fewer_reports Re.search
           Sample.env_prod [("Team", PyStr ".*")] Demo.everyone).
  - vm_compute. reflexivity.
  - vm_compute. reflexivity.
Defined.

Lemma dict_get_In_nodup {V : Type} (d : list (string * V)) (k : string)
    (v : V) :
  NoDup (dict_keys d) → dict_get d k = Some v ↔ In (k, v) d.
Proof.
  induction d as [|[k' v'] d IH]; intros Hnd; [by split|].
  apply NoDup_cons in Hnd as [Hfresh Hnd]. cbn [dict_get].
  destruct (decide (k' = k)) as [->|Hne].
  - split; [intros [= ->]; by left|].
    intros [[= ->]|Hin]; [done|]. exfalso. apply Hfresh.
    apply list_elem_of_In. by apply (in_map fst) in Hin.
  - rewrite IH by done. split; [by right|].
    intros [[= -> ->]|Hin]; done.
Qed.

Lemma some_criterion_matches_perm
    (re_search : pyvalue → pyvalue → PyResult bool)
    (tf tf' : list (string * pyvalue)) (tags : gmap string pyvalue) :
  NoDup (dict_keys tf) → tf ≡ₚ tf' →
  some_criterion_matches re_search tf tags →
  some_criterion_matches re_search tf' tags.
Proof.
  intros Hnd Hperm (k & p & Hget & Hm). exists k, p. split; [|done].
  apply dict_get_In_nodup.
  - unfold dict_keys. by rewrite <- Hperm.
  - apply dict_get_In_nodup in Hget; [|done].
    apply list_elem_of_In. rewrite <- Hperm. by apply list_elem_of_In.
Qed.

(** X5: for a dictionary of patterns [re.search] accepts, the report does
    not depend on the order in which the dictionary lists its keys. *)
Theorem criteria_order_is_irrelevant
    (re_search : pyvalue → pyvalue → PyResult bool)
    (criteria criteria' : list (string * pyvalue))
    (ec2_instances : Ec2Response) :
  NoDup (dict_keys criteria) →
  criteria ≡ₚ criteria' →
  patterns_ok re_search criteria →
  list_instances_without_tag re_search criteria' ec2_instances
  = list_instances_without_tag re_search criteria ec2_instances.
Proof.
  intros Hnd Hperm Hok.
  assert (NoDup (dict_keys criteria')) as Hnd'.
  { unfold dict_keys. by rewrite <- Hperm. }
  assert (patterns_ok re_search criteria') as Hok'.
  { intros k p Hget. apply (Hok k p).
    apply dict_get_In_nodup; [done|]. apply dict_get_In_nodup in Hget; [|done].
    apply list_elem_of_In. rewrite Hperm. by apply list_elem_of_In. }
  rewrite !list_instances_without_tag_total by done. f_equal.
  unfold spec_find_untagged. f_equal. apply List.filter_ext. intros i.
  f_equal. apply eq_true_iff_eq. rewrite !spec_is_tagged_iff.
  split; apply some_criterion_matches_perm; done.
Qed.

Lemma criteria_order_is_irrelevant_witness :
  list_instances_without_tag Re.search Demo.team_or_owner Demo.everyone
  = list_instances_without_tag Re.search Sample.owner_or_team Demo.everyone.
Proof.
  apply (criteria_order_is_irrelevant Re.search Sample.owner_or_team
           Demo.team_or_owner Demo.everyone).
  - unfold dict_keys. cbn. apply NoDup_cons_2; [|apply NoDup_singleton].
    by intros ?%list_elem_of_singleton.
  - apply perm_swap.
  - apply Re_patterns_ok. reflexivity.
Defined.

Lemma last_set_value_perm (k : string) (tags tags' : list Tag) :
  NoDup (map Key tags) → tags ≡ₚ tags' →
  last_set_value k tags' = last_set_value k tags.
Proof.
  intros Hnd Hperm.
  assert (NoDup (map Key tags')) as Hnd' by (by rewrite <- Hperm).
  destruct (last_set_value k tags) as [v|] eqn:Hl.
  - pose proof (last_set_value_set _ _ _ Hl) as Hset.
    apply last_set_value_Some in Hl as (t & Hin & <- & <-).
    apply last_set_value_nodup; [done| |done].
    apply list_elem_of_In. rewrite <- Hperm. by apply list_elem_of_In.
  - apply last_set_value_None. intros t Hin Hk.
    eapply last_set_value_None in Hl; [done| |done].
    apply list_elem_of_In. rewrite Hperm. by apply list_elem_of_In.
Qed.

(** X6: when no name is repeated, the tag map does not depend on the order
    of the tag list. *)
Theorem tag_order_is_irrelevant (id id' : string) (tags tags' : list Tag) :
  NoDup (map Key tags) →
  tags ≡ₚ tags' →
  get_tags_from_instance {| InstanceId := id'; Tags := Some tags' |}
  = get_tags_from_instance {| InstanceId := id; Tags := Some tags |}.
Proof.
  intros Hnd Hperm. apply map_eq. intros k. rewrite !get_tags_lookup. cbn.
  by apply last_set_value_perm.
Qed.

Lemma tag_order_is_irrelevant_witness :
  get_tags_from_instance
    {| InstanceId := "i-other";
       Tags := Some [Sample.tag "Name" "web-1";
                     Sample.tag "Environment" "staging"] |}
  = get_tags_from_instance Sample.staging.
Proof.
  apply (tag_order_is_irrelevant "i-staging" "i-other"
           [Sample.tag "Environment" "staging"; Sample.tag "Name" "web-1"]).
  - cbn. apply NoDup_cons_2; [|apply NoDup_singleton].
    by intros ?%list_elem_of_singleton.
  - apply perm_swap.
Defined.

(** * Footprint of the functions of module [Proc] *)

Section ProcFootprint.

Import Heap Proc.

Lemma framesP_ret {A : Type} (n : nat) (a : A) (Q : A → Prop) :
  Q a → framesP n (mret a) Q.
Proof.
  intros HQ h Hn. cbn. split; [done|]. split; [done|]. by intros ? [= <-].
Qed.

Lemma framesP_throw {A : Type} (n : nat) (x : exc) (Q : A → Prop) :
  framesP n (throw x) Q.
Proof. intros h Hn. cbn. by repeat split. Qed.

Lemma framesP_bind {A B : Type} (n : nat) (m : P A) (k : A → P B)
    (Q : A → Prop) (R : B → Prop) :
  framesP n m Q → (∀ a, Q a → framesP n (k a) R) → framesP n (m ≫= k) R.
Proof.
  intros Hm Hk h Hn. destruct (Hm h Hn) as (Htake & Hlen & HQ).
  unfold mbind, P_bind. destruct (m h) as [[a|x] h']; cbn in *.
  - destruct (Hk a (HQ a eq_refl) h') as (Htake' & Hlen' & HR); [lia|].
    split; [congruence|]. split; [lia|done].
  - by repeat split.
Qed.

Lemma framesP_lift {A : Type} (n : nat) (m : M A) (Q : A → Prop) :
  frames n m Q → framesP n (lift m) Q.
Proof.
  intros Hm h Hn. destruct (Hm h Hn) as (Htake & Hlen & HQ). unfold lift.
  destruct (m h) as [[a|e] h']; cbn in *; repeat split; try done.
  intros ? [= <-]. by apply HQ.
Qed.

Lemma framesP_true {A : Type} (n : nat) (m : P A) (Q : A → Prop) :
  framesP n m Q → framesP n m (fun _ => True).
Proof. intros Hm h Hn. destruct (Hm h Hn) as (? & ? & _). done. Qed.

Lemma framesP_try_except {A : Type} (n : nat) (body handler : P A)
    (Q : A → Prop) :
  framesP n body Q → framesP n handler Q → framesP n (try_except body handler) Q.
Proof.
  intros Hb Hh h Hn. destruct (Hb h Hn) as (Htake & Hlen & HQ).
  unfold try_except. destruct (body h) as [[a|x] h']; cbn in *; [done|].
  destruct (is_exception x); [|by repeat split].
  destruct (Hh h') as (Htake' & Hlen' & HQ'); [lia|].
  split; [congruence|]. split; [lia|done].
Qed.

Lemma framesP_for_each (n : nat) (xs : list val) (body : val → P unit) :
  (∀ x, framesP n (body x) (fun _ => True)) →
  framesP n (for_each xs body) (fun _ => True).
Proof.
  intros Hbody. induction xs as [|x xs IH]; cbn.
  - by apply framesP_ret.
  - eapply framesP_bind; [apply Hbody|]. intros ? _. apply IH.
Qed.

Lemma framesP_store_items (n : nat) (self : val) (items : list (val * val)) :
  fresh_ref n self → framesP n (store_items self items) (fun _ => True).
Proof.
  intros Hself. induction items as [|[k v] items IH]; cbn.
  - by apply framesP_ret.
  - eapply framesP_bind; [by apply framesP_lift, frames_setitem|].
    intros ? _. apply IH.
Qed.

Lemma framesP_as_pair (n : nat) (elem : val) :
  framesP n (as_pair elem) (fun _ => True).
Proof.
  unfold as_pair. eapply framesP_bind; [apply framesP_lift, frames_iterate|].
  intros [|k [|v [|? ?]]] _; try apply framesP_throw. by apply framesP_ret.
Qed.

Lemma framesP_update_from_pairs (n : nat) (self : val) (elems : list val) :
  fresh_ref n self → framesP n (update_from_pairs self elems) (fun _ => True).
Proof.
  intros Hself. apply framesP_for_each. intros elem.
  eapply framesP_bind; [apply framesP_as_pair|]. intros kv _.
  by apply framesP_lift, frames_setitem.
Qed.

Lemma frames_require_dict (n : nat) (self : val) :
  frames n (require_dict self) (fun _ => True).
Proof.
  unfold require_dict.
  destruct self; try apply frames_raise.
  eapply frames_bind; [apply frames_read|].
  intros [?|?] _; [by apply frames_ret|apply frames_raise].
Qed.

Lemma frames_require_list (n : nat) (self : val) :
  frames n (require_list self) (fun _ => True).
Proof.
  unfold require_list.
  destruct self; try apply frames_raise.
  eapply frames_bind; [apply frames_read|].
  intros [?|?] _; [apply frames_raise|by apply frames_ret].
Qed.

Lemma framesP_update_method (n : nat) (self other : val) :
  fresh_ref n self → framesP n (update_method self other) (fun _ => True).
Proof.
  intros Hself. unfold update_method.
  eapply framesP_bind; [apply framesP_lift, frames_require_dict|].
  intros ? _. destruct other as [| |l].
  - eapply framesP_bind; [apply framesP_lift, frames_iterate|].
    intros elems _. by apply framesP_update_from_pairs.
  - eapply framesP_bind; [apply framesP_lift, frames_iterate|].
    intros elems _. by apply framesP_update_from_pairs.
  - eapply framesP_bind; [apply framesP_lift, frames_read|].
    intros [items|elems] _;
      [by apply framesP_store_items|by apply framesP_update_from_pairs].
Qed.

Lemma frames_name_values (n : nat) (name value : val) :
  frames n (name_values name value) (fresh_ref n).
Proof.
  unfold name_values.
  eapply frames_bind; [apply frames_new|]. intros d Hd.
  eapply frames_bind; [by apply frames_setitem|]. intros ? _.
  eapply frames_bind; [apply frames_new|]. intros values _.
  eapply frames_bind; [by apply frames_setitem|]. intros ? _.
  by apply frames_ret.
Qed.

Lemma framesP_get_instances_ids (n : nat) (ec2_instances : val) :
  framesP n (get_instances_ids ec2_instances) (fresh_ref n).
Proof.
  unfold get_instances_ids.
  eapply framesP_bind; [apply framesP_lift, frames_new|]. intros ids Hids.
  eapply framesP_bind; [apply framesP_lift, frames_getitem|]. intros ? _.
  eapply framesP_bind; [apply framesP_lift, frames_iterate|]. intros rs _.
  eapply framesP_bind with (Q := fun _ => True);
    [|intros ? _; by apply framesP_ret].
  apply framesP_for_each. intros reservation.
  eapply framesP_bind; [apply framesP_lift, frames_getitem|]. intros ? _.
  eapply framesP_bind; [apply framesP_lift, frames_iterate|]. intros elems _.
  apply framesP_for_each. intros instance.
  eapply framesP_bind; [apply framesP_lift, frames_getitem|]. intros id _.
  by apply framesP_lift, frames_append_method.
Qed.

Lemma framesP_get_instances_data_list (n : nat) (ec2_instances : val) :
  framesP n (get_instances_data ec2_instances false) (fresh_ref n).
Proof.
  unfold get_instances_data.
  eapply framesP_bind; [apply framesP_lift, frames_new|]. intros l Hl.
  eapply framesP_bind; [apply framesP_lift, frames_getitem|]. intros ? _.
  eapply framesP_bind; [apply framesP_lift, frames_iterate|]. intros rs _.
  eapply framesP_bind with (Q := fun _ => True);
    [|intros ? _; by apply framesP_ret].
  apply framesP_for_each. intros reservation.
  eapply framesP_bind; [apply framesP_lift, frames_getitem|]. intros ? _.
  eapply framesP_bind; [apply framesP_lift, frames_iterate|]. intros elems _.
  apply framesP_for_each. intros instance.
  eapply framesP_bind; [apply framesP_lift, frames_new|]. intros data Hdata.
  eapply framesP_bind;
    [apply framesP_lift, frames_get_tags_from_instance|]. intros tags _.
  eapply framesP_bind; [by apply framesP_update_method|]. intros ? _.
  eapply framesP_bind; [by apply framesP_update_method|]. intros ? _.
  by apply framesP_lift, frames_append_method.
Qed.

Lemma framesP_prefix {A : Type} (m : P A) (Q : A → Prop) (h : store) :
  framesP (length h) m Q → h `prefix_of` (m h).2.
Proof.
  intros Hm. destruct (Hm h) as (Htake & _); [done|].
  rewrite firstn_all in Htake.
  pose proof (prefix_take (m h).2 (length h)) as Hp. by rewrite Htake in Hp.
Qed.

End ProcFootprint.

(** X7: [get_instances_ids], and [get_instances_data] called without
    [filter_by_state], change no object that existed before the call,
    whatever their argument and whether they return or raise: the store
    they leave is the store they found followed by the objects they
    allocated, and the list they return is one of those. *)
Theorem collectors_leave_the_response_unchanged (h : list Heap.obj)
    (ec2_instances : Heap.val) :
  h `prefix_of` (Proc.get_instances_ids ec2_instances h).2
  ∧ h `prefix_of` (Proc.get_instances_data ec2_instances false h).2
  ∧ (∀ v, (Proc.get_instances_ids ec2_instances h).1 = Proc.Returned v →
          fresh_ref (length h) v)
  ∧ (∀ v, (Proc.get_instances_data ec2_instances false h).1
            = Proc.Returned v →
          fresh_ref (length h) v).
Proof.
  split; [eapply framesP_prefix, framesP_get_instances_ids|].
  split; [eapply framesP_prefix, framesP_get_instances_data_list|].
  split.
  - by apply (framesP_get_instances_ids (length h) ec2_instances h).
  - by apply (framesP_get_instances_data_list (length h) ec2_instances h).
Qed.

(** * Running the functions of module [Proc] *)

Section ProcRuns.

Local Abbreviation value_get_instances_ids := get_instances_ids.

Import Heap Proc.

Lemma prun_bind {A B : Type} (m : P A) (k : A → P B) (h : store) :
  (m ≫= k) h =
    match m h with
    | (Returned a, h') => k a h'
    | (Thrown x, h') => (Thrown x, h')
    end.
Proof. reflexivity. Qed.

Lemma prun_ret {A : Type} (a : A) (h : store) :
  (mret a : P A) h = (Returned a, h).
Proof. reflexivity. Qed.

Lemma run_lift {A : Type} (m : M A) (h h' : store) (a : A) :
  m h = (Ok a, h') → lift m h = (Returned a, h').
Proof. intros Hm. unfold lift. by rewrite Hm. Qed.

Lemma run_lift_raise {A : Type} (m : M A) (h h' : store) (e : PyExc) :
  m h = (Raise e, h') → lift m h = (Thrown (Exc e), h').
Proof. intros Hm. unfold lift. by rewrite Hm. Qed.

Lemma pfor_each_cons (x : val) (xs : list val) (body : val → P unit) :
  for_each (x :: xs) body = (body x;; for_each xs body).
Proof. reflexivity. Qed.

Ltac prun_head := repeat (rewrite prun_bind; cbn beta).
Ltac prun_next := cbn beta iota.
Ltac prun_lift lem :=
  prun_head; erewrite run_lift; [|apply lem]; prun_next.

Lemma run_ids_instances (h : store) (elems : list val)
    (instances : list Instance) (acc : list val) :
  Forall2 (Repr.instance h) elems instances →
  for_each elems
    (fun instance =>
       instance_id ← lift (getitem instance "InstanceId");
       lift (append_method (VRef (length h)) instance_id))
    (h ++ [OList acc])
  = (Returned (),
     h ++ [OList (acc ++ map (fun i => VStr (InstanceId i)) instances)]).
Proof.
  intros Hall. revert acc.
  induction Hall as [|v i elems instances Hv Hall IH]; intros acc.
  - cbn. by rewrite app_nil_r.
  - rewrite pfor_each_cons.
    destruct Hv as (items & Hd & Hid & _).
    eapply dict_at_prefix in Hd; [|by apply (prefix_app_r h h [OList acc])].
    prun_lift (run_getitem _ _ _ _ _ Hd Hid).
    prun_head. erewrite run_lift;
      [|apply run_append_method; by apply list_lookup_middle].
    prun_next. rewrite insert_app_r_alt by done. rewrite Nat.sub_diag.
    cbn [insert list_insert map]. rewrite IH. by rewrite <- app_assoc.
Qed.

Lemma run_ids_reservations (h : store) (elems : list val)
    (reservations : list Reservation) (acc : list val) :
  Forall2 (Repr.reservation h) elems reservations →
  for_each elems
    (fun reservation =>
       instances ← lift (getitem reservation "Instances");
       instances ← lift (iterate instances);
       for_each instances (fun instance =>
         instance_id ← lift (getitem instance "InstanceId");
         lift (append_method (VRef (length h)) instance_id)))
    (h ++ [OList acc])
  = (Returned (),
     h ++ [OList (acc ++ map (fun i => VStr (InstanceId i))
                           (flat_map Instances reservations))]).
Proof.
  intros Hall. revert acc.
  induction Hall as [|v r elems reservations Hv Hall IH]; intros acc.
  - cbn. by rewrite app_nil_r.
  - rewrite pfor_each_cons.
    destruct Hv as (items & iv & ielems & Hd & Hfield & Hlist & Hinstances).
    eapply dict_at_prefix in Hd; [|by apply (prefix_app_r h h [OList acc])].
    eapply list_at_prefix in Hlist;
      [|by apply (prefix_app_r h h [OList acc])].
    prun_lift (run_getitem _ _ _ _ _ Hd Hfield).
    prun_lift (run_iterate _ _ _ Hlist).
    rewrite (run_ids_instances h ielems (Instances r) acc Hinstances).
    prun_next. rewrite IH. cbn [flat_map]. by rewrite map_app, app_assoc.
Qed.

Lemma run_get_instances_ids (h : store) (e : val) (resp : Ec2Response) :
  Repr.response h e resp →
  Proc.get_instances_ids e h
  = (Returned (VRef (length h)),
     h ++ [OList (map VStr (value_get_instances_ids resp))]).
Proof.
  intros (items & rv & elems & Hd & Hfield & Hlist & Hall).
  assert (h `prefix_of` h ++ [OList []]) as Hp by apply prefix_app_r, reflexivity.
  eapply dict_at_prefix in Hd; [|exact Hp].
  eapply list_at_prefix in Hlist; [|exact Hp].
  unfold Proc.get_instances_ids.
  prun_lift run_new.
  prun_lift (run_getitem _ _ _ _ _ Hd Hfield).
  prun_lift (run_iterate _ _ _ Hlist).
  prun_head. rewrite (run_ids_reservations h elems (Reservations resp) [] Hall).
  prun_next. rewrite prun_ret. cbn [app].
  by rewrite get_instances_ids_spec, map_map.
Qed.

Lemma run_getitem_missing (h : store) (c : val) (k : string)
    (items : list (val * val)) :
  Repr.dict_at h c = Some items → Repr.field items k = None →
  getitem c k h = (Raise (KeyError k), h).
Proof.
  unfold Repr.dict_at, Repr.field, getitem. intros Hd Hk.
  destruct c as [| |l]; try done. unfold mbind, M_bind, read.
  destruct (h !! l) as [[its|]|]; try done. injection Hd as ->.
  by rewrite Hk.
Qed.

End ProcRuns.

(** X8: on a store that holds a response, [get_instances_ids] returns a
    new list that holds the identifiers of the instances in the order the
    loops visit them, the list the function on values computes; a response
    dictionary without a ["Reservations"] key raises [KeyError]. *)
Theorem get_instances_ids_in_store (h : list Heap.obj) (e : Heap.val) :
  (∀ response,
     Repr.response h e response →
     Proc.get_instances_ids e h
     = (Proc.Returned (Heap.VRef (length h)),
        h ++ [Heap.OList (map Heap.VStr (get_instances_ids response))]))
  ∧ (∀ items,
       Repr.dict_at h e = Some items →
       Repr.field items "Reservations" = None →
       (Proc.get_instances_ids e h).1
       = Proc.Thrown (Proc.Exc (KeyError "Reservations"))).
Proof.
  split; [apply run_get_instances_ids|].
  intros items Hd Hfield. unfold Proc.get_instances_ids.
  assert (h `prefix_of` h ++ [Heap.OList []]) as Hp
    by apply prefix_app_r, reflexivity.
  eapply dict_at_prefix in Hd; [|exact Hp].
  rewrite prun_bind. erewrite run_lift; [|apply run_new]. cbn beta iota.
  rewrite prun_bind. erewrite run_lift_raise; [done|].
  by eapply run_getitem_missing.
Qed.

Lemma get_instances_ids_in_store_witness :
  Proc.get_instances_ids (Heap.VRef 7) Sample.store_staging
  = (Proc.Returned (Heap.VRef 9),
     Sample.store_staging ++ [Heap.OList [Heap.VStr "i-staging"]]).
Proof.
  apply (proj1 (get_instances_ids_in_store Sample.store_staging (Heap.VRef 7))
           (Sample.response [[Sample.staging]])).
  apply sample_response_in_store.
Defined.

Section DataRuns.

Local Abbreviation value_get_tags_from_instance := get_tags_from_instance.

Import Heap Proc.

Ltac prun_head := repeat (rewrite prun_bind; cbn beta).
Ltac prun_next := cbn beta iota.
Ltac prun_lift lem :=
  prun_head; erewrite run_lift; [|apply lem]; prun_next.

Lemma run_read (h : store) (l : loc) (o : obj) :
  h !! l = Some o → read l h = (Ok o, h).
Proof. intros Hl. unfold read. by rewrite Hl. Qed.

Lemma run_require_dict (h : store) (l : loc) (items : list (val * val)) :
  h !! l = Some (ODict items) → require_dict (VRef l) h = (Ok (), h).
Proof.
  intros Hl. unfold require_dict, mbind, M_bind, read. by rewrite Hl.
Qed.

Lemma run_store_items (h : store) (cur items : list (val * val))
    (rest : store) :
  Shape.hashable_keys items →
  store_items (VRef (length h)) items (h ++ ODict cur :: rest)
  = (Returned (), h ++ ODict (Shape.updated cur items) :: rest).
Proof.
  intros Hkeys. revert cur.
  induction Hkeys as [|[k v] items Hk Hkeys IH]; intros cur; [done|].
  cbn [store_items].
  prun_head. erewrite run_lift;
    [|apply run_setitem; [by apply list_lookup_middle|exact Hk]].
  prun_next. rewrite insert_app_r_alt by done. rewrite Nat.sub_diag.
  cbn [insert list_insert]. apply IH.
Qed.

Lemma dict_lookup_updated (items more : list (val * val)) (k : val) :
  dict_lookup (Shape.updated items more) k
  = match dict_lookup (Shape.updated [] more) k with
    | Some v => Some v
    | None => dict_lookup items k
    end.
Proof.
  unfold Shape.updated. revert items.
  induction more as [|[k' v'] more IH] using rev_ind; intros items; [done|].
  rewrite !fold_left_app. cbn [fold_left fst snd].
  rewrite !dict_lookup_store. case_decide; [done|]. apply IH.
Qed.

Lemma dict_lookup_app (items more : list (val * val)) (k : val) :
  dict_lookup (items ++ more) k
  = match dict_lookup items k with
    | Some v => Some v
    | None => dict_lookup more k
    end.
Proof.
  induction items as [|[k0 v0] items IH]; cbn; [done|]. by case_decide.
Qed.

Lemma dict_lookup_absent (items : list (val * val)) (k : val) :
  k ∉ map fst items → dict_lookup items k = None.
Proof.
  induction items as [|[k0 v0] items IH]; cbn; [done|].
  intros Hout. apply not_elem_of_cons in Hout as [Hne Hout].
  rewrite decide_False by done. by apply IH.
Qed.

Lemma dict_lookup_updated_distinct (more : list (val * val)) (k : val) :
  Shape.distinct_keys more →
  dict_lookup (Shape.updated [] more) k = dict_lookup more k.
Proof.
  unfold Shape.updated, Shape.distinct_keys.
  induction more as [|[k' v'] more IH] using rev_ind; intros Hnd; [done|].
  rewrite map_app in Hnd. apply NoDup_app in Hnd as (Hnd & Hfresh & _).
  rewrite fold_left_app. cbn [fold_left fst snd].
  rewrite dict_lookup_store, dict_lookup_app. cbn [dict_lookup].
  rewrite IH by done. case_decide as Hk.
  - subst k'. rewrite dict_lookup_absent; [done|].
    intros Hin. apply (Hfresh k Hin). cbn. by left.
  - by destruct (dict_lookup more k).
Qed.

Lemma dict_store_keys (items : list (val * val)) (k v : val) :
  Shape.distinct_keys items → Shape.distinct_keys (dict_store items k v).
Proof.
  unfold Shape.distinct_keys.
  induction items as [|[k0 v0] items IH]; cbn; intros Hnd.
  - apply NoDup_singleton.
  - apply NoDup_cons in Hnd as [Hfresh Hnd]. case_decide as Hk; cbn.
    + subst. by apply NoDup_cons.
    + apply NoDup_cons. split; [|by apply IH].
      intros Hin. apply Hfresh. clear IH Hnd Hfresh.
      induction items as [|[k1 v1] items IH]; cbn in *.
      * apply list_elem_of_singleton in Hin. congruence.
      * case_decide; cbn in *.
        -- apply elem_of_cons in Hin as [->|Hin]; [congruence|].
           apply elem_of_cons. by right.
        -- apply elem_of_cons in Hin as [->|Hin]; apply elem_of_cons;
             [by left|right; by apply IH].
Qed.

Lemma tag_items_distinct (tags : list Tag) :
  Shape.distinct_keys (Repr.tag_items tags).
Proof.
  unfold Repr.tag_items.
  assert (∀ items, Shape.distinct_keys items →
            Shape.distinct_keys (fold_left Repr.store_item tags items)) as H.
  { induction tags as [|t tags IH]; intros items Hitems; [done|].
    cbn [fold_left]. apply IH. unfold Repr.store_item.
    case_decide; [by apply dict_store_keys|done]. }
  apply H. apply NoDup_nil_2.
Qed.

Lemma tag_items_hashable (tags : list Tag) :
  Shape.hashable_keys (Repr.tag_items tags).
Proof.
  unfold Repr.tag_items.
  assert (∀ items, Shape.hashable_keys items →
            Shape.hashable_keys (fold_left Repr.store_item tags items)) as H.
  { induction tags as [|t tags IH]; intros items Hitems; [done|].
    cbn [fold_left]. apply IH. unfold Repr.store_item.
    case_decide; [|done]. clear IH.
    induction Hitems as [|[k v] items Hk Hitems IHitems]; cbn.
    - by repeat constructor.
    - case_decide; constructor; done. }
  apply H. constructor.
Qed.

(** The body of the inner loop of [get_instances_data] without
    [filter_by_state], for the result list of a call started in [h0]. *)
Local Abbreviation data_body h0 :=
  (fun instance : val =>
     instance_data ← lift (new (ODict []));
     instance_tags ← lift (Heap.get_tags_from_instance instance);
     update_method instance_data instance_tags;;
     update_method instance_data instance;;
     lift (append_method (VRef (length h0)) instance_data)).

Lemma run_update_from_dict (h : store) (cur : list (val * val)) (rest : store)
    (other : loc) (items : list (val * val)) :
  (h ++ ODict cur :: rest) !! other = Some (ODict items) →
  Shape.hashable_keys items →
  update_method (VRef (length h)) (VRef other) (h ++ ODict cur :: rest)
  = (Returned (), h ++ ODict (Shape.updated cur items) :: rest).
Proof.
  intros Hother Hkeys. unfold update_method.
  prun_head. erewrite run_lift;
    [|eapply run_require_dict; by apply list_lookup_middle].
  prun_next. prun_lift (run_read _ _ _ Hother).
  by apply run_store_items.
Qed.

Lemma data_at_kept (h0 h h' : store) (d : val)
    (described : Instance * list (val * val)) :
  (∀ l x, length h0 < l → h !! l = Some (ODict x) → h' !! l = Some (ODict x)) →
  Shape.data_at h0 h d described → Shape.data_at h0 h' d described.
Proof. intros Hkept (l & -> & Hl & Hd). exists l. auto. Qed.

Lemma run_data_body (h0 h : store) (v : val)
    (described : Instance * list (val * val))
    (acc : list (Instance * list (val * val))) :
  Shape.described_instance h0 v described →
  Shape.collecting_data h0 h acc →
  ∃ h', data_body h0 v h = (Returned (), h')
        ∧ Shape.collecting_data h0 h' (acc ++ [described]).
Proof.
  intros (Hitems & Hkeys & _ & Hi) (Hp & ds & Hres & Hnd & Hacc).
  destruct described as [i iitems]. cbn [fst snd] in *.
  assert (h `prefix_of` h ++ [ODict []]) as Hp1
    by apply prefix_app_r, reflexivity.
  assert (Repr.instance (h ++ [ODict []]) v i) as Hi1.
  { eapply instance_prefix; [|exact Hi]. by etrans. }
  prun_lift run_new.
  prun_lift (run_get_tags_from_instance _ _ _ Hi1).
  rewrite <- app_assoc, length_app, Nat.add_1_r. cbn [app].
  set (titems := Repr.tag_items (default [] (Tags i))).
  prun_head.
  rewrite (run_update_from_dict h [] [ODict titems] (S (length h)) titems);
    [|apply (lookup_second_new h (ODict []) (ODict titems))
     |apply tag_items_hashable].
  prun_next.
  assert (∃ lv, v = VRef lv ∧ h !! lv = Some (ODict iitems)) as (lv & -> & Hlv).
  { eapply dict_at_prefix in Hitems; [|exact Hp].
    unfold Repr.dict_at in Hitems. destruct v as [| |lv]; try done.
    exists lv. split; [done|].
    by destruct (h !! lv) as [[?|?]|]; simplify_eq. }
  prun_head.
  rewrite (run_update_from_dict h _ [ODict titems] lv iitems);
    [|by apply lookup_app_l_Some|done].
  prun_next.
  set (h' := h ++ [ODict _; ODict titems]).
  assert (h `prefix_of` h') as Hp' by apply prefix_app_r, reflexivity.
  erewrite run_lift;
    [|apply run_append_method; by eapply prefix_lookup_Some].
  eexists. split; [reflexivity|]. split.
  { apply prefix_insert_at_length. by etrans. }
  pose proof (lookup_lt_Some _ _ _ Hres) as Hlt.
  exists (ds ++ [VRef (length h)]). split.
  { apply list_lookup_insert_eq. apply prefix_length in Hp'. lia. }
  split.
  { apply NoDup_app. split; [done|]. split; [|apply NoDup_singleton].
    intros d Hd ->%list_elem_of_singleton.
    apply list_elem_of_lookup in Hd as [j Hj].
    destruct (Forall2_lookup_l _ _ _ _ _ Hacc Hj)
      as (x & _ & l & [= <-] & _ & Hl).
    apply lookup_lt_Some in Hl. lia. }
  apply Forall2_app.
  { eapply Forall2_impl; [done|]. intros w s Hw.
    eapply data_at_kept; [|exact Hw]. intros l x Hl Hx.
    rewrite list_lookup_insert_ne by lia. subst h'.
    by apply lookup_app_l_Some. }
  constructor; [|constructor]. exists (length h).
  split; [done|]. split; [lia|].
  rewrite list_lookup_insert_ne by lia. subst h'.
  by rewrite list_lookup_middle.
Qed.

Lemma run_data_instances (h0 : store) (vs : list val)
    (described : list (Instance * list (val * val))) :
  Forall2 (Shape.described_instance h0) vs described →
  ∀ h acc, Shape.collecting_data h0 h acc →
    ∃ h', for_each vs (data_body h0) h = (Returned (), h')
          ∧ Shape.collecting_data h0 h' (acc ++ described).
Proof.
  induction 1 as [|v d vs described Hv Hall IH]; intros h acc Hc.
  - exists h. by rewrite app_nil_r.
  - rewrite pfor_each_cons, prun_bind.
    destruct (run_data_body h0 h v d acc Hv Hc) as (h1 & Hrun & Hc1).
    cbn beta in Hrun. rewrite Hrun. prun_next.
    destruct (IH h1 _ Hc1) as (h2 & Hrun2 & Hc2).
    exists h2. split; [done|]. by rewrite <- app_assoc in Hc2.
Qed.

Lemma run_data_reservations (h0 : store) (rvs : list val)
    (vss : list (list val)) :
  Forall2 (Shape.reservation_refs h0) rvs vss →
  ∀ described h acc,
    Forall2 (Shape.described_instance h0) (concat vss) described →
    Shape.collecting_data h0 h acc →
    ∃ h', for_each rvs
            (fun reservation =>
               reservation_instances ← lift (getitem reservation "Instances");
               reservation_instances ← lift (iterate reservation_instances);
               for_each reservation_instances (data_body h0)) h
          = (Returned (), h')
          ∧ Shape.collecting_data h0 h' (acc ++ described).
Proof.
  induction 1 as [|rv vs rvs vss Hrv Hall IH]; intros described h acc Hd Hc.
  - cbn in Hd. apply Forall2_nil_inv_l in Hd as ->.
    exists h. by rewrite app_nil_r.
  - cbn [concat] in Hd.
    apply Forall2_app_inv_l in Hd as (d1 & d2 & Hd1 & Hd2 & ->).
    destruct Hrv as (items & iv & Hdict & Hfield & Hlist).
    pose proof Hc as [Hp _].
    eapply dict_at_prefix in Hdict; [|exact Hp].
    eapply list_at_prefix in Hlist; [|exact Hp].
    rewrite pfor_each_cons.
    prun_lift (run_getitem _ _ _ _ _ Hdict Hfield).
    prun_lift (run_iterate _ _ _ Hlist).
    destruct (run_data_instances h0 vs d1 Hd1 h acc Hc) as (h1 & Hrun & Hc1).
    rewrite Hrun. prun_next.
    destruct (IH d2 h1 _ Hd2 Hc1) as (h2 & Hrun2 & Hc2).
    exists h2. split; [done|]. by rewrite <- app_assoc in Hc2.
Qed.

Lemma run_get_instances_data_list (h : store) (e : val) (vs : list val)
    (described : list (Instance * list (val * val))) :
  Shape.response_refs h e vs →
  Forall2 (Shape.described_instance h) vs described →
  ∃ h' ds,
    get_instances_data e false h = (Returned (VRef (length h)), h')
    ∧ h `prefix_of` h'
    ∧ h' !! length h = Some (OList ds)
    ∧ NoDup ds
    ∧ Forall2 (Shape.data_at h h') ds described.
Proof.
  intros (items & rv & rvs & vss & Hd & Hfield & Hlist & Hrefs & ->) Hall.
  assert (h `prefix_of` h ++ [OList []]) as Hp
    by apply prefix_app_r, reflexivity.
  eapply dict_at_prefix in Hd; [|exact Hp].
  eapply list_at_prefix in Hlist; [|exact Hp].
  unfold get_instances_data.
  prun_lift run_new.
  prun_lift (run_getitem _ _ _ _ _ Hd Hfield).
  prun_lift (run_iterate _ _ _ Hlist).
  destruct (run_data_reservations h rvs vss Hrefs described
              (h ++ [OList []]) [] Hall)
    as (h' & Hrun & Hp' & ds & Hl & Hnd & Hds).
  { split; [done|]. exists []. split; [by apply list_lookup_middle|].
    split; constructor. }
  prun_head. rewrite Hrun. prun_next. rewrite prun_ret.
  by exists h', ds.
Qed.

Lemma field_data_items (described : Instance * list (val * val)) (k : string) :
  Shape.distinct_keys described.2 →
  Repr.field (Shape.data_items described) k
  = match Repr.field described.2 k with
    | Some v => Some v
    | None => of_pyvalue <$> (value_get_tags_from_instance described.1 !! k)
    end.
Proof.
  intros Hnd. unfold Repr.field, Shape.data_items.
  rewrite dict_lookup_updated, dict_lookup_updated_distinct by done.
  destruct (dict_lookup described.2 (VStr k)); [done|].
  rewrite dict_lookup_updated_distinct by apply tag_items_distinct.
  apply field_tag_items.
Qed.

End DataRuns.

(** X9: without [filter_by_state], [get_instances_data] returns a new list
    with one new dictionary per instance, in the order the loops visit
    them: every element is an object allocated by the call (after the list
    itself, so it is no object of the response), no object is listed twice,
    and the objects that existed before the call are unchanged.  The
    dictionary holds the instance's tags by name and, over them, the
    instance's own items: a field of the instance wins against a tag of the
    same name. *)
Theorem get_instances_data_puts_fields_over_tags (h : list Heap.obj)
    (e : Heap.val) (vs : list Heap.val)
    (described : list (Instance * list (Heap.val * Heap.val))) :
  Shape.response_refs h e vs →
  Forall2 (Shape.described_instance h) vs described →
  ∃ h' ds,
    Proc.get_instances_data e false h
      = (Proc.Returned (Heap.VRef (length h)), h')
    ∧ h `prefix_of` h'
    ∧ h' !! length h = Some (Heap.OList ds)
    ∧ NoDup ds
    ∧ Forall2
        (fun d instance =>
           ∃ l items,
             d = Heap.VRef l ∧ length h < l
             ∧ h' !! l = Some (Heap.ODict items)
             ∧ ∀ k, Repr.field items k
                    = match Repr.field instance.2 k with
                      | Some v => Some v
                      | None =>
                          Heap.of_pyvalue
                            <$> (get_tags_from_instance instance.1 !! k)
                      end)
        ds described.
Proof.
  intros Hrefs Hall.
  destruct (run_get_instances_data_list h e vs described Hrefs Hall)
    as (h' & ds & Hrun & Hp & Hl & Hnodup & Hds).
  exists h', ds. do 4 (split; [done|]).
  assert (Forall (fun d => Shape.distinct_keys d.2) described) as Hnd.
  { clear -Hall. induction Hall as [|v d vs described Hv Hall IH];
      constructor; [|done]. by destruct Hv as (_ & _ & ? & _). }
  clear -Hds Hnd. induction Hds as [|d i ds described Hd Hds IH];
    constructor.
  - destruct Hd as (l & -> & Hl & Hd). exists l, (Shape.data_items i).
    do 3 (split; [done|]). intros k. apply field_data_items.
    by inversion Hnd.
  - apply IH. by inversion Hnd.
Qed.

Lemma demo_states_refs :
  Shape.response_refs Demo.store_states (Heap.VRef 9)
    [Heap.VRef 3; Heap.VRef 5].
Proof.
  eexists _, _, _, [[Heap.VRef 3; Heap.VRef 5]].
  repeat split; try reflexivity.
  constructor; [|constructor]. eexists _, _. by repeat split.
Qed.

Lemma demo_running_described :
  Shape.described_instance Demo.store_states (Heap.VRef 3)
    (Demo.running,
     [(Heap.VStr "InstanceId", Heap.VStr "i-run");
      (Heap.VStr "State", Heap.VRef 2); (Heap.VStr "Tags", Heap.VRef 1)]).
Proof.
  split; [reflexivity|]. split; [by repeat constructor|]. split.
  - unfold Shape.distinct_keys. apply (bool_decide_unpack _). by vm_compute.
  - eexists. split; [reflexivity|]. split; [reflexivity|].
    eexists _, _. split; [reflexivity|]. split; [reflexivity|].
    constructor; [|constructor]. eexists. by repeat split.
Qed.

Lemma demo_stopped_described :
  Shape.described_instance Demo.store_states (Heap.VRef 5)
    (Demo.stopped,
     [(Heap.VStr "InstanceId", Heap.VStr "i-stop");
      (Heap.VStr "State", Heap.VRef 4)]).
Proof.
  split; [reflexivity|]. split; [by repeat constructor|]. split.
  - unfold Shape.distinct_keys. apply (bool_decide_unpack _). by vm_compute.
  - eexists. by repeat split.
Qed.

Lemma get_instances_data_puts_fields_over_tags_witness :
  ∃ h' ds,
    Proc.get_instances_data (Heap.VRef 9) false Demo.store_states
      = (Proc.Returned (Heap.VRef 10), h')
    ∧ Demo.store_states `prefix_of` h'
    ∧ h' !! 10 = Some (Heap.OList ds)
    ∧ NoDup ds
    ∧ Forall2
        (fun d instance =>
           ∃ l items,
             d = Heap.VRef l ∧ 10 < l
             ∧ h' !! l = Some (Heap.ODict items)
             ∧ ∀ k, Repr.field items k
                    = match Repr.field instance.2 k with
                      | Some v => Some v
                      | None =>
                          Heap.of_pyvalue
                            <$> (get_tags_from_instance instance.1 !! k)
                      end)
        ds
        [(Demo.running,
          [(Heap.VStr "InstanceId", Heap.VStr "i-run");
           (Heap.VStr "State", Heap.VRef 2); (Heap.VStr "Tags", Heap.VRef 1)]);
         (Demo.stopped,
          [(Heap.VStr "InstanceId", Heap.VStr "i-stop");
           (Heap.VStr "State", Heap.VRef 4)])].
Proof.
  apply (get_instances_data_puts_fields_over_tags Demo.store_states
           (Heap.VRef 9) [Heap.VRef 3; Heap.VRef 5]).
  - apply demo_states_refs.
  - constructor; [apply demo_running_described|].
    constructor; [apply demo_stopped_described|constructor].
Defined.

Section SortRuns.

Import Heap Proc.

Ltac prun_head := repeat (rewrite prun_bind; cbn beta).
Ltac prun_next := cbn beta iota.
Ltac prun_lift lem :=
  prun_head; erewrite run_lift; [|apply lem]; prun_next.

Lemma prefix_insert_after (h0 h : store) (l : loc) (o : obj) :
  h0 `prefix_of` h → length h0 ≤ l → h0 `prefix_of` <[l := o]> h.
Proof.
  intros [k ->] Hl. rewrite insert_app_r_alt by lia. by apply prefix_app_r.
Qed.

Lemma run_defaultdict_getitem_present (h : store) (d : loc) (k : string)
    (items : list (val * val)) (b : val) :
  h !! d = Some (ODict items) → Repr.field items k = Some b →
  defaultdict_getitem (VRef d) k h = (Ok b, h).
Proof.
  intros Hd Hk. unfold defaultdict_getitem.
  assert (Repr.dict_at h (VRef d) = Some items) as Hat.
  { unfold Repr.dict_at. by rewrite Hd. }
  rewrite run_bind, (run_contains _ _ k _ Hat). cbn beta iota.
  rewrite bool_decide_eq_true_2 by (rewrite Hk; eauto).
  by eapply run_getitem.
Qed.

Lemma run_defaultdict_getitem_absent (h : store) (d : loc) (k : string)
    (items : list (val * val)) :
  h !! d = Some (ODict items) → Repr.field items k = None →
  defaultdict_getitem (VRef d) k h
  = (Ok (VRef (length h)),
     <[d := ODict (dict_store items (VStr k) (VRef (length h)))]>
       (h ++ [OList []])).
Proof.
  intros Hd Hk. unfold defaultdict_getitem.
  assert (Repr.dict_at h (VRef d) = Some items) as Hat.
  { unfold Repr.dict_at. by rewrite Hd. }
  rewrite run_bind, (run_contains _ _ k _ Hat). cbn beta iota.
  rewrite bool_decide_eq_false_2 by (rewrite Hk; by intros [? ?]).
  rewrite run_bind, run_new. cbn beta iota.
  rewrite run_bind.
  erewrite run_setitem; [|by apply lookup_app_l_Some|reflexivity].
  reflexivity.
Qed.

Lemma slot_kept (h0 h h' : store) (items items' : list (val * val))
    (key : string) (described : list (Instance * list (val * val))) :
  Repr.field items' key = Repr.field items key →
  (∀ l x, length h0 < l → h !! l = Some (ODict x) → h' !! l = Some (ODict x)) →
  (∀ lb ds, Repr.field items key = Some (VRef lb) →
            h !! lb = Some (OList ds) → h' !! lb = Some (OList ds)) →
  Shape.slot h0 h items key described →
  Shape.slot h0 h' items' key described.
Proof.
  intros Hfield Hdicts Hlist. unfold Shape.slot. rewrite Hfield.
  destruct (Repr.field items key) as [b|]; [|done].
  intros (Hsome & lb & ds & -> & Hlb & Hds & Hall).
  split; [done|]. exists lb, ds.
  split; [done|]. split; [done|]. split; [by eapply Hlist|].
  eapply Forall2_impl; [done|]. intros. by eapply data_at_kept.
Qed.

(** [instances[instance_state].append(instance_data)]. *)
Lemma run_bucket_step (h0 h1 : store) (a : loc)
    (described : Instance * list (val * val)) (items : list (val * val))
    (key other : string)
    (here there : list (Instance * list (val * val))) :
  key ≠ other →
  h0 `prefix_of` h1 → length h0 < a →
  h1 !! a = Some (ODict (Shape.data_items described)) →
  h1 !! length h0 = Some (ODict items) →
  Shape.slot h0 h1 items key here →
  Shape.slot h0 h1 items other there →
  (∀ b, Repr.field items key = Some b → Repr.field items other ≠ Some b) →
  (∀ k v, dict_lookup items k = Some v → k = VStr key ∨ k = VStr other) →
  ∃ h2 items',
    (bucket ← lift (defaultdict_getitem (VRef (length h0)) key);
     lift (append_method bucket (VRef a))) h1 = (Returned (), h2)
    ∧ h0 `prefix_of` h2
    ∧ h2 !! length h0 = Some (ODict items')
    ∧ Shape.slot h0 h2 items' key (here ++ [described])
    ∧ Shape.slot h0 h2 items' other there
    ∧ (∀ b, Repr.field items' key = Some b →
            Repr.field items' other ≠ Some b)
    ∧ (∀ k v, dict_lookup items' k = Some v → k = VStr key ∨ k = VStr other).
Proof.
  intros Hne Hp Ha Hdata Hd Hhere Hthere Hdistinct Hkeys.
  pose proof (lookup_lt_Some _ _ _ Hd) as Hdlt.
  pose proof (lookup_lt_Some _ _ _ Hdata) as Halt.
  destruct (Repr.field items key) as [b|] eqn:Hkey.
  - (* the key is bound to a list *)
    pose proof Hhere as Hhere'. unfold Shape.slot in Hhere'.
    rewrite Hkey in Hhere'.
    destruct Hhere' as (_ & lb & ds & -> & Hlb & Hds & Hall).
    prun_lift (run_defaultdict_getitem_present _ _ _ _ _ Hd Hkey).
    erewrite run_lift; [|by apply run_append_method].
    assert (∀ l x, length h0 < l → h1 !! l = Some (ODict x) →
              <[lb := OList (ds ++ [VRef a])]> h1 !! l = Some (ODict x))
      as Hdicts.
    { intros l x _ Hl. rewrite list_lookup_insert_ne; [done|].
      intros ->. by rewrite Hds in Hl. }
    eexists _, items. split; [reflexivity|].
    split; [apply prefix_insert_after; [done|lia]|].
    split; [by rewrite list_lookup_insert_ne by lia|].
    split; [|split; [|split; [by rewrite Hkey|done]]].
    + unfold Shape.slot. rewrite Hkey.
      split; [by destruct here|]. exists lb, (ds ++ [VRef a]).
      split; [done|]. split; [done|].
      split; [apply list_lookup_insert_eq; by eapply lookup_lt_Some|].
      apply Forall2_app.
      * eapply Forall2_impl; [done|]. intros. by eapply data_at_kept.
      * constructor; [|constructor]. exists a. auto.
    + eapply slot_kept; [done|done| |done].
      intros lb' ds' Hother Hds'. rewrite list_lookup_insert_ne; [done|].
      intros Heq. subst lb'. by apply (Hdistinct (VRef lb)).
  - (* the key is new *)
    unfold Shape.slot in Hhere. rewrite Hkey in Hhere. subst here.
    prun_lift (run_defaultdict_getitem_absent _ _ _ _ Hd Hkey).
    set (lb := length h1).
    set (items' := dict_store items (VStr key) (VRef lb)).
    set (h1' := <[length h0 := ODict items']> (h1 ++ [OList []])).
    assert (h1' !! lb = Some (OList [])) as Hlb.
    { subst h1'. rewrite list_lookup_insert_ne by (subst lb; lia).
      by apply list_lookup_middle. }
    erewrite run_lift; [|by apply run_append_method].
    assert (∀ l o, l ≠ length h0 → h1 !! l = Some o →
              <[lb := OList ([] ++ [VRef a])]> h1' !! l = Some o) as Hkept.
    { intros l o Hl Ho. pose proof (lookup_lt_Some _ _ _ Ho).
      rewrite list_lookup_insert_ne by (subst lb; lia). subst h1'.
      rewrite list_lookup_insert_ne by done. by apply lookup_app_l_Some. }
    assert (Repr.field items' other = Repr.field items other) as Hother.
    { subst items'. unfold Repr.field. rewrite dict_lookup_store.
      rewrite decide_False; [done|]. by intros [= ?]. }
    eexists _, items'. split; [reflexivity|].
    split.
    { apply prefix_insert_after; [|subst lb; lia].
      apply prefix_insert_at_length. etrans; [done|]. by apply prefix_app_r. }
    split.
    { rewrite list_lookup_insert_ne by (subst lb; lia). subst h1'.
      apply list_lookup_insert_eq. rewrite length_app. lia. }
    split; [|split; [|split]].
    + unfold Shape.slot. subst items'. unfold Repr.field.
      rewrite dict_lookup_store, decide_True by done.
      split; [done|].
      exists lb, [VRef a]. split; [done|]. split; [subst lb; lia|].
      split.
      { apply list_lookup_insert_eq. subst h1'.
        rewrite length_insert, length_app. subst lb. cbn. lia. }
      constructor; [|constructor]. exists a. split; [done|]. split; [done|].
      apply Hkept; [lia|done].
    + eapply slot_kept; [done| | |done].
      * intros l x Hl Hx. apply Hkept; [lia|done].
      * intros lb' ds' Hf Hds'. apply Hkept; [|done].
        unfold Shape.slot in Hthere. rewrite Hf in Hthere.
        destruct Hthere as (_ & ? & ? & [= <-] & ? & _). lia.
    + intros b. subst items'. unfold Repr.field at 1.
      rewrite dict_lookup_store, decide_True by done. intros [= <-].
      rewrite Hother. intros Hf.
      unfold Shape.slot in Hthere. rewrite Hf in Hthere.
      destruct Hthere as (_ & ? & ? & [= <-] & _ & Hl & _).
      apply lookup_lt_Some in Hl. subst lb. lia.
    + intros k v. subst items'. rewrite dict_lookup_store.
      case_decide; [intros _; by left|apply Hkeys].
Qed.

(** The body of the inner loop of [get_instances_data] with
    [filter_by_state], for the result dictionary of a call started in
    [h0]. *)
Local Abbreviation sort_body h0 :=
  (fun instance : val =>
     instance_data ← lift (new (ODict []));
     instance_tags ← lift (Heap.get_tags_from_instance instance);
     update_method instance_data instance_tags;;
     update_method instance_data instance;;
     state ← lift (getitem instance_data "State");
     state_name ← lift (getitem state "Name");
     let instance_state :=
       if decide (state_name = VStr "running")
       then "running" else "not-running" in
     bucket ← lift (defaultdict_getitem (VRef (length h0)) instance_state);
     lift (append_method bucket instance_data)).

Lemma run_sort_body (h0 h : store) (v : val)
    (stated : Instance * list (val * val) * val)
    (running others : list (Instance * list (val * val))) :
  Shape.stated_instance h0 v stated →
  Shape.sorting h0 h running others →
  ∃ h', sort_body h0 v h = (Returned (), h')
        ∧ Shape.sorting h0 h'
            (running ++ Shape.running_of [stated])
            (others ++ Shape.others_of [stated]).
Proof.
  intros ((Hitems & Hkeys & Hdistinct & Hi) & sv & sitems & Hstate & Hsv & Hname)
         (Hp & ditems & Hd & Hrun & Hoth & Hdiff & Honly).
  destruct stated as [[i iitems] name]. cbn [fst snd] in *.
  assert (h `prefix_of` h ++ [ODict []]) as Hp1
    by apply prefix_app_r, reflexivity.
  assert (Repr.instance (h ++ [ODict []]) v i) as Hi1.
  { eapply instance_prefix; [|exact Hi]. by etrans. }
  prun_lift run_new.
  prun_lift (run_get_tags_from_instance _ _ _ Hi1).
  rewrite <- app_assoc, length_app, Nat.add_1_r. cbn [app].
  set (titems := Repr.tag_items (default [] (Tags i))).
  prun_head.
  rewrite (run_update_from_dict h [] [ODict titems] (S (length h)) titems);
    [|apply (lookup_second_new h (ODict []) (ODict titems))
     |apply tag_items_hashable].
  prun_next.
  assert (∃ lv, v = VRef lv ∧ h !! lv = Some (ODict iitems)) as (lv & -> & Hlv).
  { eapply dict_at_prefix in Hitems; [|exact Hp].
    unfold Repr.dict_at in Hitems. destruct v as [| |lv]; try done.
    exists lv. split; [done|].
    by destruct (h !! lv) as [[?|?]|]; simplify_eq. }
  prun_head.
  rewrite (run_update_from_dict h _ [ODict titems] lv iitems);
    [|by apply lookup_app_l_Some|done].
  prun_next.
  change (ODict (Shape.updated (Shape.updated [] titems) iitems))
    with (ODict (Shape.data_items (i, iitems))).
  set (h1 := h ++ [ODict (Shape.data_items (i, iitems)); ODict titems]).
  assert (h `prefix_of` h1) as Hp' by apply prefix_app_r, reflexivity.
  assert (h1 !! length h = Some (ODict (Shape.data_items (i, iitems))))
    as Hdata by (by apply list_lookup_middle).
  assert (Repr.dict_at h1 (VRef (length h))
          = Some (Shape.data_items (i, iitems))) as Hdata_at.
  { unfold Repr.dict_at. by rewrite Hdata. }
  assert (Repr.field (Shape.data_items (i, iitems)) "State" = Some sv)
    as Hstate'.
  { rewrite field_data_items by done. cbn [fst snd]. by rewrite Hstate. }
  prun_lift (run_getitem _ _ _ _ _ Hdata_at Hstate').
  eapply dict_at_prefix in Hsv; [|by etrans].
  prun_lift (run_getitem _ _ _ _ _ Hsv Hname).
  cbn zeta.
  pose proof (lookup_lt_Some _ _ _ Hd) as Hdlt.
  assert (∀ l o, h !! l = Some o → h1 !! l = Some o) as Hkept.
  { intros l o Hl. by apply lookup_app_l_Some. }
  assert (∀ key described,
            Shape.slot h0 h ditems key described →
            Shape.slot h0 h1 ditems key described) as Hslot.
  { intros key described. apply slot_kept; [done| |]; eauto. }
  unfold Shape.running_of, Shape.others_of, Shape.is_running.
  cbn [flat_map fst snd]. rewrite !app_nil_r.
  destruct (decide (name = VStr "running")) as [Hrunning|Hother].
  - rewrite bool_decide_eq_true_2 by done. rewrite app_nil_r.
    destruct (run_bucket_step h0 h1 (length h) (i, iitems) ditems
                "running" "not-running" running others)
      as (h2 & items' & Hstep & Hp2 & Hd2 & Hr2 & Ho2 & Hdiff2 & Honly2);
      auto; [by etrans|].
    exists h2. split; [exact Hstep|]. split; [done|]. by exists items'.
  - rewrite bool_decide_eq_false_2 by done. rewrite app_nil_r.
    destruct (run_bucket_step h0 h1 (length h) (i, iitems) ditems
                "not-running" "running" others running)
      as (h2 & items' & Hstep & Hp2 & Hd2 & Ho2 & Hr2 & Hdiff2 & Honly2);
      auto; [by etrans| | |].
    { intros b Hb Hb'. by apply (Hdiff b). }
    { intros k x Hk. destruct (Honly k x Hk); auto. }
    exists h2. split; [exact Hstep|]. split; [done|]. exists items'.
    split; [done|]. split; [done|]. split; [done|]. split.
    + intros b Hb Hb'. by apply (Hdiff2 b).
    + intros k x Hk. destruct (Honly2 k x Hk); auto.
Qed.

Lemma running_of_app (s1 s2 : list (Instance * list (val * val) * val)) :
  Shape.running_of (s1 ++ s2) = Shape.running_of s1 ++ Shape.running_of s2.
Proof. apply flat_map_app. Qed.

Lemma others_of_app (s1 s2 : list (Instance * list (val * val) * val)) :
  Shape.others_of (s1 ++ s2) = Shape.others_of s1 ++ Shape.others_of s2.
Proof. apply flat_map_app. Qed.

Lemma run_sort_instances (h0 : store) (vs : list val)
    (stated : list (Instance * list (val * val) * val)) :
  Forall2 (Shape.stated_instance h0) vs stated →
  ∀ h running others, Shape.sorting h0 h running others →
    ∃ h', for_each vs (sort_body h0) h = (Returned (), h')
          ∧ Shape.sorting h0 h'
              (running ++ Shape.running_of stated)
              (others ++ Shape.others_of stated).
Proof.
  induction 1 as [|v s vs stated Hv Hall IH]; intros h running others Hc.
  - exists h. cbn. by rewrite !app_nil_r.
  - rewrite pfor_each_cons, prun_bind.
    destruct (run_sort_body h0 h v s running others Hv Hc)
      as (h1 & Hrun & Hc1).
    cbn beta zeta in Hrun. cbn zeta. rewrite Hrun. prun_next.
    destruct (IH h1 _ _ Hc1) as (h2 & Hrun2 & Hc2).
    exists h2. split; [done|].
    change (s :: stated) with ([s] ++ stated).
    by rewrite running_of_app, others_of_app, !app_assoc.
Qed.

Lemma run_sort_reservations (h0 : store) (rvs : list val)
    (vss : list (list val)) :
  Forall2 (Shape.reservation_refs h0) rvs vss →
  ∀ stated h running others,
    Forall2 (Shape.stated_instance h0) (concat vss) stated →
    Shape.sorting h0 h running others →
    ∃ h', for_each rvs
            (fun reservation =>
               reservation_instances ← lift (getitem reservation "Instances");
               reservation_instances ← lift (iterate reservation_instances);
               for_each reservation_instances (sort_body h0)) h
          = (Returned (), h')
          ∧ Shape.sorting h0 h'
              (running ++ Shape.running_of stated)
              (others ++ Shape.others_of stated).
Proof.
  induction 1 as [|rv vs rvs vss Hrv Hall IH];
    intros stated h running others Hd Hc.
  - cbn in Hd. apply Forall2_nil_inv_l in Hd as ->.
    exists h. cbn. by rewrite !app_nil_r.
  - cbn [concat] in Hd.
    apply Forall2_app_inv_l in Hd as (d1 & d2 & Hd1 & Hd2 & ->).
    destruct Hrv as (items & iv & Hdict & Hfield & Hlist).
    pose proof Hc as [Hp _].
    eapply dict_at_prefix in Hdict; [|exact Hp].
    eapply list_at_prefix in Hlist; [|exact Hp].
    rewrite pfor_each_cons.
    prun_lift (run_getitem _ _ _ _ _ Hdict Hfield).
    prun_lift (run_iterate _ _ _ Hlist).
    destruct (run_sort_instances h0 vs d1 Hd1 h _ _ Hc) as (h1 & Hrun & Hc1).
    rewrite Hrun. prun_next.
    destruct (IH d2 h1 _ _ Hd2 Hc1) as (h2 & Hrun2 & Hc2).
    exists h2. split; [done|].
    by rewrite running_of_app, others_of_app, !app_assoc.
Qed.

Lemma run_get_instances_data_sorted (h : store) (e : val) (vs : list val)
    (stated : list (Instance * list (val * val) * val)) :
  Shape.response_refs h e vs →
  Forall2 (Shape.stated_instance h) vs stated →
  ∃ h',
    get_instances_data e true h = (Returned (VRef (length h)), h')
    ∧ Shape.sorting h h' (Shape.running_of stated) (Shape.others_of stated).
Proof.
  intros (items & rv & rvs & vss & Hd & Hfield & Hlist & Hrefs & ->) Hall.
  assert (h `prefix_of` h ++ [ODict []]) as Hp
    by apply prefix_app_r, reflexivity.
  eapply dict_at_prefix in Hd; [|exact Hp].
  eapply list_at_prefix in Hlist; [|exact Hp].
  unfold get_instances_data.
  prun_lift run_new.
  prun_lift (run_getitem _ _ _ _ _ Hd Hfield).
  prun_lift (run_iterate _ _ _ Hlist).
  destruct (run_sort_reservations h rvs vss Hrefs stated
              (h ++ [ODict []]) [] [] Hall) as (h' & Hrun & Hsorted).
  { split; [done|]. exists []. split; [by apply list_lookup_middle|].
    by repeat split. }
  prun_head. cbn zeta in Hrun. rewrite Hrun. prun_next. rewrite prun_ret.
  by exists h'.
Qed.

End SortRuns.

Lemma slot_absent_iff_empty (h0 h : list Heap.obj)
    (items : list (Heap.val * Heap.val)) (key : string)
    (described : list (Instance * list (Heap.val * Heap.val))) :
  Shape.slot h0 h items key described →
  Repr.field items key = None ↔ described = [].
Proof.
  unfold Shape.slot. destruct (Repr.field items key) as [b|].
  - intros [Hsome _]. by split.
  - by intros ->.
Qed.

(** X10: with [filter_by_state], on a response whose instances all have a
    ["State"] dictionary with a ["Name"], [get_instances_data] returns a
    new dictionary with no other keys than ['running'] and ['not-running'].
    Under ['running'] is a list with the data of the instances whose state
    name is ['running'], under ['not-running'] a list with the data of the
    others, both in the order the loops visit them; a key is absent exactly
    when no instance goes under it, so a list in the result is never
    empty.  The objects of the response are unchanged. *)
Theorem get_instances_data_sorts_by_state (h : list Heap.obj)
    (e : Heap.val) (vs : list Heap.val)
    (stated : list (Instance * list (Heap.val * Heap.val) * Heap.val)) :
  Shape.response_refs h e vs →
  Forall2 (Shape.stated_instance h) vs stated →
  ∃ h' items,
    Proc.get_instances_data e true h
      = (Proc.Returned (Heap.VRef (length h)), h')
    ∧ h `prefix_of` h'
    ∧ h' !! length h = Some (Heap.ODict items)
    ∧ Shape.slot h h' items "running" (Shape.running_of stated)
    ∧ Shape.slot h h' items "not-running" (Shape.others_of stated)
    ∧ (Repr.field items "running" = None ↔ Shape.running_of stated = [])
    ∧ (Repr.field items "not-running" = None ↔ Shape.others_of stated = [])
    ∧ (∀ k v, Heap.dict_lookup items k = Some v →
              k = Heap.VStr "running" ∨ k = Heap.VStr "not-running").
Proof.
  intros Hrefs Hall.
  destruct (run_get_instances_data_sorted h e vs stated Hrefs Hall)
    as (h' & Hrun & Hp & items & Hd & Hr & Ho & _ & Honly).
  exists h', items. do 5 (split; [done|]).
  split; [|split; [|done]].
  - apply slot_absent_iff_empty in Hr. exact Hr.
  - apply slot_absent_iff_empty in Ho. exact Ho.
Qed.

Lemma get_instances_data_sorts_by_state_witness :
  ∃ h' items,
    Proc.get_instances_data (Heap.VRef 9) true Demo.store_states
      = (Proc.Returned (Heap.VRef 10), h')
    ∧ Demo.store_states `prefix_of` h'
    ∧ h' !! 10 = Some (Heap.ODict items)
    ∧ Shape.slot Demo.store_states h' items "running"
        [(Demo.running,
          [(Heap.VStr "InstanceId", Heap.VStr "i-run");
           (Heap.VStr "State", Heap.VRef 2); (Heap.VStr "Tags", Heap.VRef 1)])]
    ∧ Shape.slot Demo.store_states h' items "not-running"
        [(Demo.stopped,
          [(Heap.VStr "InstanceId", Heap.VStr "i-stop");
           (Heap.VStr "State", Heap.VRef 4)])]
    ∧ (Repr.field items "running" = None
       ↔ [(Demo.running,
           [(Heap.VStr "InstanceId", Heap.VStr "i-run");
            (Heap.VStr "State", Heap.VRef 2);
            (Heap.VStr "Tags", Heap.VRef 1)])] = [])
    ∧ (Repr.field items "not-running" = None
       ↔ [(Demo.stopped,
           [(Heap.VStr "InstanceId", Heap.VStr "i-stop");
            (Heap.VStr "State", Heap.VRef 4)])] = [])
    ∧ (∀ k v, Heap.dict_lookup items k = Some v →
              k = Heap.VStr "running" ∨ k = Heap.VStr "not-running").
Proof.
  apply (get_instances_data_sorts_by_state Demo.store_states (Heap.VRef 9)
           [Heap.VRef 3; Heap.VRef 5]
           [(Demo.running,
             [(Heap.VStr "InstanceId", Heap.VStr "i-run");
              (Heap.VStr "State", Heap.VRef 2);
              (Heap.VStr "Tags", Heap.VRef 1)],
             Heap.VStr "running");
            (Demo.stopped,
             [(Heap.VStr "InstanceId", Heap.VStr "i-stop");
              (Heap.VStr "State", Heap.VRef 4)],
             Heap.VStr "stopped")]).
  - apply demo_states_refs.
  - constructor; [|constructor; [|constructor]].
    + split; [apply demo_running_described|]. eexists _, _. by repeat split.
    + split; [apply demo_stopped_described|]. eexists _, _. by repeat split.
Defined.

(** * The [describe_instances] family *)

Section DescribeFacts.

Import Heap Proc.

Variable boto3_client : string → P val.
Variable client_describe_instances : val → string → val → P val.

Abbreviation connection := (get_ec2_connection boto3_client).
Abbreviation send_request := (send boto3_client client_describe_instances).

Ltac prun_head := repeat (rewrite prun_bind; cbn beta).
Ltac prun_next := cbn beta iota.
Ltac prun_lift lem :=
  prun_head; erewrite run_lift; [|apply lem]; prun_next.

Lemma run_require_list (h : store) (l : loc) (elems : list val) :
  h !! l = Some (OList elems) → require_list (VRef l) h = (Ok (), h).
Proof.
  intros Hl. unfold require_list, mbind, M_bind, read. by rewrite Hl.
Qed.

(** The display [{'Name': name, 'Values': [value]}] in the store. *)
Lemma run_name_values (name value : val) (h : store) :
  name_values name value h
  = (Ok (VRef (length h)),
     h ++ [ODict [(VStr "Name", name); (VStr "Values", VRef (S (length h)))];
           OList [value]]).
Proof.
  unfold name_values.
  rewrite run_bind, run_new. cbn beta iota.
  rewrite run_bind.
  erewrite run_setitem; [|by apply list_lookup_middle|reflexivity].
  cbn beta iota. rewrite insert_app_r_alt by done. rewrite Nat.sub_diag.
  cbn [insert list_insert dict_store].
  rewrite run_bind, run_new. cbn beta iota.
  rewrite length_app, Nat.add_1_r. rewrite run_bind.
  erewrite run_setitem;
    [|rewrite <- app_assoc; by apply list_lookup_middle|reflexivity].
  cbn beta iota. rewrite <- app_assoc.
  rewrite insert_app_r_alt by done. rewrite Nat.sub_diag.
  cbn [insert list_insert dict_store app].
  by rewrite decide_False by done.
Qed.

Lemma run_append_state_filter (h : store) (l : loc) (elems : list val)
    (state : val) :
  h !! l = Some (OList elems) → state ≠ VNone →
  append_state_filter (VRef l) state h
  = (Returned (),
     <[l := OList (elems ++ [VRef (length h)])]>
       (h ++ [ODict [(VStr "Name", VStr "instance-state-name");
                     (VStr "Values", VRef (S (length h)))];
              OList [state]])).
Proof.
  intros Hl Hstate. unfold append_state_filter.
  rewrite decide_True by done.
  prun_lift (run_require_list _ _ _ Hl).
  prun_lift run_name_values.
  erewrite run_lift; [done|].
  apply run_append_method. by apply lookup_app_l_Some.
Qed.

Lemma run_append_no_state_filter (h : store) (filters : val) :
  append_state_filter filters VNone h = (Returned (), h).
Proof.
  unfold append_state_filter. by rewrite decide_False by (intros H; by apply H).
Qed.

Section Quiet.

(** The calls into [boto3] allocate what they return and update no object
    of the caller. *)
Hypothesis client_frames :
  ∀ service n, framesP n (boto3_client service) (fun _ => True).
Hypothesis describe_frames :
  ∀ ec2 keyword argument n,
    framesP n (client_describe_instances ec2 keyword argument) (fun _ => True).

Lemma framesP_send (n : nat) (keyword : string) (argument : val) :
  framesP n (send_request keyword argument) (fun _ => True).
Proof.
  unfold send.
  eapply framesP_bind with (Q := fun _ => True).
  { apply framesP_try_except; [apply client_frames|apply framesP_throw]. }
  intros ec2 _. eapply framesP_bind; [apply describe_frames|].
  intros response _.
  eapply framesP_bind; [apply framesP_lift, frames_contains|].
  intros present _. destruct (negb present);
    [apply framesP_throw|by apply framesP_ret].
Qed.

Lemma framesP_append_state_filter (n : nat) (filters state : val) :
  fresh_ref n filters →
  framesP n (append_state_filter filters state) (fun _ => True).
Proof.
  intros Hfresh. unfold append_state_filter.
  case_decide; [|by apply framesP_ret].
  eapply framesP_bind; [apply framesP_lift, frames_require_list|].
  intros ? _.
  eapply framesP_bind; [apply framesP_lift, frames_name_values|].
  intros ? _. by apply framesP_lift, frames_append_method.
Qed.

Lemma framesP_describe_instances (n : nat) (state : val) :
  framesP n (describe_instances boto3_client client_describe_instances state)
    (fun _ => True).
Proof.
  unfold describe_instances.
  eapply framesP_bind; [apply framesP_lift, frames_new|]. intros filters ?.
  eapply framesP_bind; [by apply framesP_append_state_filter|].
  intros ? _. apply framesP_send.
Qed.

Lemma framesP_describe_instances_by_tag (n : nat) (tag : string)
    (value state : val) :
  framesP n
    (describe_instances_by_tag boto3_client client_describe_instances
       tag value state)
    (fun _ => True).
Proof.
  unfold describe_instances_by_tag. cbn zeta.
  eapply framesP_bind; [apply framesP_lift, frames_truthy|]. intros given _.
  eapply framesP_bind; [apply framesP_lift, frames_name_values|].
  intros ? _.
  eapply framesP_bind; [apply framesP_lift, frames_new|]. intros filters ?.
  eapply framesP_bind; [by apply framesP_append_state_filter|].
  intros ? _. apply framesP_send.
Qed.

End Quiet.

End DescribeFacts.

Lemma lookup_in_frame {A : Type} (m : Proc.P A) (Q : A → Prop)
    (h : list Heap.obj) (l : nat) (o : Heap.obj) :
  framesP (length h) m Q → h !! l = Some o → (m h).2 !! l = Some o.
Proof.
  intros Hm Hl. apply framesP_prefix in Hm.
  by eapply prefix_lookup_Some.
Qed.

(** X11: [describe_instances_by_tag_filters] called with a state appends
    the state filter to the list it was given, the caller's list, and sends
    that list; the filter stays in the caller's list after the call,
    however the call ends. *)
Theorem describe_instances_by_tag_filters_grows_its_argument
    (boto3_client : string → Proc.P Heap.val)
    (client_describe_instances :
       Heap.val → string → Heap.val → Proc.P Heap.val)
    (h : list Heap.obj) (l : nat) (elems : list Heap.val) (state : Heap.val) :
  h !! l = Some (Heap.OList elems) →
  state ≠ Heap.VNone →
  let state_filter :=
    Heap.ODict [(Heap.VStr "Name", Heap.VStr "instance-state-name");
                (Heap.VStr "Values", Heap.VRef (S (length h)))] in
  let grown := Heap.OList (elems ++ [Heap.VRef (length h)]) in
  let call :=
    Proc.describe_instances_by_tag_filters boto3_client
      client_describe_instances (Heap.VRef l) state in
  call h
  = Proc.send boto3_client client_describe_instances "Filters" (Heap.VRef l)
      (<[l := grown]> (h ++ [state_filter; Heap.OList [state]]))
  ∧ ((∀ service n, framesP n (boto3_client service) (fun _ => True)) →
     (∀ ec2 keyword argument n,
        framesP n (client_describe_instances ec2 keyword argument)
          (fun _ => True)) →
     (call h).2 !! l = Some grown
     ∧ (call h).2 !! length h = Some state_filter
     ∧ (call h).2 !! S (length h) = Some (Heap.OList [state])).
Proof.
  intros Hl Hstate. cbn zeta.
  pose proof (lookup_lt_Some _ _ _ Hl) as Hlt.
  assert (Proc.describe_instances_by_tag_filters boto3_client
            client_describe_instances (Heap.VRef l) state h
          = Proc.send boto3_client client_describe_instances "Filters"
              (Heap.VRef l)
              (<[l := Heap.OList (elems ++ [Heap.VRef (length h)])]>
                 (h ++ [Heap.ODict
                          [(Heap.VStr "Name", Heap.VStr "instance-state-name");
                           (Heap.VStr "Values", Heap.VRef (S (length h)))];
                        Heap.OList [state]]))) as Hcall.
  { unfold Proc.describe_instances_by_tag_filters. cbn zeta.
    rewrite prun_bind.
    by rewrite (run_append_state_filter h l elems state Hl Hstate). }
  split; [exact Hcall|]. intros Hclient Hdescribe. rewrite Hcall.
  pose proof (framesP_send boto3_client client_describe_instances
                Hclient Hdescribe) as Hsend.
  split; [|split]; eapply lookup_in_frame; try apply Hsend.
  - apply list_lookup_insert_eq. rewrite length_app. lia.
  - rewrite list_lookup_insert_ne by lia. by apply list_lookup_middle.
  - rewrite list_lookup_insert_ne by lia. apply lookup_second_new.
Qed.

Lemma stub_client_frames (service : string) (n : nat) :
  framesP n (Stub.client service) (fun _ => True).
Proof.
  eapply framesP_true. apply framesP_lift, frames_new.
Qed.

Lemma stub_describe_frames (ec2 : Heap.val) (keyword : string)
    (argument : Heap.val) (n : nat) :
  framesP n (Stub.describe_instances ec2 keyword argument) (fun _ => True).
Proof.
  unfold Stub.describe_instances.
  eapply framesP_bind; [apply framesP_lift, frames_new|]. intros ? _.
  eapply framesP_true. apply framesP_lift, frames_new.
Qed.

Lemma describe_instances_by_tag_filters_grows_its_argument_witness :
  (Proc.describe_instances_by_tag_filters Stub.client Stub.describe_instances
     (Heap.VRef 0) (Heap.VStr "running") [Heap.OList []]).2 !! 0
  = Some (Heap.OList [Heap.VRef 1]).
Proof.
  apply (describe_instances_by_tag_filters_grows_its_argument
           Stub.client Stub.describe_instances [Heap.OList []] 0 []
           (Heap.VStr "running")).
  - reflexivity.
  - discriminate.
  - apply stub_client_frames.
  - apply stub_describe_frames.
Defined.

(** Two calls with the same list and a state: the second request carries
    the state filter twice. *)
Example filters_accumulate_over_calls :
  let call :=
    Proc.describe_instances_by_tag_filters Stub.client Stub.describe_instances
      (Heap.VRef 0) (Heap.VStr "running") in
  (call (call [Heap.OList []]).2).2 !! 0
  = Some (Heap.OList [Heap.VRef 1; Heap.VRef 6]).
Proof. vm_compute. reflexivity. Qed.

(** X12: the other functions of the family, and
    [describe_instances_by_tag_filters] called without a state, change no
    object the caller holds, provided the calls into [boto3] change none:
    the filters they send are new objects. *)
Theorem describe_functions_build_new_filters
    (boto3_client : string → Proc.P Heap.val)
    (client_describe_instances :
       Heap.val → string → Heap.val → Proc.P Heap.val)
    (h : list Heap.obj) :
  (∀ service n, framesP n (boto3_client service) (fun _ => True)) →
  (∀ ec2 keyword argument n,
     framesP n (client_describe_instances ec2 keyword argument)
       (fun _ => True)) →
  (∀ state,
     h `prefix_of`
       (Proc.describe_instances boto3_client client_describe_instances
          state h).2)
  ∧ (∀ instance_ids,
       h `prefix_of`
         (Proc.describe_instances_by_ids boto3_client
            client_describe_instances instance_ids h).2)
  ∧ (∀ tag value state,
       h `prefix_of`
         (Proc.describe_instances_by_tag boto3_client
            client_describe_instances tag value state h).2)
  ∧ (∀ tag_filters,
       h `prefix_of`
         (Proc.describe_instances_by_tag_filters boto3_client
            client_describe_instances tag_filters Heap.VNone h).2).
Proof.
  intros Hclient Hdescribe. split; [|split; [|split]].
  - intros state. eapply framesP_prefix. by apply framesP_describe_instances.
  - intros ids. eapply framesP_prefix. by apply framesP_send.
  - intros tag value state. eapply framesP_prefix.
    by apply framesP_describe_instances_by_tag.
  - intros tag_filters. eapply framesP_prefix.
    unfold Proc.describe_instances_by_tag_filters. cbn zeta.
    eapply framesP_bind with (Q := fun _ => True).
    + unfold Proc.append_state_filter.
      rewrite decide_False by (intros H; by apply H). by apply framesP_ret.
    + intros ? _. by apply framesP_send.
Qed.

Lemma describe_functions_build_new_filters_witness :
  [Heap.OList []] `prefix_of`
    (Proc.describe_instances Stub.client Stub.describe_instances
       (Heap.VStr "running") [Heap.OList []]).2.
Proof.
  apply (describe_functions_build_new_filters Stub.client
           Stub.describe_instances [Heap.OList []]).
  - apply stub_client_frames.
  - apply stub_describe_frames.
Defined.

Lemma run_describe_instances_by_tag
    (boto3_client : string → Proc.P Heap.val)
    (client_describe_instances :
       Heap.val → string → Heap.val → Proc.P Heap.val)
    (tag : string) (value : Heap.val) (given : bool) (h : list Heap.obj) :
  Heap.truthy value h = (Ok given, h) →
  Proc.describe_instances_by_tag boto3_client client_describe_instances
    tag value Heap.VNone h
  = Proc.send boto3_client client_describe_instances "Filters"
      (Heap.VRef (S (S (length h))))
      (h ++ [Heap.ODict [(Heap.VStr "Name", Heap.VStr ("tag:" +:+ tag));
                         (Heap.VStr "Values", Heap.VRef (S (length h)))];
             Heap.OList [if given then value else Heap.VStr "*"];
             Heap.OList [Heap.VRef (length h)]]).
Proof.
  intros Hgiven. unfold Proc.describe_instances_by_tag. cbn zeta.
  rewrite prun_bind. erewrite run_lift; [|exact Hgiven]. cbn beta iota.
  rewrite prun_bind. erewrite run_lift; [|apply run_name_values].
  cbn beta iota.
  rewrite prun_bind. erewrite run_lift; [|apply run_new]. cbn beta iota.
  rewrite prun_bind, run_append_no_state_filter. cbn beta iota.
  rewrite length_app, <- app_assoc. cbn [length app].
  by replace (length h + 2) with (S (S (length h))) by lia.
Qed.

(** X13: [describe_instances_by_tag] sends one filter, named ["tag:"]
    followed by the tag name.  Its value is the given value, except that no
    value, [None] or the empty string are all sent as the wildcard ['*']:
    the function cannot ask for the instances whose tag is empty. *)
Theorem describe_instances_by_tag_sends_wildcard
    (boto3_client : string → Proc.P Heap.val)
    (client_describe_instances :
       Heap.val → string → Heap.val → Proc.P Heap.val)
    (tag : string) (h : list Heap.obj) :
  let request sent :=
    Proc.send boto3_client client_describe_instances "Filters"
      (Heap.VRef (S (S (length h))))
      (h ++ [Heap.ODict [(Heap.VStr "Name", Heap.VStr ("tag:" +:+ tag));
                         (Heap.VStr "Values", Heap.VRef (S (length h)))];
             Heap.OList [sent];
             Heap.OList [Heap.VRef (length h)]]) in
  let call value :=
    Proc.describe_instances_by_tag boto3_client client_describe_instances
      tag value Heap.VNone h in
  call Heap.VNone = request (Heap.VStr "*")
  ∧ call (Heap.VStr "") = request (Heap.VStr "*")
  ∧ ∀ value, value ≠ "" → call (Heap.VStr value) = request (Heap.VStr value).
Proof.
  cbn zeta. split; [|split].
  - by apply (run_describe_instances_by_tag _ _ tag Heap.VNone false).
  - by apply (run_describe_instances_by_tag _ _ tag (Heap.VStr "") false).
  - intros value Hvalue.
    apply (run_describe_instances_by_tag _ _ tag (Heap.VStr value) true).
    cbn. apply String.eqb_neq in Hvalue. by rewrite Hvalue.
Qed.

Lemma contains_reads (c : Heap.val) (k : string) (h : list Heap.obj) :
  (Heap.contains c k h).2 = h.
Proof.
  destruct c as [| |l]; try done.
  unfold Heap.contains, mbind, Heap.M_bind, Heap.read.
  by destruct (h !! l) as [[?|?]|].
Qed.

Lemma returned_through_send
    (boto3_client : string → Proc.P Heap.val)
    (client_describe_instances :
       Heap.val → string → Heap.val → Proc.P Heap.val)
    (keyword : string) (argument : Heap.val) (h h' : list Heap.obj)
    (r : Heap.val) :
  Proc.send boto3_client client_describe_instances keyword argument h
    = (Proc.Returned r, h') →
  Heap.contains r "Reservations" h' = (Ok true, h').
Proof.
  unfold Proc.send. rewrite prun_bind.
  destruct (Proc.get_ec2_connection boto3_client h) as [[ec2|x] h1]; [|done].
  rewrite prun_bind.
  destruct (client_describe_instances ec2 keyword argument h1)
    as [[response|x] h2]; [|done].
  rewrite prun_bind. unfold Proc.lift.
  destruct (Heap.contains response "Reservations" h2) as [[present|e] h3]
    eqn:Hcontains; [|done].
  assert (h3 = h2) as ->.
  { pose proof (contains_reads response "Reservations" h2) as Hf.
    by rewrite Hcontains in Hf. }
  destruct present; cbn; [|done]. by intros [= <- <-].
Qed.

Lemma returned_after {A : Type} (m : Proc.P A) (k : A → Proc.P Heap.val)
    (h h' : list Heap.obj) (r : Heap.val) :
  (m ≫= k) h = (Proc.Returned r, h') →
  ∃ a h1, k a h1 = (Proc.Returned r, h').
Proof.
  rewrite prun_bind. destruct (m h) as [[a|x] h1]; [|done]. eauto.
Qed.

(** X14: a response the four functions return has passed the test
    ["Reservations" in ec2_response]: it holds that key when they return.
    When the test fails the process exits with the message of the code
    instead. *)
Theorem described_response_has_reservations
    (boto3_client : string → Proc.P Heap.val)
    (client_describe_instances :
       Heap.val → string → Heap.val → Proc.P Heap.val)
    (h h' : list Heap.obj) (response : Heap.val) :
  let returns call := call h = (Proc.Returned response, h') in
  let checked := Heap.contains response "Reservations" h' = (Ok true, h') in
  (∀ state,
     returns (Proc.describe_instances boto3_client client_describe_instances
                state) → checked)
  ∧ (∀ instance_ids,
       returns (Proc.describe_instances_by_ids boto3_client
                  client_describe_instances instance_ids) → checked)
  ∧ (∀ tag value state,
       returns (Proc.describe_instances_by_tag boto3_client
                  client_describe_instances tag value state) → checked)
  ∧ (∀ tag_filters state,
       returns (Proc.describe_instances_by_tag_filters boto3_client
                  client_describe_instances tag_filters state) → checked)
  ∧ (∀ instance_ids ec2 h1,
       Proc.get_ec2_connection boto3_client h = (Proc.Returned ec2, h1) →
       client_describe_instances ec2 "InstanceIds" instance_ids h1
         = (Proc.Returned response, h') →
       Heap.contains response "Reservations" h' = (Ok false, h') →
       Proc.describe_instances_by_ids boto3_client client_describe_instances
         instance_ids h
       = (Proc.Thrown
            (Proc.SystemExit
               "Error talking with AWS - No 'Reservations' key in Response"),
          h')).
Proof.
  cbn zeta. split; [|split; [|split; [|split]]].
  - intros state. unfold Proc.describe_instances.
    intros (? & ? & (? & ? & H)%returned_after)%returned_after.
    by eapply returned_through_send.
  - intros ids. apply returned_through_send.
  - intros tag value state. unfold Proc.describe_instances_by_tag. cbn zeta.
    intros (? & ? & (? & ? & (? & ? & (? & ? & H)%returned_after)%returned_after)%returned_after)%returned_after.
    by eapply returned_through_send.
  - intros tag_filters state. unfold Proc.describe_instances_by_tag_filters.
    cbn zeta. intros (? & ? & H)%returned_after.
    by eapply returned_through_send.
  - intros ids ec2 h1 Hconnect Hcall Hcheck.
    unfold Proc.describe_instances_by_ids, Proc.send.
    rewrite prun_bind, Hconnect. cbn beta iota.
    rewrite prun_bind, Hcall. cbn beta iota.
    rewrite prun_bind. erewrite run_lift; [|exact Hcheck]. done.
Qed.

Lemma described_response_has_reservations_witness :
  Proc.describe_instances_by_ids Stub.client Stub.describe_nothing
    Heap.VNone []
  = (Proc.Thrown
       (Proc.SystemExit
          "Error talking with AWS - No 'Reservations' key in Response"),
     [Heap.ODict []; Heap.ODict []]).
Proof.
  apply (proj2 (proj2 (proj2 (proj2
           (described_response_has_reservations Stub.client
              Stub.describe_nothing [] [Heap.ODict []; Heap.ODict []]
              (Heap.VRef 1)))))
           Heap.VNone (Heap.VRef 0) [Heap.ODict []]);
    reflexivity.
Defined.

(** X15: no exception of class [Exception] leaves [get_ec2_connection].
    When [boto3.client] raises one, the process exits with the message of
    the code, and then a [describe_instances] function exits without
    calling the API: the store is the one [boto3.client] left.  An
    exception outside class [Exception] ([KeyboardInterrupt],
    [GeneratorExit], [SystemExit]) is not caught by [except Exception]: it
    leaves [get_ec2_connection], and the [describe_instances] function, as
    [boto3.client] raised it. *)
Theorem connection_failure_exits
    (boto3_client : string → Proc.P Heap.val) (h : list Heap.obj) :
  let exit :=
    Proc.SystemExit "Error connecting to EC2 check your AWS credentials!" in
  (∀ x h',
     Proc.get_ec2_connection boto3_client h = (Proc.Thrown x, h') →
     Proc.is_exception x = false
     ∧ (boto3_client "ec2" h = (Proc.Thrown x, h')
        ∨ x = exit
          ∧ ∃ raised, Proc.is_exception raised = true
                      ∧ boto3_client "ec2" h = (Proc.Thrown raised, h')))
  ∧ (∀ x h',
       boto3_client "ec2" h = (Proc.Thrown x, h') →
       Proc.is_exception x = true →
       Proc.get_ec2_connection boto3_client h = (Proc.Thrown exit, h')
       ∧ ∀ client_describe_instances instance_ids,
           Proc.describe_instances_by_ids boto3_client
             client_describe_instances instance_ids h
           = (Proc.Thrown exit, h'))
  ∧ (∀ x h',
       boto3_client "ec2" h = (Proc.Thrown x, h') →
       Proc.is_exception x = false →
       Proc.get_ec2_connection boto3_client h = (Proc.Thrown x, h')
       ∧ ∀ client_describe_instances instance_ids,
           Proc.describe_instances_by_ids boto3_client
             client_describe_instances instance_ids h
           = (Proc.Thrown x, h')).
Proof.
  cbn zeta.
  assert (∀ x h', boto3_client "ec2" h = (Proc.Thrown x, h') →
            Proc.get_ec2_connection boto3_client h
            = (Proc.Thrown
                 (if Proc.is_exception x
                  then Proc.SystemExit
                         "Error connecting to EC2 check your AWS credentials!"
                  else x), h')) as Hconnect.
  { intros x h' Hclient.
    unfold Proc.get_ec2_connection, Proc.try_except. rewrite Hclient.
    by destruct (Proc.is_exception x). }
  split; [|split].
  - intros x h'. unfold Proc.get_ec2_connection, Proc.try_except.
    destruct (boto3_client "ec2" h) as [[a|raised] h1]; [done|].
    destruct (Proc.is_exception raised) eqn:Hclass.
    + intros [= <- <-]. split; [done|]. right. split; [done|]. by exists raised.
    + intros [= <- <-]. split; [done|]. by left.
  - intros x h' Hclient Hclass. apply Hconnect in Hclient.
    rewrite Hclass in Hclient. split; [done|]. intros cdi ids.
    unfold Proc.describe_instances_by_ids, Proc.send.
    by rewrite prun_bind, Hclient.
  - intros x h' Hclient Hclass. apply Hconnect in Hclient.
    rewrite Hclass in Hclient. split; [done|]. intros cdi ids.
    unfold Proc.describe_instances_by_ids, Proc.send.
    by rewrite prun_bind, Hclient.
Qed.

Lemma connection_failure_exits_witness :
  Proc.describe_instances_by_ids Stub.no_client Stub.describe_instances
    Heap.VNone []
  = (Proc.Thrown
       (Proc.SystemExit
          "Error connecting to EC2 check your AWS credentials!"),
     []).
Proof.
  apply (proj1 (proj2 (connection_failure_exits Stub.no_client []))
           (Proc.Exc (KeyError "credentials")) []).
  - reflexivity.
  - reflexivity.
Defined.
